(** * RealSenseImpl: triple-buffered camera pipeline and feature switches

    A shallow embedding of
    [Plugins/RealSensePlugin/Source/RealSensePlugin/Private/RealSenseImpl.cpp].

    The class [RealSenseImpl] becomes a record of its data members; every
    member function becomes a computation in a small state-and-fault monad
    over that record paired with a log of what was asked of the RealSense SDK.
    Values that come back from the SDK (status codes, the camera sample, the
    scan preview, face data) are explicit arguments of the functions that
    receive them.

    How the code is read:
    - a raw pointer to an SDK object is null, live or released; a member
      access through a null or released pointer is a fault, which ends the
      run;
    - [session] and [senseManager] are taken to have been created.  The
      constructor only logs a null [senseManager] and carries on, and the
      member functions go through it without a check; the handle is followed
      where the constructor and the destructor are modelled, and the
      statements about the resolution setters, [EnableRealSenseFeatures] and
      [StopCamera] are about calls that return;
    - [Enable3DScan], [EnableFace] and the [Query...]/[Create...] calls that
      follow them give a usable object, and so does [QuerySample] after an
      [AcquireFrame] that gave a frame;
    - an image buffer is followed by its [size()] only.  Sizes are integers
      without a bound, where the code multiplies 32-bit [int]s and hands the
      product to [std::vector::resize]; the two agree while the dimensions are
      not negative and the product fits an [int], which the statements that
      depend on a size ask for ([in_range], [resize_request]);
    - the consumer and the camera thread are interleaved at the grain of
      whole member functions and whole passes of the camera loop.  The loop
      writes numbers only into the background frame, and both exchanges of
      frames happen under [midFrameMutex].  The resizes of the resolution
      setters and of [UpdateScan3DImageSize], and the three numbers zeroed at
      the start of [CameraThread], are written without the mutex: statements
      over runs that depend on them keep the other thread away, and
      [UpdateScan3DImageSize_with_acquire] follows one such overlap. *)

From Stdlib Require Import ZArith List Ascii String Bool Lia SpecFloat Sorted.
Import ListNotations.
Local Open Scope Z_scope.

(** ** Data model *)

(** [pxcStatus]: [PXC_STATUS_NO_ERROR] is zero, errors are negative and
    warnings positive. *)
Definition pxcStatus := Z.
Definition PXC_STATUS_NO_ERROR : pxcStatus := 0.

Inductive RealSenseFeature := CAMERA_STREAMING | SCAN_3D | HEAD_TRACKING.

Definition RealSenseFeature_eqb (f g : RealSenseFeature) : bool :=
  match f, g with
  | CAMERA_STREAMING, CAMERA_STREAMING => true
  | SCAN_3D, SCAN_3D => true
  | HEAD_TRACKING, HEAD_TRACKING => true
  | _, _ => false
  end.

(** Modelled from the spec: the enumerators' values live in a header that is
    not among the sources.  The spec calls the feature set "a bit-flag-style
    set over {CAMERA_STREAMING, SCAN_3D, HEAD_TRACKING}", and the code tests
    membership with [featureSet & feature]: each feature is one bit of its
    own. *)
Definition feature_bit (f : RealSenseFeature) : Z :=
  match f with
  | CAMERA_STREAMING => 1
  | SCAN_3D => 2
  | HEAD_TRACKING => 4
  end.

(** [PXC3DScan::FileFormat]. *)
Inductive FileFormat := OBJ | PLY | STL.

(** 32-bit floats are only stored and handed on by the camera thread, never
    computed with; they are kept as IEEE values. *)
Definition float := spec_float.
Record FVector := { X : float; Y : float; Z_ : float }.
Record FRotator := { Pitch : float; Yaw : float; Roll : float }.
Definition zero_float : float := S754_zero false.

(** [FStreamResolution] and [PXCImage::ImageInfo]: only the dimensions take
    part in the buffer arithmetic; frame rate and pixel format go straight to
    the SDK. *)
Record FStreamResolution := { width : Z; height : Z }.
Record ImageInfo := { info_width : Z; info_height : Z }.

(** The image buffers are [std::vector]s.  Their pixels are produced by the
    SDK and by the copy helpers; what this file follows is [size()], the
    number of elements the vector holds. *)
Record vector := { size : Z }.
Definition resize (n : Z) (v : vector) : vector := {| size := n |}.
Definition clear (v : vector) : vector := {| size := 0 |}.

Record RealSenseDataFrame := {
  number : Z;              (* uint64 *)
  colorImage : vector;
  depthImage : vector;
  scanImage : vector;
  headCount : Z;
  headPosition : FVector;
  headRotation : FRotator
}.

(** Objects owned by the SDK, and the raw pointers the class keeps to them.
    [Release()] ends the life of the object but leaves the pointer as it
    was, which is what [released] records. *)
Inductive SdkObject :=
| Scan3DModule
| FaceModule
| FaceConfiguration (n : nat)
| FaceOutput (n : nat).

Inductive handle :=
| nullptr
| live (o : SdkObject)
| released (o : SdkObject).

Definition non_null (h : handle) : bool :=
  match h with nullptr => false | _ => true end.

Record RealSenseImpl := {
  p3DScan : handle;
  pFace : handle;
  faceConfig : handle;
  faceData : handle;
  RealSenseFeatureSet : Z;            (* uint32 *)
  colorStreamingEnabled : bool;
  depthStreamingEnabled : bool;
  scan3DEnabled : bool;
  faceEnabled : bool;
  cameraThreadRunning : bool;
  fgFrame : RealSenseDataFrame;
  midFrame : RealSenseDataFrame;
  bgFrame : RealSenseDataFrame;
  colorResolution : FStreamResolution;
  depthResolution : FStreamResolution;
  scan3DResolution : FStreamResolution;
  scan3DFileFormat : FileFormat;
  scan3DFilename : string;
  scanStarted : bool;
  scanStopped : bool;
  reconstructEnabled : bool;
  scanCompleted : bool;
  scan3DImageSizeChanged : bool;
  status : pxcStatus;
  currentFrame : Z                    (* uint64, local to CameraThread *)
}.

(** Field updates. *)
Definition set_number (v : Z) (r : RealSenseDataFrame) : RealSenseDataFrame :=
  {| number := v; colorImage := colorImage r; depthImage := depthImage r;
     scanImage := scanImage r; headCount := headCount r; headPosition :=
     headPosition r; headRotation := headRotation r |}.
Definition set_colorImage (v : vector) (r : RealSenseDataFrame) : RealSenseDataFrame :=
  {| number := number r; colorImage := v; depthImage := depthImage r;
     scanImage := scanImage r; headCount := headCount r; headPosition :=
     headPosition r; headRotation := headRotation r |}.
Definition set_depthImage (v : vector) (r : RealSenseDataFrame) : RealSenseDataFrame :=
  {| number := number r; colorImage := colorImage r; depthImage := v;
     scanImage := scanImage r; headCount := headCount r; headPosition :=
     headPosition r; headRotation := headRotation r |}.
Definition set_scanImage (v : vector) (r : RealSenseDataFrame) : RealSenseDataFrame :=
  {| number := number r; colorImage := colorImage r; depthImage :=
     depthImage r; scanImage := v; headCount := headCount r; headPosition :=
     headPosition r; headRotation := headRotation r |}.
Definition set_headCount (v : Z) (r : RealSenseDataFrame) : RealSenseDataFrame :=
  {| number := number r; colorImage := colorImage r; depthImage :=
     depthImage r; scanImage := scanImage r; headCount := v; headPosition :=
     headPosition r; headRotation := headRotation r |}.
Definition set_headPosition (v : FVector) (r : RealSenseDataFrame) : RealSenseDataFrame :=
  {| number := number r; colorImage := colorImage r; depthImage :=
     depthImage r; scanImage := scanImage r; headCount := headCount r;
     headPosition := v; headRotation := headRotation r |}.
Definition set_headRotation (v : FRotator) (r : RealSenseDataFrame) : RealSenseDataFrame :=
  {| number := number r; colorImage := colorImage r; depthImage :=
     depthImage r; scanImage := scanImage r; headCount := headCount r;
     headPosition := headPosition r; headRotation := v |}.

Definition set_p3DScan (v : handle) (r : RealSenseImpl) : RealSenseImpl :=
  let '(Build_RealSenseImpl _ x1 x2 x3 x4 x5 x6 x7 x8 x9 x10 x11 x12 x13 x14
      x15 x16 x17 x18 x19 x20 x21 x22 x23 x24) := r in
  Build_RealSenseImpl v x1 x2 x3 x4 x5 x6 x7 x8 x9 x10 x11 x12 x13 x14 x15 x16
    x17 x18 x19 x20 x21 x22 x23 x24.
Definition set_pFace (v : handle) (r : RealSenseImpl) : RealSenseImpl :=
  let '(Build_RealSenseImpl x0 _ x2 x3 x4 x5 x6 x7 x8 x9 x10 x11 x12 x13 x14
      x15 x16 x17 x18 x19 x20 x21 x22 x23 x24) := r in
  Build_RealSenseImpl x0 v x2 x3 x4 x5 x6 x7 x8 x9 x10 x11 x12 x13 x14 x15 x16
    x17 x18 x19 x20 x21 x22 x23 x24.
Definition set_faceConfig (v : handle) (r : RealSenseImpl) : RealSenseImpl :=
  let '(Build_RealSenseImpl x0 x1 _ x3 x4 x5 x6 x7 x8 x9 x10 x11 x12 x13 x14
      x15 x16 x17 x18 x19 x20 x21 x22 x23 x24) := r in
  Build_RealSenseImpl x0 x1 v x3 x4 x5 x6 x7 x8 x9 x10 x11 x12 x13 x14 x15 x16
    x17 x18 x19 x20 x21 x22 x23 x24.
Definition set_faceData (v : handle) (r : RealSenseImpl) : RealSenseImpl :=
  let '(Build_RealSenseImpl x0 x1 x2 _ x4 x5 x6 x7 x8 x9 x10 x11 x12 x13 x14
      x15 x16 x17 x18 x19 x20 x21 x22 x23 x24) := r in
  Build_RealSenseImpl x0 x1 x2 v x4 x5 x6 x7 x8 x9 x10 x11 x12 x13 x14 x15 x16
    x17 x18 x19 x20 x21 x22 x23 x24.
Definition set_RealSenseFeatureSet (v : Z) (r : RealSenseImpl) : RealSenseImpl :=
  let '(Build_RealSenseImpl x0 x1 x2 x3 _ x5 x6 x7 x8 x9 x10 x11 x12 x13 x14
      x15 x16 x17 x18 x19 x20 x21 x22 x23 x24) := r in
  Build_RealSenseImpl x0 x1 x2 x3 v x5 x6 x7 x8 x9 x10 x11 x12 x13 x14 x15 x16
    x17 x18 x19 x20 x21 x22 x23 x24.
Definition set_colorStreamingEnabled (v : bool) (r : RealSenseImpl) : RealSenseImpl :=
  let '(Build_RealSenseImpl x0 x1 x2 x3 x4 _ x6 x7 x8 x9 x10 x11 x12 x13 x14
      x15 x16 x17 x18 x19 x20 x21 x22 x23 x24) := r in
  Build_RealSenseImpl x0 x1 x2 x3 x4 v x6 x7 x8 x9 x10 x11 x12 x13 x14 x15 x16
    x17 x18 x19 x20 x21 x22 x23 x24.
Definition set_depthStreamingEnabled (v : bool) (r : RealSenseImpl) : RealSenseImpl :=
  let '(Build_RealSenseImpl x0 x1 x2 x3 x4 x5 _ x7 x8 x9 x10 x11 x12 x13 x14
      x15 x16 x17 x18 x19 x20 x21 x22 x23 x24) := r in
  Build_RealSenseImpl x0 x1 x2 x3 x4 x5 v x7 x8 x9 x10 x11 x12 x13 x14 x15 x16
    x17 x18 x19 x20 x21 x22 x23 x24.
Definition set_scan3DEnabled (v : bool) (r : RealSenseImpl) : RealSenseImpl :=
  let '(Build_RealSenseImpl x0 x1 x2 x3 x4 x5 x6 _ x8 x9 x10 x11 x12 x13 x14
      x15 x16 x17 x18 x19 x20 x21 x22 x23 x24) := r in
  Build_RealSenseImpl x0 x1 x2 x3 x4 x5 x6 v x8 x9 x10 x11 x12 x13 x14 x15 x16
    x17 x18 x19 x20 x21 x22 x23 x24.
Definition set_faceEnabled (v : bool) (r : RealSenseImpl) : RealSenseImpl :=
  let '(Build_RealSenseImpl x0 x1 x2 x3 x4 x5 x6 x7 _ x9 x10 x11 x12 x13 x14
      x15 x16 x17 x18 x19 x20 x21 x22 x23 x24) := r in
  Build_RealSenseImpl x0 x1 x2 x3 x4 x5 x6 x7 v x9 x10 x11 x12 x13 x14 x15 x16
    x17 x18 x19 x20 x21 x22 x23 x24.
Definition set_cameraThreadRunning (v : bool) (r : RealSenseImpl) : RealSenseImpl :=
  let '(Build_RealSenseImpl x0 x1 x2 x3 x4 x5 x6 x7 x8 _ x10 x11 x12 x13 x14
      x15 x16 x17 x18 x19 x20 x21 x22 x23 x24) := r in
  Build_RealSenseImpl x0 x1 x2 x3 x4 x5 x6 x7 x8 v x10 x11 x12 x13 x14 x15 x16
    x17 x18 x19 x20 x21 x22 x23 x24.
Definition set_fgFrame (v : RealSenseDataFrame) (r : RealSenseImpl) : RealSenseImpl :=
  let '(Build_RealSenseImpl x0 x1 x2 x3 x4 x5 x6 x7 x8 x9 _ x11 x12 x13 x14
      x15 x16 x17 x18 x19 x20 x21 x22 x23 x24) := r in
  Build_RealSenseImpl x0 x1 x2 x3 x4 x5 x6 x7 x8 x9 v x11 x12 x13 x14 x15 x16
    x17 x18 x19 x20 x21 x22 x23 x24.
Definition set_midFrame (v : RealSenseDataFrame) (r : RealSenseImpl) : RealSenseImpl :=
  let '(Build_RealSenseImpl x0 x1 x2 x3 x4 x5 x6 x7 x8 x9 x10 _ x12 x13 x14
      x15 x16 x17 x18 x19 x20 x21 x22 x23 x24) := r in
  Build_RealSenseImpl x0 x1 x2 x3 x4 x5 x6 x7 x8 x9 x10 v x12 x13 x14 x15 x16
    x17 x18 x19 x20 x21 x22 x23 x24.
Definition set_bgFrame (v : RealSenseDataFrame) (r : RealSenseImpl) : RealSenseImpl :=
  let '(Build_RealSenseImpl x0 x1 x2 x3 x4 x5 x6 x7 x8 x9 x10 x11 _ x13 x14
      x15 x16 x17 x18 x19 x20 x21 x22 x23 x24) := r in
  Build_RealSenseImpl x0 x1 x2 x3 x4 x5 x6 x7 x8 x9 x10 x11 v x13 x14 x15 x16
    x17 x18 x19 x20 x21 x22 x23 x24.
Definition set_colorResolution (v : FStreamResolution) (r : RealSenseImpl) : RealSenseImpl :=
  let '(Build_RealSenseImpl x0 x1 x2 x3 x4 x5 x6 x7 x8 x9 x10 x11 x12 _ x14
      x15 x16 x17 x18 x19 x20 x21 x22 x23 x24) := r in
  Build_RealSenseImpl x0 x1 x2 x3 x4 x5 x6 x7 x8 x9 x10 x11 x12 v x14 x15 x16
    x17 x18 x19 x20 x21 x22 x23 x24.
Definition set_depthResolution (v : FStreamResolution) (r : RealSenseImpl) : RealSenseImpl :=
  let '(Build_RealSenseImpl x0 x1 x2 x3 x4 x5 x6 x7 x8 x9 x10 x11 x12 x13 _
      x15 x16 x17 x18 x19 x20 x21 x22 x23 x24) := r in
  Build_RealSenseImpl x0 x1 x2 x3 x4 x5 x6 x7 x8 x9 x10 x11 x12 x13 v x15 x16
    x17 x18 x19 x20 x21 x22 x23 x24.
Definition set_scan3DResolution (v : FStreamResolution) (r : RealSenseImpl) : RealSenseImpl :=
  let '(Build_RealSenseImpl x0 x1 x2 x3 x4 x5 x6 x7 x8 x9 x10 x11 x12 x13 x14
      _ x16 x17 x18 x19 x20 x21 x22 x23 x24) := r in
  Build_RealSenseImpl x0 x1 x2 x3 x4 x5 x6 x7 x8 x9 x10 x11 x12 x13 x14 v x16
    x17 x18 x19 x20 x21 x22 x23 x24.
Definition set_scan3DFileFormat (v : FileFormat) (r : RealSenseImpl) : RealSenseImpl :=
  let '(Build_RealSenseImpl x0 x1 x2 x3 x4 x5 x6 x7 x8 x9 x10 x11 x12 x13 x14
      x15 _ x17 x18 x19 x20 x21 x22 x23 x24) := r in
  Build_RealSenseImpl x0 x1 x2 x3 x4 x5 x6 x7 x8 x9 x10 x11 x12 x13 x14 x15 v
    x17 x18 x19 x20 x21 x22 x23 x24.
Definition set_scan3DFilename (v : string) (r : RealSenseImpl) : RealSenseImpl :=
  let '(Build_RealSenseImpl x0 x1 x2 x3 x4 x5 x6 x7 x8 x9 x10 x11 x12 x13 x14
      x15 x16 _ x18 x19 x20 x21 x22 x23 x24) := r in
  Build_RealSenseImpl x0 x1 x2 x3 x4 x5 x6 x7 x8 x9 x10 x11 x12 x13 x14 x15
    x16 v x18 x19 x20 x21 x22 x23 x24.
Definition set_scanStarted (v : bool) (r : RealSenseImpl) : RealSenseImpl :=
  let '(Build_RealSenseImpl x0 x1 x2 x3 x4 x5 x6 x7 x8 x9 x10 x11 x12 x13 x14
      x15 x16 x17 _ x19 x20 x21 x22 x23 x24) := r in
  Build_RealSenseImpl x0 x1 x2 x3 x4 x5 x6 x7 x8 x9 x10 x11 x12 x13 x14 x15
    x16 x17 v x19 x20 x21 x22 x23 x24.
Definition set_scanStopped (v : bool) (r : RealSenseImpl) : RealSenseImpl :=
  let '(Build_RealSenseImpl x0 x1 x2 x3 x4 x5 x6 x7 x8 x9 x10 x11 x12 x13 x14
      x15 x16 x17 x18 _ x20 x21 x22 x23 x24) := r in
  Build_RealSenseImpl x0 x1 x2 x3 x4 x5 x6 x7 x8 x9 x10 x11 x12 x13 x14 x15
    x16 x17 x18 v x20 x21 x22 x23 x24.
Definition set_reconstructEnabled (v : bool) (r : RealSenseImpl) : RealSenseImpl :=
  let '(Build_RealSenseImpl x0 x1 x2 x3 x4 x5 x6 x7 x8 x9 x10 x11 x12 x13 x14
      x15 x16 x17 x18 x19 _ x21 x22 x23 x24) := r in
  Build_RealSenseImpl x0 x1 x2 x3 x4 x5 x6 x7 x8 x9 x10 x11 x12 x13 x14 x15
    x16 x17 x18 x19 v x21 x22 x23 x24.
Definition set_scanCompleted (v : bool) (r : RealSenseImpl) : RealSenseImpl :=
  let '(Build_RealSenseImpl x0 x1 x2 x3 x4 x5 x6 x7 x8 x9 x10 x11 x12 x13 x14
      x15 x16 x17 x18 x19 x20 _ x22 x23 x24) := r in
  Build_RealSenseImpl x0 x1 x2 x3 x4 x5 x6 x7 x8 x9 x10 x11 x12 x13 x14 x15
    x16 x17 x18 x19 x20 v x22 x23 x24.
Definition set_scan3DImageSizeChanged (v : bool) (r : RealSenseImpl) : RealSenseImpl :=
  let '(Build_RealSenseImpl x0 x1 x2 x3 x4 x5 x6 x7 x8 x9 x10 x11 x12 x13 x14
      x15 x16 x17 x18 x19 x20 x21 _ x23 x24) := r in
  Build_RealSenseImpl x0 x1 x2 x3 x4 x5 x6 x7 x8 x9 x10 x11 x12 x13 x14 x15
    x16 x17 x18 x19 x20 x21 v x23 x24.
Definition set_status (v : pxcStatus) (r : RealSenseImpl) : RealSenseImpl :=
  let '(Build_RealSenseImpl x0 x1 x2 x3 x4 x5 x6 x7 x8 x9 x10 x11 x12 x13 x14
      x15 x16 x17 x18 x19 x20 x21 x22 _ x24) := r in
  Build_RealSenseImpl x0 x1 x2 x3 x4 x5 x6 x7 x8 x9 x10 x11 x12 x13 x14 x15
    x16 x17 x18 x19 x20 x21 x22 v x24.
Definition set_currentFrame (v : Z) (r : RealSenseImpl) : RealSenseImpl :=
  let '(Build_RealSenseImpl x0 x1 x2 x3 x4 x5 x6 x7 x8 x9 x10 x11 x12 x13 x14
      x15 x16 x17 x18 x19 x20 x21 x22 x23 _) := r in
  Build_RealSenseImpl x0 x1 x2 x3 x4 x5 x6 x7 x8 x9 x10 x11 x12 x13 x14 x15
    x16 x17 x18 x19 x20 x21 x22 x23 v.

(** ** The world outside the class

    Everything the class asks of the SDK, and of the two copy helpers that
    write through a raw [data()] pointer, is appended to a log; [created]
    numbers the objects the SDK has made so far, so that two calls of a
    [Create...] function give two different objects. *)

Inductive StreamType := STREAM_TYPE_COLOR | STREAM_TYPE_DEPTH.

Inductive Call :=
| Init
| AcquireFrame
| ReleaseFrame
| Close
| EnableStream (t : StreamType) (w h : Z)
| Enable3DScan
| EnableFace
| SetStartScan (startScan : bool)
| SetConfiguration (mode : Z) (solidify texture : bool)
| ReapplyConfiguration
| SetArea (boundingBox : FVector) (resolution : Z)
| AcquirePreviewImage
| ReleaseImage
| Reconstruct (format : FileFormat) (filename : string)
| CreateActiveConfiguration (n : nat)
| SetTrackingMode
| EnablePose
| EnableAllAlerts
| ApplyChanges
| CreateOutput (n : nat)
| FaceUpdate
| Release (o : SdkObject)
| CopyColorImageToBuffer (dst_size w h : Z)
| CopyDepthImageToBuffer (dst_size w h : Z).

Record Outside := { calls : list Call; created : nat }.

Record Machine := { this : RealSenseImpl; sdk : Outside }.

(** Modelled from the spec: [CopyColorImageToBuffer] is defined in a file that
    is not among the sources.  By the spec a color buffer is "sized to the
    currently configured resolution (width x height x bytes-per-pixel)" and
    the streaming stage copies the whole payload into it, four bytes a pixel
    as in the [resize] calls: the helper writes [w * h * 4] bytes from the
    pointer it is given. *)
Definition color_copy_extent (w h : Z) : Z := w * h * 4.

(** ** Faults and the monad of member functions *)

Inductive fault := NullDereference | UseAfterRelease.

Inductive result (A : Type) :=
| Ok (a : A)
| Fault (f : fault).
Arguments Ok {A} a.
Arguments Fault {A} f.

Definition M (A : Type) : Type := Machine -> result (A * Machine).

Definition ret {A} (a : A) : M A := fun m => Ok (a, m).

Definition bind {A B} (c : M A) (k : A -> M B) : M B :=
  fun m => match c m with
           | Ok (a, m') => k a m'
           | Fault f => Fault f
           end.

Notation "x <- c ;; k" := (bind c (fun x => k))
  (at level 61, c at next level, right associativity).
Notation "c ;; k" := (bind c (fun _ => k))
  (at level 61, right associativity).

(** Reading and writing a data member. *)
Definition get {A} (field : RealSenseImpl -> A) : M A :=
  fun m => Ok (field (this m), m).

Definition put (update : RealSenseImpl -> RealSenseImpl) : M unit :=
  fun m => Ok (tt, {| this := update (this m); sdk := sdk m |}).

(** A call that leaves the class. *)
Definition call (c : Call) : M unit :=
  fun m => Ok (tt, {| this := this m;
                      sdk := {| calls := calls (sdk m) ++ [c];
                                created := created (sdk m) |} |}).

(** [p->...]: a member access through a raw pointer. *)
Definition deref (h : handle) : M SdkObject :=
  fun m => match h with
           | live o => Ok (o, m)
           | nullptr => Fault NullDereference
           | released _ => Fault UseAfterRelease
           end.

(** The number of the next object the SDK creates. *)
Definition fresh : M nat :=
  fun m => Ok (created (sdk m),
               {| this := this m;
                  sdk := {| calls := calls (sdk m);
                            created := S (created (sdk m)) |} |}).

Definition when (b : bool) (c : M unit) : M unit :=
  if b then c else ret tt.

(** Running a member function: the machine it leaves, or the fault. *)
Definition exec (c : M unit) (m : Machine) : result Machine :=
  match c m with
  | Ok (_, m') => Ok m'
  | Fault f => Fault f
  end.

(** ** Construction *)

Definition origin : FVector := {| X := zero_float; Y := zero_float; Z_ := zero_float |}.
Definition no_rotation : FRotator :=
  {| Pitch := zero_float; Yaw := zero_float; Roll := zero_float |}.

(** [new RealSenseDataFrame()]. *)
Definition new_RealSenseDataFrame : RealSenseDataFrame :=
  {| number := 0;
     colorImage := {| size := 0 |};
     depthImage := {| size := 0 |};
     scanImage := {| size := 0 |};
     headCount := 0;
     headPosition := origin;
     headRotation := no_rotation |}.

(** [RealSenseImpl::RealSenseImpl()].  The constructor assigns neither
    [faceConfig] nor [faceData]; they start null here. *)
Definition RealSenseImpl_new : RealSenseImpl :=
  {| p3DScan := nullptr;
     pFace := nullptr;
     faceConfig := nullptr;
     faceData := nullptr;
     RealSenseFeatureSet := 0;
     colorStreamingEnabled := false;
     depthStreamingEnabled := false;
     scan3DEnabled := false;
     faceEnabled := false;
     cameraThreadRunning := false;
     fgFrame := new_RealSenseDataFrame;
     midFrame := new_RealSenseDataFrame;
     bgFrame := new_RealSenseDataFrame;
     colorResolution := {| width := 0; height := 0 |};
     depthResolution := {| width := 0; height := 0 |};
     scan3DResolution := {| width := 0; height := 0 |};
     scan3DFileFormat := OBJ;
     scan3DFilename := EmptyString;
     scanStarted := false;
     scanStopped := false;
     reconstructEnabled := false;
     scanCompleted := false;
     scan3DImageSizeChanged := false;
     status := PXC_STATUS_NO_ERROR;
     currentFrame := 0 |}.

Definition power_on : Machine :=
  {| this := RealSenseImpl_new; sdk := {| calls := []; created := 0%nat |} |}.

(** ** Member functions *)

Definition update_bg (f : RealSenseDataFrame -> RealSenseDataFrame) : M unit :=
  bg <- get bgFrame ;; put (set_bgFrame (f bg)).
Definition update_mid (f : RealSenseDataFrame -> RealSenseDataFrame) : M unit :=
  mid <- get midFrame ;; put (set_midFrame (f mid)).
Definition update_fg (f : RealSenseDataFrame -> RealSenseDataFrame) : M unit :=
  fg <- get fgFrame ;; put (set_fgFrame (f fg)).

(** [RealSenseImpl::SwapFrames]: under [midFrameMutex], exchange the mid and
    foreground frames when the mid frame is the newer one. *)
Definition SwapFrames : M unit :=
  fg <- get fgFrame ;;
  mid <- get midFrame ;;
  when (number fg <? number mid)
       (put (set_fgFrame mid) ;; put (set_midFrame fg)).

(** [RealSenseImpl::EnableRealSenseFeature]. *)
Definition EnableRealSenseFeature (feature : RealSenseFeature) : M unit :=
  set <- get RealSenseFeatureSet ;;
  put (set_RealSenseFeatureSet (Z.lor set (feature_bit feature))) ;;
  when (RealSenseFeature_eqb feature CAMERA_STREAMING)
       (put (set_colorStreamingEnabled true) ;;
        put (set_depthStreamingEnabled true)) ;;
  when (RealSenseFeature_eqb feature SCAN_3D)
       (call Enable3DScan ;;
        put (set_p3DScan (live Scan3DModule)) ;;
        put (set_scan3DEnabled true)) ;;
  when (RealSenseFeature_eqb feature HEAD_TRACKING)
       (call EnableFace ;;
        put (set_pFace (live FaceModule)) ;;
        face <- get pFace ;;
        _ <- deref face ;;
        n <- fresh ;;
        call (CreateActiveConfiguration n) ;;
        put (set_faceConfig (live (FaceConfiguration n))) ;;
        config <- get faceConfig ;;
        _ <- deref config ;;
        call SetTrackingMode ;;
        call ApplyChanges ;;
        call EnablePose ;;
        call EnableAllAlerts ;;
        call ApplyChanges ;;
        put (set_faceEnabled true)).

Definition has_feature (featureSet : Z) (f : RealSenseFeature) : bool :=
  negb (Z.land featureSet (feature_bit f) =? 0).

(** [RealSenseImpl::EnableRealSenseFeatures]. *)
Definition EnableRealSenseFeatures (featureSet : Z) : M unit :=
  when (has_feature featureSet CAMERA_STREAMING)
       (EnableRealSenseFeature CAMERA_STREAMING) ;;
  when (has_feature featureSet SCAN_3D)
       (EnableRealSenseFeature SCAN_3D) ;;
  when (has_feature featureSet HEAD_TRACKING)
       (EnableRealSenseFeature HEAD_TRACKING).

(** [RealSenseImpl::DisableRealSenseFeature]. *)
Definition DisableRealSenseFeature (feature : RealSenseFeature) : M unit :=
  when (RealSenseFeature_eqb feature CAMERA_STREAMING)
       (put (set_colorStreamingEnabled false) ;;
        put (set_depthStreamingEnabled false)) ;;
  when (RealSenseFeature_eqb feature SCAN_3D)
       (put (set_scan3DEnabled false)) ;;
  when (RealSenseFeature_eqb feature HEAD_TRACKING)
       (config <- get faceConfig ;;
        c <- deref config ;;
        call (Release c) ;;
        put (set_faceConfig (released c)) ;;
        data <- get faceData ;;
        d <- deref data ;;
        call (Release d) ;;
        put (set_faceData (released d)) ;;
        put (set_faceEnabled false)).

(** [RealSenseImpl::DisableRealSenseFeatures]. *)
Definition DisableRealSenseFeatures (featureSet : Z) : M unit :=
  when (has_feature featureSet CAMERA_STREAMING)
       (DisableRealSenseFeature CAMERA_STREAMING) ;;
  when (has_feature featureSet SCAN_3D)
       (DisableRealSenseFeature SCAN_3D) ;;
  when (has_feature featureSet HEAD_TRACKING)
       (DisableRealSenseFeature HEAD_TRACKING).

(** [RealSenseImpl::StartCamera]: the new thread begins with
    [CameraThread_begin] below. *)
Definition StartCamera : M unit :=
  running <- get cameraThreadRunning ;;
  when (negb running) (put (set_cameraThreadRunning true)).

(** [RealSenseImpl::StopCamera]: once the thread is joined, disable the
    recorded feature set, close the pipeline and enable the same set again. *)
Definition StopCamera : M unit :=
  running <- get cameraThreadRunning ;;
  when running (put (set_cameraThreadRunning false)) ;;
  set <- get RealSenseFeatureSet ;;
  DisableRealSenseFeatures set ;;
  call Close ;;
  set <- get RealSenseFeatureSet ;;
  EnableRealSenseFeatures set.

(** The resolution enums and their lookup functions are declared elsewhere;
    the class is written against them. *)
Class ResolutionTables := {
  EColorResolution : Type;
  EDepthResolution : Type;
  GetEColorResolutionValue : EColorResolution -> FStreamResolution;
  GetEDepthResolutionValue : EDepthResolution -> FStreamResolution
}.

Section Resolutions.
Context {tables : ResolutionTables}.

(** [RealSenseImpl::SetColorCameraResolution]; [enabled] is what
    [EnableStream] returns. *)
Definition SetColorCameraResolution (resolution : EColorResolution)
    (enabled : pxcStatus) : M unit :=
  put (set_colorResolution (GetEColorResolutionValue resolution)) ;;
  res <- get colorResolution ;;
  call (EnableStream STREAM_TYPE_COLOR (width res) (height res)) ;;
  put (set_status enabled) ;;
  st <- get status ;;
  when (st =? PXC_STATUS_NO_ERROR)
       (res <- get colorResolution ;;
        update_bg (fun f => set_colorImage
                     (resize (width res * height res * 4) (colorImage f)) f) ;;
        update_mid (fun f => set_colorImage
                     (resize (width res * height res * 4) (colorImage f)) f) ;;
        update_fg (fun f => set_colorImage
                     (resize (width res * height res * 4) (colorImage f)) f)).

(** [RealSenseImpl::SetDepthCameraResolution]. *)
Definition SetDepthCameraResolution (resolution : EDepthResolution)
    (enabled : pxcStatus) : M unit :=
  put (set_depthResolution (GetEDepthResolutionValue resolution)) ;;
  res <- get depthResolution ;;
  call (EnableStream STREAM_TYPE_DEPTH (width res) (height res)) ;;
  put (set_status enabled) ;;
  st <- get status ;;
  when (st =? PXC_STATUS_NO_ERROR)
       (res <- get depthResolution ;;
        update_bg (fun f => set_depthImage
                     (resize (width res * height res) (depthImage f)) f) ;;
        update_mid (fun f => set_depthImage
                     (resize (width res * height res) (depthImage f)) f) ;;
        update_fg (fun f => set_depthImage
                     (resize (width res * height res) (depthImage f)) f)).

End Resolutions.

(** [RealSenseImpl::ConfigureScanning]; [configured] is what
    [SetConfiguration] returns. *)
Definition ConfigureScanning (scanningMode : Z) (solidify texture : bool)
    (configured : pxcStatus) : M bool :=
  put (set_scan3DEnabled true) ;;
  scan <- get p3DScan ;;
  _ <- deref scan ;;
  call (SetConfiguration scanningMode solidify texture) ;;
  put (set_status configured) ;;
  st <- get status ;;
  ret (st =? PXC_STATUS_NO_ERROR).

(** [RealSenseImpl::SetScanningVolume]. *)
Definition SetScanningVolume (boundingBox : FVector) (resolution : Z)
    (set : pxcStatus) : M unit :=
  scan <- get p3DScan ;;
  _ <- deref scan ;;
  call (SetArea boundingBox resolution) ;;
  put (set_status set).

(** [RealSenseImpl::StartScanning]. *)
Definition StartScanning : M unit :=
  put (set_scanStarted true) ;;
  put (set_scanCompleted false).

(** [RealSenseImpl::StopScanning]. *)
Definition StopScanning : M unit :=
  put (set_scanStopped true).

(** [RealSenseImpl::ResetScanning]. *)
Definition ResetScanning : M unit :=
  put (set_scan3DEnabled false) ;;
  scan <- get p3DScan ;;
  _ <- deref scan ;;
  call ReapplyConfiguration ;;
  put (set_scan3DEnabled true).

(** [RealSenseImpl::SaveScan]. *)
Definition SaveScan (saveFileFormat : FileFormat) (filename : string) : M unit :=
  put (set_scan3DFileFormat saveFileFormat) ;;
  put (set_scan3DFilename filename) ;;
  put (set_reconstructEnabled true).

(** [RealSenseImpl::UpdateScan3DImageSize]. *)
Definition UpdateScan3DImageSize (info : ImageInfo) : M unit :=
  res <- get scan3DResolution ;;
  if (width res =? info_width info) && (height res =? info_height info)
  then ret tt
  else
    put (set_scan3DResolution
           {| width := info_width info; height := info_height info |}) ;;
    res <- get scan3DResolution ;;
    update_bg (fun f => set_scanImage
                 (resize (width res * height res * 4) (scanImage f)) f) ;;
    update_mid (fun f => set_scanImage
                 (resize (width res * height res * 4) (scanImage f)) f) ;;
    update_fg (fun f => set_scanImage
                 (resize (width res * height res * 4) (scanImage f)) f) ;;
    put (set_scan3DImageSizeChanged true).

(** ** The camera thread *)

(** What one pass of the loop gets from the SDK: the status of
    [AcquireFrame], which streams the sample carries, the scan preview image
    if there is one, the status of [Reconstruct], and the face data. *)
Record Sample := {
  acquired : pxcStatus;
  color : bool;
  depth : bool;
  preview : option ImageInfo;
  reconstructed : pxcStatus;
  faces : Z;
  pose : option (FVector * FRotator)
}.

(** [RealSenseImpl::CameraThread] up to the loop; [initialized] is what
    [senseManager->Init()] returns.  The result tells whether the loop is
    entered. *)
Definition CameraThread_begin (initialized : pxcStatus) : M bool :=
  put (set_currentFrame 0) ;;
  update_fg (set_number 0) ;;
  update_mid (set_number 0) ;;
  update_bg (set_number 0) ;;
  call Init ;;
  put (set_status initialized) ;;
  st <- get status ;;
  if st <? PXC_STATUS_NO_ERROR then ret false
  else
    face_on <- get faceEnabled ;;
    when face_on
         (face <- get pFace ;;
          _ <- deref face ;;
          n <- fresh ;;
          call (CreateOutput n) ;;
          put (set_faceData (live (FaceOutput n)))) ;;
    ret true.

Definition color_stage (s : Sample) : M unit :=
  on <- get colorStreamingEnabled ;;
  when (on && color s)
       (update_bg (fun f => set_colorImage (clear (colorImage f)) f) ;;
        bg <- get bgFrame ;;
        res <- get colorResolution ;;
        call (CopyColorImageToBuffer (size (colorImage bg))
                                     (width res) (height res))).

Definition depth_stage (s : Sample) : M unit :=
  on <- get depthStreamingEnabled ;;
  when (on && depth s)
       (bg <- get bgFrame ;;
        res <- get depthResolution ;;
        call (CopyDepthImageToBuffer (size (depthImage bg))
                                     (width res) (height res))).

(** The four steps of the scan stage, in the order of the loop body. *)
Definition start_scan_command : M unit :=
  scan <- get p3DScan ;;
  _ <- deref scan ;;
  call (SetStartScan true) ;;
  put (set_scanStarted false).

Definition stop_scan_command : M unit :=
  scan <- get p3DScan ;;
  _ <- deref scan ;;
  call (SetStartScan false) ;;
  put (set_scanStopped false).

Definition take_preview (s : Sample) : M unit :=
  scan <- get p3DScan ;;
  _ <- deref scan ;;
  call AcquirePreviewImage ;;
  match preview s with
  | Some info =>
      UpdateScan3DImageSize info ;;
      bg <- get bgFrame ;;
      res <- get scan3DResolution ;;
      call (CopyColorImageToBuffer (size (scanImage bg))
                                   (width res) (height res)) ;;
      call ReleaseImage
  | None => ret tt
  end.

Definition reconstruct (s : Sample) : M unit :=
  scan <- get p3DScan ;;
  _ <- deref scan ;;
  format <- get scan3DFileFormat ;;
  filename <- get scan3DFilename ;;
  call (Reconstruct format filename) ;;
  put (set_status (reconstructed s)) ;;
  put (set_reconstructEnabled false) ;;
  put (set_scanCompleted true).

Definition scan_stage (s : Sample) : M unit :=
  on <- get scan3DEnabled ;;
  when on
       (started <- get scanStarted ;;
        when started start_scan_command ;;
        stopped <- get scanStopped ;;
        when stopped stop_scan_command ;;
        take_preview s ;;
        requested <- get reconstructEnabled ;;
        when requested (reconstruct s)).

Definition face_stage (s : Sample) : M unit :=
  on <- get faceEnabled ;;
  when on
       (face <- get pFace ;;
        when (non_null face)
             (data <- get faceData ;;
              _ <- deref data ;;
              call FaceUpdate ;;
              update_bg (set_headCount (faces s)) ;;
              bg <- get bgFrame ;;
              when (0 <? headCount bg)
                   match pose s with
                   | Some (position, rotation) =>
                       update_bg (set_headPosition position) ;;
                       update_bg (set_headRotation rotation)
                   | None => ret tt
                   end)).

(** Everything the loop body writes before it publishes: the new sequence
    number and the stages, all into the background frame. *)
Definition process_frame (s : Sample) : M unit :=
  n <- get currentFrame ;;
  put (set_currentFrame ((n + 1) mod 2 ^ 64)) ;;
  n <- get currentFrame ;;
  update_bg (set_number n) ;;
  color_stage s ;;
  depth_stage s ;;
  scan_stage s ;;
  face_stage s ;;
  call ReleaseFrame.

(** The end of the loop body: under [midFrameMutex], [bgFrame.swap(midFrame)]. *)
Definition publish : M unit :=
  bg <- get bgFrame ;;
  mid <- get midFrame ;;
  put (set_bgFrame mid) ;;
  put (set_midFrame bg).

(** One pass of [while (cameraThreadRunning.load() == true)].  When the flag
    is down the loop is over and nothing happens; when [AcquireFrame] does
    not give a frame the pass ends at [continue]. *)
Definition CameraThread_iteration (s : Sample) : M unit :=
  running <- get cameraThreadRunning ;;
  when running
       (call AcquireFrame ;;
        put (set_status (acquired s)) ;;
        st <- get status ;;
        when (st =? PXC_STATUS_NO_ERROR)
             (process_frame s ;; publish)).

(** ** Loading a mesh file *)

Record FColor := { R : Z; G : Z; B : Z; A : Z }.

(** The three [TArray] reference arguments of [LoadScan]. *)
Record Mesh := {
  Vertices : list FVector;
  Triangles : list Z;
  Colors : list FColor
}.

Section MeshLoader.

(** Text scanning and the arithmetic of 32-bit floats belong to the C runtime
    and the engine.  [sscanf_floats] and [sscanf_ints] give the values that
    [sscanf_s] converts, in order, before it stops (at most six); an
    unconverted variable keeps what it held. *)
Variable sscanf_floats : string -> list float.
Variable sscanf_ints : string -> list Z.
Variable ConvertRSVectorToUnreal : FVector -> FVector.
Variable FVector_add FVector_sub : FVector -> FVector -> FVector.
Variable FVector_scale FVector_div : FVector -> Z -> FVector.
Variable times_255_as_uint8 : float -> Z.

(** [x, y, z, r, g, b] and [v1, n1, v2, n2, v3, n3], in the order of the
    format strings. *)
Record Locals := { floats : list float; ints : list Z }.

Definition overwrite {T} (converted held : list T) : list T :=
  firstn (List.length held) converted ++ skipn (List.length converted) held.

Definition char_at (i : nat) (line : string) : Ascii.ascii :=
  match String.get i line with
  | Some c => c
  | None => Ascii.zero
  end.

Definition substr (from : nat) (line : string) : string :=
  String.substring from (String.length line - from) line.

Definition float_at (i : nat) (l : Locals) : float := nth i (floats l) zero_float.
Definition int_at (i : nat) (l : Locals) : Z := nth i (ints l) 0.

(** The body of [while (std::getline(file, line))]. *)
Definition read_line (line : string) (st : Locals * Mesh) : Locals * Mesh :=
  let (l, mesh) := st in
  if Ascii.eqb (char_at 0 line) "v"%char then
    if Ascii.eqb (char_at 1 line) " "%char then
      let l := {| floats := overwrite (sscanf_floats (substr 2 line)) (floats l);
                  ints := ints l |} in
      let v := {| X := float_at 0 l; Y := float_at 1 l; Z_ := float_at 2 l |} in
      (l, {| Vertices := Vertices mesh
                           ++ [FVector_scale (ConvertRSVectorToUnreal v) 150];
             Triangles := Triangles mesh;
             Colors := Colors mesh
                         ++ [{| R := times_255_as_uint8 (float_at 3 l);
                                G := times_255_as_uint8 (float_at 4 l);
                                B := times_255_as_uint8 (float_at 5 l);
                                A := 255 |}] |})
    else st
  else if Ascii.eqb (char_at 0 line) "f"%char then
    let l := {| floats := floats l;
                ints := overwrite (sscanf_ints (substr 1 line)) (ints l) |} in
    (l, {| Vertices := Vertices mesh;
           Triangles := Triangles mesh
                          ++ [int_at 0 l - 1; int_at 2 l - 1; int_at 4 l - 1];
           Colors := Colors mesh |})
  else st.

Definition read_lines (lines : list string) (st : Locals * Mesh) : Locals * Mesh :=
  fold_left (fun st line => read_line line st) lines st.

(** The end of [LoadScan]: the mean of the vertices is taken away from each. *)
Definition center (origin : FVector) (mesh : Mesh) : Mesh :=
  let MeshCenter := fold_left FVector_add (Vertices mesh) origin in
  let MeshCenter := FVector_div MeshCenter (Z.of_nat (List.length (Vertices mesh))) in
  {| Vertices := map (fun Vert => FVector_sub Vert MeshCenter) (Vertices mesh);
     Triangles := Triangles mesh;
     Colors := Colors mesh |}.

(** [RealSenseImpl::LoadScan].  [files] maps a name to the lines of the file
    when it can be opened; [uninitialized] is what the local variables hold
    before the first line; [out] is what the caller's arrays hold on entry. *)
Definition LoadScan (files : string -> option (list string))
    (uninitialized : Locals) (origin : FVector)
    (filename : string) (out : Mesh) : Mesh :=
  let out := {| Vertices := []; Triangles := Triangles out; Colors := Colors out |} in
  let out := {| Vertices := Vertices out; Triangles := []; Colors := Colors out |} in
  let out := {| Vertices := Vertices out; Triangles := Triangles out; Colors := [] |} in
  match files filename with
  | None => out
  | Some lines => center origin (snd (read_lines lines (uninitialized, out)))
  end.

End MeshLoader.

(** ** Interleavings

    The consumer and the camera thread meet only at [midFrameMutex]; an
    interleaving of the two is a list of events, each one member function
    run to its end, or one pass of the camera loop. *)

Section Program.
Context {tables : ResolutionTables}.

Inductive Event :=
| DoStartCamera
| DoStopCamera
| DoSwapFrames
| DoEnable (feature : RealSenseFeature)
| DoEnableSet (featureSet : Z)
| DoDisable (feature : RealSenseFeature)
| DoDisableSet (featureSet : Z)
| DoSetColorResolution (resolution : EColorResolution) (enabled : pxcStatus)
| DoSetDepthResolution (resolution : EDepthResolution) (enabled : pxcStatus)
| DoConfigureScanning (mode : Z) (solidify texture : bool) (configured : pxcStatus)
| DoSetScanningVolume (boundingBox : FVector) (resolution : Z) (set : pxcStatus)
| DoStartScanning
| DoStopScanning
| DoResetScanning
| DoSaveScan (format : FileFormat) (filename : string)
| ThreadBegin (initialized : pxcStatus)
| ThreadPass (s : Sample).

Definition perform (e : Event) : M unit :=
  match e with
  | DoStartCamera => StartCamera
  | DoStopCamera => StopCamera
  | DoSwapFrames => SwapFrames
  | DoEnable f => EnableRealSenseFeature f
  | DoEnableSet set => EnableRealSenseFeatures set
  | DoDisable f => DisableRealSenseFeature f
  | DoDisableSet set => DisableRealSenseFeatures set
  | DoSetColorResolution r st => SetColorCameraResolution r st
  | DoSetDepthResolution r st => SetDepthCameraResolution r st
  | DoConfigureScanning mode solidify texture st =>
      _ <- ConfigureScanning mode solidify texture st ;; ret tt
  | DoSetScanningVolume box resolution st => SetScanningVolume box resolution st
  | DoStartScanning => StartScanning
  | DoStopScanning => StopScanning
  | DoResetScanning => ResetScanning
  | DoSaveScan format filename => SaveScan format filename
  | ThreadBegin st => _ <- CameraThread_begin st ;; ret tt
  | ThreadPass s => CameraThread_iteration s
  end.

(** Running a list of events; a fault ends the run. *)
Fixpoint run (es : list Event) (m : Machine) : result Machine :=
  match es with
  | [] => Ok m
  | e :: es =>
      match exec (perform e) m with
      | Ok m' => run es m'
      | Fault f => Fault f
      end
  end.

End Program.

(** The two events of the frame ring: the producer publishes a pass of the
    loop, the consumer acquires with [SwapFrames].  [observed] lists the
    sequence number the consumer finds in the foreground frame after each
    acquire. *)
Inductive RingEvent :=
| Publish (s : Sample)
| Acquire.

Fixpoint observed (es : list RingEvent) (m : Machine) : list Z :=
  match es with
  | [] => []
  | Publish s :: es =>
      match exec (CameraThread_iteration s) m with
      | Ok m' => observed es m'
      | Fault _ => []
      end
  | Acquire :: es =>
      match exec SwapFrames m with
      | Ok m' => number (fgFrame (this m')) :: observed es m'
      | Fault _ => []
      end
  end.

(** ** Vocabulary of the statements *)

(** A member function respects a relation when every machine it can leave is
    related to the one it started from. *)
Definition respects (Rel : Machine -> Machine -> Prop) {A} (c : M A) : Prop :=
  forall m a m', c m = Ok (a, m') -> Rel m m'.

Class Order (Rel : Machine -> Machine -> Prop) : Prop := {
  Rel_refl : forall m, Rel m m;
  Rel_trans : forall a b c, Rel a b -> Rel b c -> Rel a c
}.

(** [reaches c m Q]: from [m] the function [c] returns, with a value and a
    machine that satisfy [Q]. *)
Definition reaches {A} (c : M A) (m : Machine) (Q : A -> Machine -> Prop) : Prop :=
  exists a m', c m = Ok (a, m') /\ Q a m'.

Definition fg_number (m : Machine) : Z := number (fgFrame (this m)).

Definition fg_not_older (m m' : Machine) : Prop := fg_number m <= fg_number m'.

(** The mid and foreground frames exchanged, everything else as it was. *)
Definition exchanged (r : RealSenseImpl) : RealSenseImpl :=
  set_midFrame (fgFrame r) (set_fgFrame (midFrame r) r).

(** What the stages after the color stage leave alone: the background
    frame's color buffer and what is already in the log. *)
Definition color_kept (m m' : Machine) : Prop :=
  colorImage (bgFrame (this m')) = colorImage (bgFrame (this m))
  /\ (forall c, In c (calls (sdk m)) -> In c (calls (sdk m'))).

(** What a member function leaves in the object, or the fault. *)
Definition outcome (c : M unit) (m : Machine) : result RealSenseImpl :=
  match exec c m with
  | Ok m' => Ok (this m')
  | Fault f => Fault f
  end.

Definition twice (c : M unit) : M unit := c ;; c.

Definition idempotent (c : M unit) : Prop :=
  forall m, outcome (twice c) m = outcome c m.

Definition ring (r : RealSenseImpl) : list RealSenseDataFrame :=
  [bgFrame r; midFrame r; fgFrame r].

(** What decides the scan and face stages, and the [Reconstruct] calls made
    so far. *)
Definition is_live (h : handle) : bool :=
  match h with live _ => true | _ => false end.

Definition is_Reconstruct (c : Call) : bool :=
  match c with Reconstruct _ _ => true | _ => false end.

Definition reconstructions (m : Machine) : list Call :=
  filter is_Reconstruct (calls (sdk m)).

Definition reconstruct_count (m : Machine) : nat :=
  List.length (reconstructions m).

Definition face_ready (r : RealSenseImpl) : bool :=
  negb (faceEnabled r) || negb (non_null (pFace r)) || is_live (faceData r).

Record Control := {
  c_p3DScan : handle;
  c_pFace : handle;
  c_faceData : handle;
  c_scan3DEnabled : bool;
  c_faceEnabled : bool;
  c_reconstructEnabled : bool;
  c_scanCompleted : bool;
  c_format : FileFormat;
  c_filename : string;
  c_status : pxcStatus;
  c_reconstructions : list Call
}.

Definition control (m : Machine) : Control :=
  {| c_p3DScan := p3DScan (this m);
     c_pFace := pFace (this m);
     c_faceData := faceData (this m);
     c_scan3DEnabled := scan3DEnabled (this m);
     c_faceEnabled := faceEnabled (this m);
     c_reconstructEnabled := reconstructEnabled (this m);
     c_scanCompleted := scanCompleted (this m);
     c_format := scan3DFileFormat (this m);
     c_filename := scan3DFilename (this m);
     c_status := status (this m);
     c_reconstructions := reconstructions m |}.

(** [scanCompleted] can only become true together with a new [Reconstruct]
    call. *)
Definition completed_by_reconstruct (m m' : Machine) : Prop :=
  (reconstruct_count m <= reconstruct_count m')%nat
  /\ (scanCompleted (this m') = true ->
      scanCompleted (this m) = true
      \/ (reconstruct_count m < reconstruct_count m')%nat).

Definition keeps_features (m m' : Machine) : Prop :=
  forall f, has_feature (RealSenseFeatureSet (this m)) f = true ->
            has_feature (RealSenseFeatureSet (this m')) f = true.

(** Whether the stage of a feature is switched on. *)
Definition feature_on (f : RealSenseFeature) (r : RealSenseImpl) : bool :=
  match f with
  | CAMERA_STREAMING => colorStreamingEnabled r && depthStreamingEnabled r
  | SCAN_3D => scan3DEnabled r
  | HEAD_TRACKING => faceEnabled r
  end.

Definition empty_mesh : Mesh := {| Vertices := []; Triangles := []; Colors := [] |}.

(** ** Machines and samples used as test cases *)

(** A table in which a resolution names itself. *)
Definition plain_tables : ResolutionTables :=
  {| EColorResolution := FStreamResolution;
     EDepthResolution := FStreamResolution;
     GetEColorResolutionValue := fun r => r;
     GetEDepthResolutionValue := fun r => r |}.

Definition or_power_on (r : result Machine) : Machine :=
  match r with
  | Ok m => m
  | Fault _ => power_on
  end.

Definition VGA : FStreamResolution := {| width := 640; height := 480 |}.

Definition streaming_640x480 : Machine :=
  or_power_on
    (run (tables := plain_tables)
         [DoSetColorResolution (tables := plain_tables) VGA PXC_STATUS_NO_ERROR;
          DoSetDepthResolution (tables := plain_tables) VGA PXC_STATUS_NO_ERROR;
          DoEnable CAMERA_STREAMING;
          DoStartCamera;
          ThreadBegin PXC_STATUS_NO_ERROR]
         power_on).

Definition color_and_depth : Sample :=
  {| acquired := PXC_STATUS_NO_ERROR;
     color := true;
     depth := true;
     preview := None;
     reconstructed := PXC_STATUS_NO_ERROR;
     faces := 0;
     pose := None |}.

Definition nothing_new : Sample :=
  {| acquired := PXC_STATUS_NO_ERROR;
     color := false;
     depth := false;
     preview := None;
     reconstructed := PXC_STATUS_NO_ERROR;
     faces := 0;
     pose := None |}.

Definition first_published : Machine :=
  or_power_on (exec (CameraThread_iteration color_and_depth) streaming_640x480).

Definition scanning_with_request : Machine :=
  or_power_on
    (run (tables := plain_tables)
         [DoEnable SCAN_3D;
          DoStartCamera;
          ThreadBegin PXC_STATUS_NO_ERROR;
          DoSaveScan OBJ "x.obj"]
         power_on).

Definition failed_reconstruction : Sample :=
  {| acquired := PXC_STATUS_NO_ERROR;
     color := false;
     depth := false;
     preview := None;
     reconstructed := -1;
     faces := 0;
     pose := None |}.



(** CAMERA_STREAMING enabled, disabled again, and then [StopCamera]. *)
Definition streaming_disabled : Machine :=
  or_power_on
    (run (tables := plain_tables)
         [DoEnable CAMERA_STREAMING; DoDisable CAMERA_STREAMING] power_on).

(** Head tracking in use: enabled, camera started. *)
Definition tracking : Machine :=
  or_power_on
    (run (tables := plain_tables)
         [DoEnable HEAD_TRACKING; DoStartCamera; ThreadBegin PXC_STATUS_NO_ERROR]
         power_on).

Definition no_files (name : string) : option (list string) := None.

Definition held_before : Mesh :=
  {| Vertices := [origin]; Triangles := [0; 0; 0]; Colors := [] |}.

(** ** Further vocabulary: the frame ring and its counter *)

(** The sequence numbers of the three frames and the loop's counter. *)
Definition numbers (r : RealSenseImpl) : Z * Z * Z * Z :=
  (number (fgFrame r), number (midFrame r), number (bgFrame r), currentFrame r).

Definition numbers_kept (m m' : Machine) : Prop :=
  numbers (this m') = numbers (this m).

(** The frame stamped last is in the mid or in the foreground slot, and no
    frame carries a number above the counter. *)
Definition newest_at_hand (r : RealSenseImpl) : Prop :=
  (number (midFrame r) = currentFrame r \/ number (fgFrame r) = currentFrame r)
  /\ number (fgFrame r) <= currentFrame r
  /\ number (midFrame r) <= currentFrame r
  /\ number (bgFrame r) <= currentFrame r
  /\ 0 <= currentFrame r.

Section RingEvents.
Context {tables : ResolutionTables}.

(** The events of one life of the camera thread: everything but its
    prologue. *)
Definition within_thread (e : Event) : bool :=
  match e with
  | ThreadBegin _ => false
  | _ => true
  end.

(** What an event publishes: a pass of a running loop that has a frame puts
    the frame it stamped into the mid slot. *)
Definition published_by (e : Event) (m m' : Machine) : list Z :=
  match e with
  | ThreadPass s =>
      if cameraThreadRunning (this m) && (acquired s =? PXC_STATUS_NO_ERROR)
      then [number (midFrame (this m'))]
      else []
  | _ => []
  end.

(** The numbers of the frames published in the course of a run, oldest
    first. *)
Fixpoint published (es : list Event) (m : Machine) : list Z :=
  match es with
  | [] => []
  | e :: es =>
      match exec (perform e) m with
      | Ok m' => published_by e m m' ++ published es m'
      | Fault _ => []
      end
  end.

(** [always ok es m]: every event of the run meets [ok] in the state it
    starts from. *)
Fixpoint always (ok : Event -> RealSenseImpl -> bool) (es : list Event)
    (m : Machine) : bool :=
  match es with
  | [] => true
  | e :: es =>
      ok e (this m)
      && match exec (perform e) m with
         | Ok m' => always ok es m'
         | Fault _ => true
         end
  end.

End RingEvents.

(** The machine after a pass that got no frame. *)
Definition no_frame (s : Sample) (m : Machine) : Machine :=
  {| this := set_status (acquired s) (this m);
     sdk := {| calls := calls (sdk m) ++ [AcquireFrame];
               created := created (sdk m) |} |}.

(** ** Further vocabulary: buffers and resolutions *)

(** The code computes a buffer size as a product of [int]s and hands it to
    [std::vector::resize], which takes a [size_t].  [wrap_int32] is the value
    a 32-bit [int] holds; a negative [int] becomes a [size_t] above
    [max_size()], for which [resize] throws. *)
Definition wrap_int32 (z : Z) : Z := (z + 2 ^ 31) mod 2 ^ 32 - 2 ^ 31.

(** The size [resize] is asked for, or [None] when it throws. *)
Definition resize_request (w h per_pixel : Z) : option Z :=
  let n := wrap_int32 (wrap_int32 (w * h) * per_pixel) in
  if 0 <=? n then Some n else None.

(** Dimensions for which the product is what the integers give. *)
Definition in_range (res : FStreamResolution) (per_pixel : Z) : Prop :=
  0 <= width res /\ 0 <= height res
  /\ width res * height res * per_pixel < 2 ^ 31.

Definition preview_in_range (info : ImageInfo) : Prop :=
  in_range {| width := info_width info; height := info_height info |} 4.

Definition sample_in_range (s : Sample) : Prop :=
  match preview s with
  | Some info => preview_in_range info
  | None => True
  end.

(** The color (depth) buffers of the three frames at a new size. *)
Definition with_color_size (n : Z) (r : RealSenseImpl) : RealSenseImpl :=
  set_fgFrame (set_colorImage {| size := n |} (fgFrame r))
    (set_midFrame (set_colorImage {| size := n |} (midFrame r))
       (set_bgFrame (set_colorImage {| size := n |} (bgFrame r)) r)).

Definition with_depth_size (n : Z) (r : RealSenseImpl) : RealSenseImpl :=
  set_fgFrame (set_depthImage {| size := n |} (fgFrame r))
    (set_midFrame (set_depthImage {| size := n |} (midFrame r))
       (set_bgFrame (set_depthImage {| size := n |} (bgFrame r)) r)).

(** The claim that a refused stream leaves the object as it was. *)
Definition unchanged_on_error {tables : ResolutionTables} : Prop :=
  (forall (resolution : EColorResolution) (enabled : pxcStatus) (m m' : Machine),
      enabled <> PXC_STATUS_NO_ERROR ->
      exec (SetColorCameraResolution resolution enabled) m = Ok m' ->
      this m' = this m)
  /\ (forall (resolution : EDepthResolution) (enabled : pxcStatus) (m m' : Machine),
         enabled <> PXC_STATUS_NO_ERROR ->
         exec (SetDepthCameraResolution resolution enabled) m = Ok m' ->
         this m' = this m).

Definition HD1080 : FStreamResolution := {| width := 1920; height := 1080 |}.

(** Streaming at 640 x 480 after a request for 1920 x 1080 was refused. *)
Definition refused_1080p : Machine :=
  or_power_on
    (exec (SetColorCameraResolution (tables := plain_tables) HD1080 (-1))
          streaming_640x480).

Definition refused_depth_1080p : Machine :=
  or_power_on
    (exec (SetDepthCameraResolution (tables := plain_tables) HD1080 (-1))
          streaming_640x480).

(** The scan preview buffers of the three frames hold what
    [scan3DResolution] asks for. *)
Definition scan_sized (r : RealSenseImpl) : Prop :=
  size (scanImage (bgFrame r))
  = width (scan3DResolution r) * height (scan3DResolution r) * 4
  /\ size (scanImage (midFrame r))
     = width (scan3DResolution r) * height (scan3DResolution r) * 4
  /\ size (scanImage (fgFrame r))
     = width (scan3DResolution r) * height (scan3DResolution r) * 4.

(** [UpdateScan3DImageSize] statement by statement: lines 535-536, 538, 539,
    540 and 542. *)
Definition store_scan_resolution (info : ImageInfo) : M unit :=
  put (set_scan3DResolution
         {| width := info_width info; height := info_height info |}).

Definition resize_scan_bg : M unit :=
  res <- get scan3DResolution ;;
  update_bg (fun f => set_scanImage
               (resize (width res * height res * 4) (scanImage f)) f).

Definition resize_scan_mid : M unit :=
  res <- get scan3DResolution ;;
  update_mid (fun f => set_scanImage
                (resize (width res * height res * 4) (scanImage f)) f).

Definition resize_scan_fg : M unit :=
  res <- get scan3DResolution ;;
  update_fg (fun f => set_scanImage
               (resize (width res * height res * 4) (scanImage f)) f).

Definition UpdateScan3DImageSize_in_steps (info : ImageInfo) : M unit :=
  res <- get scan3DResolution ;;
  if (width res =? info_width info) && (height res =? info_height info)
  then ret tt
  else
    store_scan_resolution info ;;
    resize_scan_bg ;;
    resize_scan_mid ;;
    resize_scan_fg ;;
    put (set_scan3DImageSizeChanged true).

(** The camera thread in [UpdateScan3DImageSize] while the consumer calls
    [SwapFrames]: the three resizes are made without [midFrameMutex], so the
    exchange can fall between the resize of the mid frame (line 539) and the
    resize of the foreground frame (line 540). *)
Definition UpdateScan3DImageSize_with_acquire (info : ImageInfo) : M unit :=
  res <- get scan3DResolution ;;
  if (width res =? info_width info) && (height res =? info_height info)
  then SwapFrames
  else
    store_scan_resolution info ;;
    resize_scan_bg ;;
    resize_scan_mid ;;
    SwapFrames ;;
    resize_scan_fg ;;
    put (set_scan3DImageSizeChanged true).

Definition size_flag_kept (m m' : Machine) : Prop :=
  scan3DImageSizeChanged (this m) = true ->
  scan3DImageSizeChanged (this m') = true.

(** A scan sample with a preview image of the given size. *)
Definition preview_of (w h : Z) : Sample :=
  {| acquired := PXC_STATUS_NO_ERROR;
     color := false;
     depth := false;
     preview := Some {| info_width := w; info_height := h |};
     reconstructed := PXC_STATUS_NO_ERROR;
     faces := 0;
     pose := None |}.

(** The 3D scan in use: enabled, camera started. *)
Definition scanning : Machine :=
  or_power_on
    (run (tables := plain_tables)
         [DoEnable SCAN_3D; DoStartCamera; ThreadBegin PXC_STATUS_NO_ERROR]
         power_on).

(** The same after a first pass with a 320 x 240 preview image: the mid slot
    holds frame 1, which the consumer has not taken yet. *)
Definition scanning_320x240 : Machine :=
  or_power_on (exec (CameraThread_iteration (preview_of 320 240)) scanning).

(** The depth buffers of the three frames hold what [depthResolution] asks
    for. *)
Definition depth_sized (r : RealSenseImpl) : Prop :=
  size (depthImage (bgFrame r))
  = width (depthResolution r) * height (depthResolution r)
  /\ size (depthImage (midFrame r))
     = width (depthResolution r) * height (depthResolution r)
  /\ size (depthImage (fgFrame r))
     = width (depthResolution r) * height (depthResolution r).

Definition depth_sized_kept (m m' : Machine) : Prop :=
  depth_sized (this m) -> depth_sized (this m').

Section DepthEvents.
Context {tables : ResolutionTables}.

(** Every event but a [SetDepthCameraResolution] whose stream was refused. *)
Definition depth_stream_accepted (e : Event) : bool :=
  match e with
  | DoSetDepthResolution _ enabled => enabled =? PXC_STATUS_NO_ERROR
  | _ => true
  end.

(** A depth resolution is set while the camera thread is not running, for a
    resolution in range, and the stream is accepted. *)
Definition depth_change_in_order (e : Event) (r : RealSenseImpl) : bool :=
  match e with
  | DoSetDepthResolution resolution enabled =>
      negb (cameraThreadRunning r)
      && (enabled =? PXC_STATUS_NO_ERROR)
      && (0 <=? width (GetEDepthResolutionValue resolution))
      && (0 <=? height (GetEDepthResolutionValue resolution))
      && (width (GetEDepthResolutionValue resolution)
          * height (GetEDepthResolutionValue resolution) <? 2 ^ 31)
  | _ => true
  end.

End DepthEvents.

Definition QVGA : FStreamResolution := {| width := 320; height := 240 |}.

(** Depth streaming at 320 x 240. *)
Definition depth_streaming_320x240 : Machine :=
  or_power_on
    (run (tables := plain_tables)
         [DoSetDepthResolution (tables := plain_tables) QVGA PXC_STATUS_NO_ERROR;
          DoEnable CAMERA_STREAMING;
          DoStartCamera;
          ThreadBegin PXC_STATUS_NO_ERROR]
         power_on).

(** The camera is stopped, the depth resolution changed, and the camera
    started again. *)
Definition depth_change_while_stopped : list (@Event plain_tables) :=
  [ThreadPass color_and_depth; DoSwapFrames; DoStopCamera;
   DoSetDepthResolution (tables := plain_tables) VGA PXC_STATUS_NO_ERROR;
   DoStartCamera; ThreadBegin PXC_STATUS_NO_ERROR;
   ThreadPass color_and_depth; DoSwapFrames].

(** ** Further vocabulary: the scan requests *)

(** The commands the scan module has been sent. *)
Definition is_scan_command (c : Call) : bool :=
  match c with
  | SetStartScan _ | Reconstruct _ _ => true
  | _ => false
  end.

Definition scan_commands (m : Machine) : list Call :=
  filter is_scan_command (calls (sdk m)).

(** What the scan stage reads and writes, and what the face stage needs. *)
Record ScanView := {
  v_scanStarted : bool;
  v_scanStopped : bool;
  v_reconstructEnabled : bool;
  v_scanCompleted : bool;
  v_scan3DEnabled : bool;
  v_p3DScan : handle;
  v_faceEnabled : bool;
  v_pFace : handle;
  v_faceData : handle;
  v_format : FileFormat;
  v_filename : string;
  v_commands : list Call
}.

Definition scan_view (m : Machine) : ScanView :=
  {| v_scanStarted := scanStarted (this m);
     v_scanStopped := scanStopped (this m);
     v_reconstructEnabled := reconstructEnabled (this m);
     v_scanCompleted := scanCompleted (this m);
     v_scan3DEnabled := scan3DEnabled (this m);
     v_p3DScan := p3DScan (this m);
     v_faceEnabled := faceEnabled (this m);
     v_pFace := pFace (this m);
     v_faceData := faceData (this m);
     v_format := scan3DFileFormat (this m);
     v_filename := scan3DFilename (this m);
     v_commands := scan_commands m |}.

(** Every call that goes through [p3DScan].  [SetStartScan b] stands for the
    pair [QueryConfiguration]/[SetConfiguration] with [startScan = b] of the
    loop, [ReapplyConfiguration] for the same pair in [ResetScanning]. *)
Definition through_p3DScan (c : Call) : bool :=
  match c with
  | SetStartScan _ | SetConfiguration _ _ _ | ReapplyConfiguration
  | SetArea _ _ | AcquirePreviewImage | Reconstruct _ _ => true
  | _ => false
  end.

Definition scan_module_calls (m : Machine) : list Call :=
  filter through_p3DScan (calls (sdk m)).

Definition module_view (m : Machine) : ScanView :=
  {| v_scanStarted := scanStarted (this m);
     v_scanStopped := scanStopped (this m);
     v_reconstructEnabled := reconstructEnabled (this m);
     v_scanCompleted := scanCompleted (this m);
     v_scan3DEnabled := scan3DEnabled (this m);
     v_p3DScan := p3DScan (this m);
     v_faceEnabled := faceEnabled (this m);
     v_pFace := pFace (this m);
     v_faceData := faceData (this m);
     v_format := scan3DFileFormat (this m);
     v_filename := scan3DFilename (this m);
     v_commands := scan_module_calls m |}.

(** The calls one pass makes through [p3DScan] for the requests pending in
    [r]: start, stop, the preview image, reconstruct. *)
Definition module_calls_for (r : RealSenseImpl) : list Call :=
  (if scanStarted r then [SetStartScan true] else [])
  ++ (if scanStopped r then [SetStartScan false] else [])
  ++ [AcquirePreviewImage]
  ++ (if reconstructEnabled r
      then [Reconstruct (scan3DFileFormat r) (scan3DFilename r)] else []).

(** The commands one pass sends for the requests pending in [r]: start
    before stop before reconstruct. *)
Definition commands_for (r : RealSenseImpl) : list Call :=
  (if scanStarted r then [SetStartScan true] else [])
  ++ (if scanStopped r then [SetStartScan false] else [])
  ++ (if reconstructEnabled r
      then [Reconstruct (scan3DFileFormat r) (scan3DFilename r)] else []).

(** Start, stop and save all requested before the next pass. *)
Definition scanning_all_requested : Machine :=
  or_power_on
    (run (tables := plain_tables)
         [DoStartScanning; DoStopScanning; DoSaveScan PLY "scan.ply"]
         scanning).

(** The same requests on an object whose scan feature was never enabled. *)
Definition requests_without_scan : Machine :=
  or_power_on
    (run (tables := plain_tables)
         [DoEnable CAMERA_STREAMING; DoStartCamera;
          ThreadBegin PXC_STATUS_NO_ERROR;
          DoStartScanning; DoStopScanning; DoSaveScan PLY "scan.ply"]
         power_on).

(** ** Further vocabulary: handles the loop goes through *)

Definition face_kept (m m' : Machine) : Prop :=
  faceEnabled (this m') = faceEnabled (this m)
  /\ pFace (this m') = pFace (this m)
  /\ faceData (this m') = faceData (this m).

(** The scan stage is on only with a live scan module. *)
Definition scan_usable (r : RealSenseImpl) : Prop :=
  scan3DEnabled r = true -> is_live (p3DScan r) = true.

Definition scan_usable_kept (m m' : Machine) : Prop :=
  scan_usable (this m) -> scan_usable (this m').

(** Head tracking enabled only after the camera thread has begun. *)
Definition tracking_enabled_late : Machine :=
  or_power_on
    (run (tables := plain_tables)
         [DoStartCamera; ThreadBegin PXC_STATUS_NO_ERROR; DoEnable HEAD_TRACKING]
         power_on).

(** ** Further vocabulary: the lines of a mesh file *)

(** A vertex record starts with "v" and a blank; [vn] and [vt] records and
    everything else that starts with "v" is passed over. *)
Definition is_vertex_line (line : string) : bool :=
  Ascii.eqb (char_at 0 line) "v"%char && Ascii.eqb (char_at 1 line) " "%char.

Definition is_face_line (line : string) : bool :=
  Ascii.eqb (char_at 0 line) "f"%char.

Definition a_mesh_file : list string :=
  ["# two triangles"; "v 0 0 0 1 0 0"; "vn 0 0 1"; "v 1 0 0 0 1 0";
   "v 1 1 0 0 0 1"; ""; "v 0 1 0 1 1 1"; "f 1//1 2//1 3//1"; "f 1//1 3//1 4//1"]%string.



(** ** The arithmetic of the engine on 32-bit floats

    [FVector] is a triple of IEEE binary32 numbers (24 bits of precision,
    exponents up to 128).  Its operators work coordinate by coordinate with
    round to nearest even: [+=], [-=], [* float], and [/= float], which
    multiplies by the reciprocal of its argument.  An [int] argument is
    converted to [float] first. *)

Definition b32_add : float -> float -> float := SFadd 24 128.
Definition b32_sub : float -> float -> float := SFsub 24 128.
Definition b32_mul : float -> float -> float := SFmul 24 128.
Definition b32_div : float -> float -> float := SFdiv 24 128.
Definition b32_of_Z (z : Z) : float := binary_normalize 24 128 z 0 false.

Definition pointwise (op : float -> float -> float) (a b : FVector) : FVector :=
  {| X := op (X a) (X b); Y := op (Y a) (Y b); Z_ := op (Z_ a) (Z_ b) |}.

Definition by_scalar (op : float -> float -> float) (a : FVector) (k : float)
  : FVector :=
  {| X := op (X a) k; Y := op (Y a) k; Z_ := op (Z_ a) k |}.

Definition FVector_add32 : FVector -> FVector -> FVector := pointwise b32_add.
Definition FVector_sub32 : FVector -> FVector -> FVector := pointwise b32_sub.
Definition FVector_scale32 (v : FVector) (k : Z) : FVector :=
  by_scalar b32_mul v (b32_of_Z k).
Definition FVector_div32 (v : FVector) (n : Z) : FVector :=
  by_scalar b32_mul v (b32_div (b32_of_Z 1) (b32_of_Z n)).


(** [sscanf_s] with "%f %f %f %f %f %f" on records whose numbers are written
    as non-negative integers: the numbers before the first character that is
    neither a digit nor a blank, at most six. *)
Definition digit (c : ascii) : option Z :=
  let n := Z.of_nat (nat_of_ascii c) - 48 in
  if (0 <=? n) && (n <=? 9) then Some n else None.

Fixpoint scan_numbers (s : string) (current : option Z) : list Z :=
  match s with
  | EmptyString => match current with Some n => [n] | None => [] end
  | String c rest =>
      match digit c with
      | Some d =>
          scan_numbers rest
            (Some (10 * match current with Some n => n | None => 0 end + d))
      | None =>
          match current with
          | Some n => if Ascii.eqb c " " then n :: scan_numbers rest None else [n]
          | None => if Ascii.eqb c " " then scan_numbers rest None else []
          end
      end
  end.

Definition sscanf_floats32 (s : string) : list float :=
  map b32_of_Z (firstn 6 (scan_numbers s None)).

(** [(uint8)(r * 255)]. *)
Definition truncate (f : float) : Z :=
  match f with
  | S754_finite s m e =>
      let n := if 0 <=? e then Zpos m * 2 ^ e else Zpos m / 2 ^ (- e) in
      if s then - n else n
  | _ => 0
  end.

Definition times_255_as_uint8_32 (r : float) : Z :=
  truncate (b32_mul r (b32_of_Z 255)) mod 256.






(** The value of a finite float in units of 2^-149, the smallest positive
    binary32 number: an integer, and the sum of such values is exact. *)
Definition in_units (f : float) : Z :=
  match f with
  | S754_finite s m e => (if s then -1 else 1) * Zpos m * 2 ^ (e + 149)
  | _ => 0
  end.

Definition is_finite (f : float) : bool :=
  match f with
  | S754_finite _ _ _ | S754_zero _ => true
  | _ => false
  end.

(** The exact sum of the vertices, coordinate by coordinate, when all of
    them are finite. *)
Definition exact_sum (vertices : list FVector) : option (Z * Z * Z) :=
  if forallb (fun v => is_finite (X v) && is_finite (Y v) && is_finite (Z_ v))
             vertices
  then Some (fold_left Z.add (map (fun v => in_units (X v)) vertices) 0,
             fold_left Z.add (map (fun v => in_units (Y v)) vertices) 0,
             fold_left Z.add (map (fun v => in_units (Z_ v)) vertices) 0)
  else None.

(** Seven vertices: one at (1, 1, 1) and six at the origin. *)
Definition seven_vertices : list string :=
  ["v 1 1 1 1 1 1"; "v 0 0 0 0 0 0"; "v 0 0 0 0 0 0"; "v 0 0 0 0 0 0";
   "v 0 0 0 0 0 0"; "v 0 0 0 0 0 0"; "v 0 0 0 0 0 0"]%string.

Definition six_locals : Locals :=
  {| floats := repeat zero_float 6; ints := repeat 0 6 |}.

(** [LoadScan] on the seven vertices with the arithmetic above. *)
Definition LoadScan_seven_vertices (convert : FVector -> FVector)
    (divide : FVector -> Z -> FVector) : Mesh :=
  LoadScan sscanf_floats32 (fun _ => []) convert
           FVector_add32 FVector_sub32 FVector_scale32 divide
           times_255_as_uint8_32
           (fun _ => Some seven_vertices) six_locals origin "seven.obj"
           empty_mesh.



(** ** Further vocabulary: feature sets *)

(** The three feature bits together. *)
Definition all_features : Z := 7.

(** The position of a feature's bit. *)
Definition feature_index (f : RealSenseFeature) : Z :=
  match f with
  | CAMERA_STREAMING => 0
  | SCAN_3D => 1
  | HEAD_TRACKING => 2
  end.

(** The machine after the first [StopCamera] on [tracking]. *)
Definition tracking_stopped : Machine := or_power_on (exec StopCamera tracking).

(** ** Finding the camera, and letting it go

    [RealSenseImpl::RealSenseImpl()], lines 23 to 48, and
    [RealSenseImpl::~RealSenseImpl()].  What the session answers is data:
    the capture modules it lists in the order of [QueryImpl], for each
    whether [CreateImpl] succeeds, and the device infos it gives in the
    order of [QueryDeviceInfo].  A call that fails leaves its output
    argument as it was. *)

Inductive DeviceModel :=
| DEVICE_MODEL_GENERIC
| DEVICE_MODEL_F200
| DEVICE_MODEL_R200
| DEVICE_MODEL_other (code : Z).

Record DeviceInfo := { model : DeviceModel; firmware : Z * Z * Z * Z }.

(** [deviceInfo = {}]. *)
Definition no_info : DeviceInfo :=
  {| model := DEVICE_MODEL_GENERIC; firmware := (0, 0, 0, 0) |}.

Record CaptureModule := { creatable : bool; infos : list DeviceInfo }.

(** [capture] is the index of the module it was created from, [device] the
    module and the index it was created with; [None] is the null pointer. *)
Record Discovery := {
  capture : option nat;
  device : option (nat * nat);
  deviceInfo : DeviceInfo
}.

Definition is_RealSense (info : DeviceInfo) : bool :=
  match model info with
  | DEVICE_MODEL_F200 | DEVICE_MODEL_R200 => true
  | _ => false
  end.

(** [for (int j = 0; ; j++)]: the loop over the devices of module [m]. *)
Fixpoint query_devices (m j : nat) (answers : list DeviceInfo) (d : Discovery)
  : Discovery :=
  match answers with
  | [] => d
  | info :: answers =>
      query_devices m (S j) answers
        {| capture := capture d;
           device := if is_RealSense info then Some (m, j) else device d;
           deviceInfo := info |}
  end.

(** [for (int m = 0; ; m++)]: the loop over the capture modules. *)
Fixpoint query_modules (m : nat) (modules : list CaptureModule) (d : Discovery)
  : Discovery :=
  match modules with
  | [] => d
  | c :: modules =>
      if creatable c
      then query_modules (S m) modules
             (query_devices m 0 (infos c)
                {| capture := Some m; device := device d;
                   deviceInfo := deviceInfo d |})
      else query_modules (S m) modules d
  end.

Definition find_camera (modules : list CaptureModule) : Discovery :=
  query_modules 0 modules
    {| capture := None; device := None; deviceInfo := no_info |}.

Inductive ECameraModel := F200 | R200 | Other.

(** [RealSenseImpl::GetCameraModel]. *)
Definition GetCameraModel (d : Discovery) : ECameraModel :=
  match model (deviceInfo d) with
  | DEVICE_MODEL_F200 => F200
  | DEVICE_MODEL_R200 => R200
  | _ => Other
  end.

Inductive Released :=
| JoinedThread
| ReleasedDevice (m j : nat)
| ReleasedCapture (m : nat)
| ReleasedSenseManager
| ReleasedSession.

(** What the constructor leaves: [senseManager], which is null when
    [CreateSenseManager] failed, and what the two loops found. *)
Record Constructed := {
  senseManager : bool;
  found : Discovery
}.

(** [RealSenseImpl::RealSenseImpl()], lines 11 to 48.  [session_created] and
    [manager_created] tell whether [PXCSession::CreateInstance] and
    [CreateSenseManager] gave an object.  A null [session] is logged and then
    gone through at line 17; a null [senseManager] is logged and kept. *)
Definition constructor (session_created manager_created : bool)
    (modules : list CaptureModule) : result Constructed :=
  if session_created
  then Ok {| senseManager := manager_created; found := find_camera modules |}
  else Fault NullDereference.

(** [RealSenseImpl::~RealSenseImpl()]: what is joined and released, in
    order, or the fault.  Only [device] is looked at before it is gone
    through. *)
Definition destructor (running : bool) (c : Constructed) : result (list Released) :=
  let joined := if running then [JoinedThread] else [] in
  let device_released :=
    match device (found c) with
    | Some (m, j) => [ReleasedDevice m j]
    | None => []
    end in
  match capture (found c) with
  | None => Fault NullDereference
  | Some m =>
      if senseManager c
      then Ok (joined ++ device_released
               ++ [ReleasedCapture m; ReleasedSenseManager; ReleasedSession])
      else Fault NullDereference
  end.

Definition is_fault {T} (r : result T) : bool :=
  match r with Fault _ => true | Ok _ => false end.

(** Every device info the session gives, in the order it is read. *)
Definition listed (modules : list CaptureModule) : list DeviceInfo :=
  List.concat (map infos (filter creatable modules)).

(** A RealSense camera listed before a webcam. *)
Definition camera_then_webcam : list CaptureModule :=
  [{| creatable := false; infos := [] |};
   {| creatable := true;
      infos := [{| model := DEVICE_MODEL_F200; firmware := (2, 60, 0, 0) |};
                {| model := DEVICE_MODEL_GENERIC; firmware := (0, 0, 0, 0) |}] |}].

(** ** Further vocabulary: the head data of a frame *)

Definition head_data (f : RealSenseDataFrame) : Z * FVector * FRotator :=
  (headCount f, headPosition f, headRotation f).

Definition head_kept (m m' : Machine) : Prop :=
  face_kept m m'
  /\ head_data (bgFrame (this m')) = head_data (bgFrame (this m)).

(** A sample with one face and its pose. *)
Definition one_face (position : FVector) (rotation : FRotator) : Sample :=
  {| acquired := PXC_STATUS_NO_ERROR;
     color := false;
     depth := false;
     preview := None;
     reconstructed := PXC_STATUS_NO_ERROR;
     faces := 1;
     pose := Some (position, rotation) |}.

Definition somewhere : FVector :=
  {| X := S754_finite false 1 0; Y := zero_float; Z_ := S754_finite false 3 0 |}.

(** ** Further vocabulary: counting frames *)

Definition running_kept (m m' : Machine) : Prop :=
  cameraThreadRunning (this m') = cameraThreadRunning (this m).

(** The passes of a list of samples that get a frame. *)
Definition frames_acquired (samples : list Sample) : Z :=
  Z.of_nat (List.length
              (filter (fun s => acquired s =? PXC_STATUS_NO_ERROR) samples)).

Section Passes.
Context {tables : ResolutionTables}.

Definition passes (samples : list Sample) : list Event :=
  map ThreadPass samples.

End Passes.

Definition no_frame_sample : Sample :=
  {| acquired := -1;
     color := true;
     depth := true;
     preview := None;
     reconstructed := PXC_STATUS_NO_ERROR;
     faces := 0;
     pose := None |}.

(** ** Reasoning about member functions *)

Section Respects.
Context {Rel : Machine -> Machine -> Prop} {order : Order Rel}.

Lemma respects_ret {A} (a : A) : respects Rel (ret a).
Proof. intros m b m' H. inversion H. apply Rel_refl. Qed.

Lemma respects_bind {A B} (c : M A) (k : A -> M B) :
  respects Rel c -> (forall a, respects Rel (k a)) -> respects Rel (bind c k).
Proof.
  intros Hc Hk m b m' H. unfold bind in H.
  destruct (c m) as [[a m1]|] eqn:E; [|discriminate].
  eapply Rel_trans; [eapply Hc; eassumption | eapply Hk; eassumption].
Qed.

Lemma respects_get {A} (field : RealSenseImpl -> A) : respects Rel (get field).
Proof. intros m b m' H. inversion H. apply Rel_refl. Qed.

Lemma respects_deref (h : handle) : respects Rel (deref h).
Proof. intros m b m' H. destruct h; inversion H. apply Rel_refl. Qed.

Lemma respects_when (b : bool) (c : M unit) :
  respects Rel c -> respects Rel (when b c).
Proof. intros Hc. destruct b; [exact Hc | apply respects_ret]. Qed.

Lemma respects_exec (c : M unit) m m' :
  respects Rel c -> exec c m = Ok m' -> Rel m m'.
Proof.
  intros Hc H. unfold exec in H.
  destruct (c m) as [[[] m1]|] eqn:E; inversion H; subst. eapply Hc; eassumption.
Qed.

End Respects.

(** Symbolic execution of a member function on an unknown machine. *)
Ltac break_hyp H :=
  match type of H with
  | context [match ?x with _ => _ end] => is_var x; destruct x
  | context [match ?x with _ => _ end] =>
      lazymatch x with
      | context [match _ with _ => _ end] => fail
      | _ => destruct x eqn:?
      end
  end.

Ltac execute H :=
  cbv [bind get put call deref fresh when ret exec
       update_bg update_mid update_fg UpdateScan3DImageSize
       start_scan_command stop_scan_command take_preview reconstruct
       color_stage depth_stage face_stage publish
       StartCamera SwapFrames EnableRealSenseFeature DisableRealSenseFeature
       SetColorCameraResolution SetDepthCameraResolution
       ConfigureScanning SetScanningVolume
       StartScanning StopScanning ResetScanning SaveScan
       CameraThread_begin] in H;
  cbn in H;
  repeat (break_hyp H; cbn in H; try discriminate H);
  try (inversion H; clear H; subst; cbn in * ).

(** A small function is run on an unknown machine ([leaf]); a function built
    from others is taken apart along its binds ([compose]). *)
Ltac leaf finish :=
  let H := fresh "H" in
  intros [[] []] ? ? H; execute H; finish.

Ltac compose finish :=
  lazymatch goal with
  | |- respects _ (bind _ _) =>
      apply respects_bind; [compose finish | intros ?; compose finish]
  | |- respects _ (when _ _) => apply respects_when; compose finish
  | |- respects _ (ret _) => apply respects_ret
  | |- respects _ (get _) => apply respects_get
  | |- respects _ (deref _) => apply respects_deref
  | |- respects _ (match ?x with _ => _ end) => destruct x; compose finish
  | |- _ => first [ solve [auto with respects] | leaf finish ]
  end.

Create HintDb respects.

(** Every event respects a relation that each small function respects. *)
Ltac every_event finish :=
  let e := fresh "e" in
  intros e; destruct e; cbn [perform];
  try match goal with f : RealSenseFeature |- _ => destruct f end;
  unfold StopCamera, EnableRealSenseFeatures, DisableRealSenseFeatures,
    CameraThread_iteration, process_frame, scan_stage;
  compose finish.

(** ** The frame ring only moves forward *)

#[local] Instance fg_not_older_order : Order fg_not_older.
Proof. split; unfold fg_not_older; intros; lia. Qed.

Ltac ring_finish :=
  unfold fg_not_older, fg_number; cbn; try lia.

Lemma SwapFrames_fg : respects fg_not_older SwapFrames.
Proof. unfold SwapFrames. leaf ring_finish. Qed.

Lemma publish_fg : respects fg_not_older publish.
Proof. unfold publish. leaf ring_finish. Qed.

#[local] Hint Resolve publish_fg : respects.

Lemma process_frame_fg s : respects fg_not_older (process_frame s).
Proof.
  unfold process_frame, color_stage, depth_stage, scan_stage, take_preview,
    face_stage.
  compose ring_finish.
Qed.

#[local] Hint Resolve process_frame_fg : respects.

Lemma CameraThread_iteration_fg s :
  respects fg_not_older (CameraThread_iteration s).
Proof. unfold CameraThread_iteration. compose ring_finish. Qed.

Lemma Sorted_lower (a b : Z) (l : list Z) :
  b <= a -> Sorted Z.le (a :: l) -> Sorted Z.le (b :: l).
Proof.
  intros Hba Hs. apply Sorted_inv in Hs as [Hl Hhd].
  constructor; [exact Hl|].
  destruct Hhd as [|c l' Hac]; constructor. lia.
Qed.

(** C1.  [SwapFrames] never faults; it exchanges the mid and foreground
    frames exactly when the foreground number is strictly below the mid
    number and otherwise leaves the object as it is.  Hence, along every
    interleaving of loop passes and acquires, the foreground sequence numbers
    the consumer sees, from the one it starts with, never go down. *)
Theorem forward_only_delivery :
  (forall m : Machine,
      exec SwapFrames m =
      Ok {| this := if number (fgFrame (this m)) <? number (midFrame (this m))
                    then exchanged (this m) else this m;
            sdk := sdk m |})
  /\ (forall (es : list RingEvent) (m : Machine),
         Sorted Z.le (fg_number m :: observed es m)).
Proof.
  split.
  - intros [[] []]. unfold exchanged, exec, SwapFrames, bind, get, when. cbn.
    destruct (number fgFrame0 <? number midFrame0); reflexivity.
  - induction es as [|e es IH]; intros m; cbn.
    + repeat constructor.
    + destruct e as [s|].
      * destruct (exec (CameraThread_iteration s) m) as [m'|] eqn:E.
        -- apply Sorted_lower with (a := fg_number m'); [|apply IH].
           exact (respects_exec _ _ _ (CameraThread_iteration_fg s) E).
        -- repeat constructor.
      * destruct (exec SwapFrames m) as [m'|] eqn:E.
        -- constructor; [apply IH|]. constructor.
           exact (respects_exec _ _ _ SwapFrames_fg E).
        -- repeat constructor.
Qed.

(** ** The color stage and the size of the color buffer *)

#[local] Instance color_kept_order : Order color_kept.
Proof.
  split; unfold color_kept.
  - intros m. split; auto.
  - intros a b c [H1 H2] [H3 H4]. split; [congruence | auto].
Qed.

Ltac color_finish :=
  unfold color_kept; cbn; split;
  [ reflexivity | intros ? ?; rewrite ?in_app_iff; auto ].

Lemma after_color_stage s :
  respects color_kept
    (depth_stage s ;; scan_stage s ;; face_stage s ;; call ReleaseFrame).
Proof.
  unfold depth_stage, scan_stage, take_preview, face_stage.
  compose color_finish.
Qed.

(** C2.  A pass of the loop that has a frame, with color streaming on and a
    color payload in the sample, publishes a frame whose [colorImage] has
    size 0, whatever the color resolution: the stage calls
    [colorImage.clear()] and then hands [data()] to the copy, which is
    logged with a destination of size 0 and the full width and height. *)
Theorem color_pass_publishes_cleared_buffer (s : Sample) (m m' : Machine) :
  cameraThreadRunning (this m) = true ->
  acquired s = PXC_STATUS_NO_ERROR ->
  colorStreamingEnabled (this m) = true ->
  color s = true ->
  exec (CameraThread_iteration s) m = Ok m' ->
  size (colorImage (midFrame (this m'))) = 0
  /\ In (CopyColorImageToBuffer 0 (width (colorResolution (this m)))
                                  (height (colorResolution (this m))))
        (calls (sdk m')).
Proof.
  destruct m as [[] []]. cbn. intros -> Hacq -> Hcolor H.
  unfold CameraThread_iteration, process_frame in H.
  remember (bind (depth_stage s) _) as rest eqn:Hrest.
  assert (Hkept : respects color_kept rest)
    by (subst rest; apply after_color_stage).
  clear Hrest. unfold color_stage in H. rewrite Hacq, Hcolor in H.
  execute H.
  match goal with
  | E : rest _ = Ok (_, ?m1) |- _ =>
      apply Hkept in E as [Hc Hin]; destruct m1 as [[] ?]
  end.
  cbn in Hc, Hin |- *. rewrite Hc. cbn. split; [reflexivity|].
  apply Hin. rewrite !in_app_iff. cbn. auto.
Qed.

(** ** Scenario A: streaming at 640 x 480 *)

(** Before the first pass the three color buffers hold 640 * 480 * 4 bytes. *)
Example streaming_640x480_buffers :
  cameraThreadRunning (this streaming_640x480) = true
  /\ map (fun f => size (colorImage (f (this streaming_640x480))))
         [bgFrame; midFrame; fgFrame]
     = [640 * 480 * 4; 640 * 480 * 4; 640 * 480 * 4].
Proof. split; vm_compute; reflexivity. Qed.

(** The first published frame: number 1, a depth buffer of 640 * 480
    elements, which the depth stage wrote without touching its size, and a
    color buffer of size 0. *)
Example first_published_frame :
  number (midFrame (this first_published)) = 1
  /\ size (depthImage (midFrame (this first_published))) = 640 * 480
  /\ size (colorImage (midFrame (this first_published))) = 0
  /\ color_copy_extent 640 480 = 1228800.
Proof. repeat split; vm_compute; reflexivity. Qed.

Lemma color_pass_publishes_cleared_buffer_at_640x480 :
  size (colorImage (midFrame (this first_published))) = 0
  /\ In (CopyColorImageToBuffer 0 640 480) (calls (sdk first_published)).
Proof.
  apply (color_pass_publishes_cleared_buffer color_and_depth
           streaming_640x480 first_published); vm_compute; reflexivity.
Defined.

(** ** Disabling head tracking *)

(** C3.  With the face configuration and face output handles null,
    [DisableRealSenseFeature(HEAD_TRACKING)] goes through the null
    [faceConfig]: there is no null check in front of [faceConfig->Release()]. *)
Theorem disable_head_tracking_on_null_handles (m : Machine) :
  faceConfig (this m) = nullptr ->
  faceData (this m) = nullptr ->
  exec (DisableRealSenseFeature HEAD_TRACKING) m = Fault NullDereference.
Proof.
  destruct m as [[] []]. cbn. intros -> ->. reflexivity.
Qed.

Lemma disable_head_tracking_never_enabled :
  exec (DisableRealSenseFeature HEAD_TRACKING) power_on = Fault NullDereference.
Proof.
  apply (disable_head_tracking_on_null_handles power_on); reflexivity.
Defined.

(** ** Enabling and disabling twice *)

Lemma lor_twice (a b : Z) : Z.lor (Z.lor a b) b = Z.lor a b.
Proof. rewrite <- Z.lor_assoc, Z.lor_diag. reflexivity. Qed.

(** C4, as the claim states it, fails: the second
    [EnableRealSenseFeature(HEAD_TRACKING)] asks the face module for another
    active configuration, so [faceConfig] ends on a different object than
    after one call. *)
Lemma enable_disable_not_idempotent :
  ~ (forall f : RealSenseFeature,
        idempotent (EnableRealSenseFeature f)
        /\ idempotent (DisableRealSenseFeature f)).
Proof.
  intros H. destruct (H HEAD_TRACKING) as [He _].
  specialize (He power_on). vm_compute in He. discriminate He.
Qed.

(** C4, amended.  Enabling twice and disabling twice leave the object as one
    call does for CAMERA_STREAMING and for SCAN_3D.  Enabling HEAD_TRACKING
    twice leaves the object as one call does except for [faceConfig], which
    holds the configuration created by the second call. *)
Theorem enable_disable_idempotent_amended :
  idempotent (EnableRealSenseFeature CAMERA_STREAMING)
  /\ idempotent (DisableRealSenseFeature CAMERA_STREAMING)
  /\ idempotent (EnableRealSenseFeature SCAN_3D)
  /\ idempotent (DisableRealSenseFeature SCAN_3D)
  /\ (forall m,
         outcome (twice (EnableRealSenseFeature HEAD_TRACKING)) m
         = match outcome (EnableRealSenseFeature HEAD_TRACKING) m with
           | Ok r =>
               Ok (set_faceConfig
                     (live (FaceConfiguration (S (created (sdk m))))) r)
           | Fault f => Fault f
           end
         /\ exists r,
             outcome (EnableRealSenseFeature HEAD_TRACKING) m = Ok r
             /\ faceConfig r = live (FaceConfiguration (created (sdk m)))).
Proof.
  repeat split;
    try (intros [[] []]; cbv - [Z.lor]; rewrite ?lor_twice; reflexivity).
  - destruct m as [[] []]. cbv - [Z.lor]. rewrite ?lor_twice. reflexivity.
  - destruct m as [[] []].
    eexists. split; [vm_compute; reflexivity | reflexivity].
Qed.

(** ** Choosing a resolution *)

(** C6, as the claim states it, fails: a refused stream does not leave the
    state as it was.  On [streaming_640x480], a request for 1920 x 1080 that
    [EnableStream] answers with -1 leaves [colorResolution] at 1920 x 1080
    and [status] at -1: both are assigned before the status is looked at. *)
Lemma refused_stream_changes_state :
  ~ @unchanged_on_error plain_tables.
Proof.
  intros [H _].
  assert (E : exec (SetColorCameraResolution (tables := plain_tables) HD1080 (-1))
                   streaming_640x480
              = Ok refused_1080p) by (vm_compute; reflexivity).
  apply H in E; [|discriminate].
  apply (f_equal status) in E. vm_compute in E. discriminate E.
Qed.

(** What the refused request leaves behind. *)
Example refused_1080p_state :
  colorResolution (this refused_1080p) = HD1080
  /\ status (this refused_1080p) = -1
  /\ map (fun f => size (colorImage f)) (ring (this refused_1080p))
     = [640 * 480 * 4; 640 * 480 * 4; 640 * 480 * 4].
Proof. repeat split. Qed.

(** C6, amended.  A call of [SetColorCameraResolution]
    ([SetDepthCameraResolution]) that returns has stored the resolution asked
    for in [colorResolution] ([depthResolution]) and what [EnableStream]
    returned in [status], whatever that is.  Only when it is
    [PXC_STATUS_NO_ERROR] is the color (depth) buffer of each of the three
    frames resized, to width * height * 4 (width * height); on any other
    status the three frames are as they were.  Nothing else in the object
    changes, and the SDK has been asked for the stream once. *)
Theorem resolution_setters_resize_only_on_success {tables : ResolutionTables}
    (color_resolution : EColorResolution) (depth_resolution : EDepthResolution)
    (enabled : pxcStatus) (m after_color after_depth : Machine) :
  in_range (GetEColorResolutionValue color_resolution) 4 ->
  in_range (GetEDepthResolutionValue depth_resolution) 1 ->
  exec (SetColorCameraResolution color_resolution enabled) m = Ok after_color ->
  exec (SetDepthCameraResolution depth_resolution enabled) m = Ok after_depth ->
  (this after_color
   = (if enabled =? PXC_STATUS_NO_ERROR
      then with_color_size
             (width (GetEColorResolutionValue color_resolution)
              * height (GetEColorResolutionValue color_resolution) * 4)
      else fun r => r)
       (set_status enabled
          (set_colorResolution (GetEColorResolutionValue color_resolution)
             (this m)))
   /\ ring (this after_color)
      = (if enabled =? PXC_STATUS_NO_ERROR
         then map (set_colorImage
                     {| size := width (GetEColorResolutionValue color_resolution)
                                * height (GetEColorResolutionValue color_resolution)
                                * 4 |})
                  (ring (this m))
         else ring (this m))
   /\ calls (sdk after_color)
      = calls (sdk m)
        ++ [EnableStream STREAM_TYPE_COLOR
              (width (GetEColorResolutionValue color_resolution))
              (height (GetEColorResolutionValue color_resolution))])
  /\ (this after_depth
      = (if enabled =? PXC_STATUS_NO_ERROR
         then with_depth_size
                (width (GetEDepthResolutionValue depth_resolution)
                 * height (GetEDepthResolutionValue depth_resolution))
         else fun r => r)
          (set_status enabled
             (set_depthResolution (GetEDepthResolutionValue depth_resolution)
                (this m)))
      /\ ring (this after_depth)
         = (if enabled =? PXC_STATUS_NO_ERROR
            then map (set_depthImage
                        {| size := width (GetEDepthResolutionValue depth_resolution)
                                   * height (GetEDepthResolutionValue depth_resolution) |})
                     (ring (this m))
            else ring (this m))
      /\ calls (sdk after_depth)
         = calls (sdk m)
           ++ [EnableStream STREAM_TYPE_DEPTH
                 (width (GetEDepthResolutionValue depth_resolution))
                 (height (GetEDepthResolutionValue depth_resolution))]).
Proof.
  intros _ _. destruct m as [[] []].
  unfold exec, SetColorCameraResolution, SetDepthCameraResolution,
    bind, put, get, call, when, update_bg, update_mid, update_fg; cbn.
  destruct (enabled =? PXC_STATUS_NO_ERROR); cbn;
    intros Hc Hd; inversion Hc; inversion Hd; subst; cbn;
    repeat split; reflexivity.
Qed.

Lemma resolution_setters_refused_1080p :
  (this refused_1080p
   = set_status (-1) (set_colorResolution HD1080 (this streaming_640x480))
   /\ ring (this refused_1080p) = ring (this streaming_640x480)
   /\ calls (sdk refused_1080p)
      = calls (sdk streaming_640x480) ++ [EnableStream STREAM_TYPE_COLOR 1920 1080])
  /\ (this refused_depth_1080p
      = set_status (-1) (set_depthResolution HD1080 (this streaming_640x480))
      /\ ring (this refused_depth_1080p) = ring (this streaming_640x480)
      /\ calls (sdk refused_depth_1080p)
         = calls (sdk streaming_640x480)
           ++ [EnableStream STREAM_TYPE_DEPTH 1920 1080]).
Proof.
  pose proof (resolution_setters_resize_only_on_success (tables := plain_tables)
                HD1080 HD1080 (-1) streaming_640x480
                refused_1080p refused_depth_1080p
                ltac:(unfold in_range; cbn; lia)
                ltac:(unfold in_range; cbn; lia)
                ltac:(vm_compute; reflexivity)
                ltac:(vm_compute; reflexivity)) as H.
  vm_compute in H. vm_compute. exact H.
Defined.

(** ** Functions that run to their end *)

Lemma reaches_ret {A} (a : A) m (Q : A -> Machine -> Prop) :
  Q a m -> reaches (ret a) m Q.
Proof. intros H. exists a, m. split; [reflexivity | exact H]. Qed.

Lemma reaches_bind {A B} (c : M A) (k : A -> M B) m (Q : B -> Machine -> Prop) :
  reaches c m (fun a m1 => reaches (k a) m1 Q) -> reaches (bind c k) m Q.
Proof.
  intros (a & m1 & Hc & b & m' & Hk & HQ). exists b, m'.
  split; [|exact HQ]. unfold bind. rewrite Hc. exact Hk.
Qed.

Lemma reaches_get {A} (field : RealSenseImpl -> A) m (Q : A -> Machine -> Prop) :
  Q (field (this m)) m -> reaches (get field) m Q.
Proof. intros H. eexists _, _. split; [reflexivity | exact H]. Qed.

Lemma reaches_put update m (Q : unit -> Machine -> Prop) :
  Q tt {| this := update (this m); sdk := sdk m |} -> reaches (put update) m Q.
Proof. intros H. eexists _, _. split; [reflexivity | exact H]. Qed.

Lemma reaches_call c m (Q : unit -> Machine -> Prop) :
  Q tt {| this := this m;
          sdk := {| calls := calls (sdk m) ++ [c]; created := created (sdk m) |} |} ->
  reaches (call c) m Q.
Proof. intros H. eexists _, _. split; [reflexivity | exact H]. Qed.

Lemma reaches_deref o m (Q : SdkObject -> Machine -> Prop) :
  Q o m -> reaches (deref (live o)) m Q.
Proof. intros H. eexists _, _. split; [reflexivity | exact H]. Qed.

Lemma reaches_weaken {A} (c : M A) m (Q Q' : A -> Machine -> Prop) :
  reaches c m Q -> (forall a m', Q a m' -> Q' a m') -> reaches c m Q'.
Proof. intros (a & m' & Hc & HQ) H. exists a, m'. split; auto. Qed.

Lemma reaches_exec (c : M unit) m (Q : unit -> Machine -> Prop) :
  reaches c m Q -> exists m', exec c m = Ok m' /\ Q tt m'.
Proof.
  intros ([] & m' & Hc & HQ). exists m'. unfold exec. rewrite Hc. auto.
Qed.

Ltac reach_step :=
  lazymatch goal with
  | |- reaches (bind _ _) _ _ => apply reaches_bind
  | |- reaches (ret _) _ _ => apply reaches_ret
  | |- reaches (get _) _ _ => apply reaches_get
  | |- reaches (put _) _ _ => apply reaches_put
  | |- reaches (call _) _ _ => apply reaches_call
  | |- reaches (deref (live _)) _ _ => apply reaches_deref
  | |- reaches (deref ?h) _ _ => is_var h; destruct h
  | |- reaches (when true _) _ _ => unfold when at 1
  | |- reaches (when false _) _ _ => unfold when at 1
  | |- reaches (when ?b _) _ _ => destruct b eqn:?
  | |- reaches (if ?b then _ else _) _ _ => destruct b eqn:?
  | |- reaches (match ?x with _ => _ end) _ _ => destruct x eqn:?
  | |- reaches start_scan_command _ _ => unfold start_scan_command
  | |- reaches stop_scan_command _ _ => unfold stop_scan_command
  | |- reaches (take_preview _) _ _ => unfold take_preview
  | |- reaches (reconstruct _) _ _ => unfold reconstruct
  | |- reaches (UpdateScan3DImageSize _) _ _ => unfold UpdateScan3DImageSize
  | |- reaches (update_bg _) _ _ => unfold update_bg
  | |- reaches (update_mid _) _ _ => unfold update_mid
  | |- reaches (update_fg _) _ _ => unfold update_fg
  end; cbn.

Ltac reach := repeat reach_step.

Lemma color_stage_reaches s m :
  reaches (color_stage s) m (fun _ m' => control m' = control m).
Proof.
  destruct m as [[] []]. unfold color_stage, control, reconstructions.
  reach; rewrite ?filter_app; cbn; rewrite ?app_nil_r; reflexivity.
Qed.

Lemma depth_stage_reaches s m :
  reaches (depth_stage s) m (fun _ m' => control m' = control m).
Proof.
  destruct m as [[] []]. unfold depth_stage, control, reconstructions.
  reach; rewrite ?filter_app; cbn; rewrite ?app_nil_r; reflexivity.
Qed.

Lemma face_stage_reaches s m :
  face_ready (this m) = true ->
  reaches (face_stage s) m (fun _ m' => control m' = control m).
Proof.
  destruct m as [[] []]. unfold face_stage, control, reconstructions, face_ready.
  cbn. intros Hready.
  reach; cbn in Hready; try discriminate Hready;
    rewrite ?filter_app; cbn; rewrite ?app_nil_r; reflexivity.
Qed.

Lemma scan_stage_reaches s m :
  scan3DEnabled (this m) = true ->
  reconstructEnabled (this m) = true ->
  is_live (p3DScan (this m)) = true ->
  reaches (scan_stage s) m
    (fun _ m' =>
       control m'
       = {| c_p3DScan := p3DScan (this m);
            c_pFace := pFace (this m);
            c_faceData := faceData (this m);
            c_scan3DEnabled := true;
            c_faceEnabled := faceEnabled (this m);
            c_reconstructEnabled := false;
            c_scanCompleted := true;
            c_format := scan3DFileFormat (this m);
            c_filename := scan3DFilename (this m);
            c_status := reconstructed s;
            c_reconstructions :=
              reconstructions m
              ++ [Reconstruct (scan3DFileFormat (this m))
                              (scan3DFilename (this m))] |}).
Proof.
  destruct m as [[] []].
  unfold scan_stage, control, reconstructions.
  cbn. intros -> -> Hlive.
  destruct p3DScan0; try discriminate Hlive.
  reach; rewrite ?filter_app; cbn; rewrite ?app_nil_r; reflexivity.
Qed.

(** C5.  A pass of the loop that has a frame, with the scan stage on, a
    reconstruct request pending and handles it can go through, returns; it
    has called [Reconstruct] once more, with the stored format and file
    name, has cleared [reconstructEnabled] and has set [scanCompleted],
    whatever status [Reconstruct] gave back (the status is only stored). *)
Theorem reconstruct_request_sets_scanCompleted (s : Sample) (m : Machine) :
  cameraThreadRunning (this m) = true ->
  acquired s = PXC_STATUS_NO_ERROR ->
  scan3DEnabled (this m) = true ->
  reconstructEnabled (this m) = true ->
  is_live (p3DScan (this m)) = true ->
  face_ready (this m) = true ->
  exists m',
    exec (CameraThread_iteration s) m = Ok m'
    /\ reconstructEnabled (this m') = false
    /\ scanCompleted (this m') = true
    /\ status (this m') = reconstructed s
    /\ reconstructions m'
       = reconstructions m
         ++ [Reconstruct (scan3DFileFormat (this m)) (scan3DFilename (this m))].
Proof.
  destruct m as [[] []]. cbn.
  intros -> Hacq -> -> Hlive Hready.
  match goal with
  | |- exists m', _ = Ok m' /\ @?Q m' => apply (reaches_exec _ _ (fun _ => Q))
  end.
  unfold CameraThread_iteration, process_frame.
  rewrite Hacq. reach.
  eapply reaches_weaken; [apply color_stage_reaches|].
  intros _ [[] []] Hc. injection Hc as -> -> -> -> -> -> -> -> -> -> Hr.
  reach.
  eapply reaches_weaken; [apply depth_stage_reaches|].
  intros _ [[] []] Hc. injection Hc as -> -> -> -> -> -> -> -> -> -> Hr'.
  reach.
  eapply reaches_weaken; [apply scan_stage_reaches; assumption || reflexivity|].
  intros _ [[] []] Hc. injection Hc as -> -> -> -> -> -> -> -> -> -> Hr''.
  reach.
  eapply reaches_weaken; [apply face_stage_reaches; exact Hready|].
  intros _ [[] []] Hc. injection Hc as -> -> -> -> -> -> -> -> -> -> Hr'''.
  unfold publish. reach.
  unfold reconstructions in *. cbn in *.
  rewrite filter_app, app_nil_r in *. cbn in *.
  repeat split; congruence.
Qed.

Lemma reconstruct_failure_still_completes :
  exists m',
    exec (CameraThread_iteration failed_reconstruction) scanning_with_request
    = Ok m'
    /\ reconstructEnabled (this m') = false
    /\ scanCompleted (this m') = true
    /\ status (this m') = -1
    /\ reconstructions m' = [Reconstruct OBJ "x.obj"].
Proof.
  apply (reconstruct_request_sets_scanCompleted
           failed_reconstruction scanning_with_request);
    vm_compute; reflexivity.
Defined.

(** ** [scanCompleted] between [StartScanning] and the next reconstruction *)

#[local] Instance completed_by_reconstruct_order : Order completed_by_reconstruct.
Proof.
  split; unfold completed_by_reconstruct.
  - intros m. split; [lia | auto].
  - intros a b c [H1 H2] [H3 H4]. split; [lia|].
    intros Hc. destruct (H4 Hc) as [Hb|Hlt]; [|right; lia].
    destruct (H2 Hb) as [Ha|Hlt]; [left; exact Ha | right; lia].
Qed.


Section Events.
Context {tables : ResolutionTables}.




End Events.

(** ** The recorded feature set *)

#[local] Instance keeps_features_order : Order keeps_features.
Proof. split; unfold keeps_features; auto. Qed.

Lemma has_feature_lor (a b : Z) (f : RealSenseFeature) :
  has_feature a f = true -> has_feature (Z.lor a b) f = true.
Proof.
  unfold has_feature. rewrite !negb_true_iff, !Z.eqb_neq.
  intros H E. rewrite Z.land_lor_distr_l in E.
  apply Z.lor_eq_0_iff in E. tauto.
Qed.

Arguments has_feature : simpl never.

Ltac features_finish :=
  unfold keeps_features; cbn;
  let Hf := fresh "Hf" in
  intros ? Hf; first [ exact Hf | apply has_feature_lor; exact Hf ].

Section FeatureSet.
Context {tables : ResolutionTables}.

Lemma perform_keeps_features (e : Event) : respects keeps_features (perform e).
Proof. revert e. every_event features_finish. Qed.

Lemma run_keeps_features (es : list Event) m m' :
  run es m = Ok m' -> keeps_features m m'.
Proof.
  revert m. induction es as [|e es IH]; intros m H; cbn in H.
  - inversion H. apply Rel_refl.
  - destruct (exec (perform e) m) as [m1|] eqn:E; [|discriminate].
    eapply Rel_trans; [|apply IH; exact H].
    exact (respects_exec _ _ _ (perform_keeps_features e) E).
Qed.

(** C10.  [EnableRealSenseFeature] never faults and ors the feature's bit
    into [RealSenseFeatureSet]; [DisableRealSenseFeature] leaves the set as
    it is; no run of events takes a feature out of the set; and
    [StopCamera], when it returns, has switched on the stage of every
    feature in the set, whether or not the feature was disabled before. *)
Theorem feature_set_only_accumulates :
  (forall (f : RealSenseFeature) (m : Machine),
      exists m',
        exec (EnableRealSenseFeature f) m = Ok m'
        /\ RealSenseFeatureSet (this m')
           = Z.lor (RealSenseFeatureSet (this m)) (feature_bit f))
  /\ (forall (f : RealSenseFeature) (m m' : Machine),
         exec (DisableRealSenseFeature f) m = Ok m' ->
         RealSenseFeatureSet (this m') = RealSenseFeatureSet (this m))
  /\ (forall (es : list Event) (m m' : Machine) (f : RealSenseFeature),
         run es m = Ok m' ->
         has_feature (RealSenseFeatureSet (this m)) f = true ->
         has_feature (RealSenseFeatureSet (this m')) f = true)
  /\ (forall (m m' : Machine) (f : RealSenseFeature),
         exec StopCamera m = Ok m' ->
         has_feature (RealSenseFeatureSet (this m)) f = true ->
         has_feature (RealSenseFeatureSet (this m')) f = true
         /\ feature_on f (this m') = true).
Proof.
  split; [|split; [|split]].
  - intros f [[] []].
    destruct f; eexists; (split; [vm_compute; reflexivity | reflexivity]).
  - intros f [[] []] m' H. destruct f; execute H; reflexivity.
  - intros es m m' f H. exact (run_keeps_features es m m' H f).
  - intros m m' f H Hf. split.
    + exact (respects_exec _ _ _ (perform_keeps_features DoStopCamera) H f Hf).
    + destruct m as [[] []].
      unfold StopCamera, EnableRealSenseFeatures, DisableRealSenseFeatures in H.
      cbn in Hf. execute H; destruct f; cbn; congruence.
Qed.

End FeatureSet.

(** ** A file that cannot be opened *)

Section MeshLoaderFacts.
Variable sscanf_floats : string -> list float.
Variable sscanf_ints : string -> list Z.
Variable ConvertRSVectorToUnreal : FVector -> FVector.
Variable FVector_add FVector_sub : FVector -> FVector -> FVector.
Variable FVector_scale FVector_div : FVector -> Z -> FVector.
Variable times_255_as_uint8 : float -> Z.

(** The three arrays are emptied before the file is opened: what they held
    on entry never shows in the result. *)
Lemma LoadScan_clears_first files uninitialized origin filename out :
  LoadScan sscanf_floats sscanf_ints ConvertRSVectorToUnreal
           FVector_add FVector_sub FVector_scale FVector_div times_255_as_uint8
           files uninitialized origin filename out
  = LoadScan sscanf_floats sscanf_ints ConvertRSVectorToUnreal
             FVector_add FVector_sub FVector_scale FVector_div
             times_255_as_uint8
             files uninitialized origin filename empty_mesh.
Proof. reflexivity. Qed.

(** C8.  For a name that cannot be opened, [LoadScan] returns with
    [Vertices], [Triangles] and [Colors] empty, whatever they held on entry
    and without reading anything; the empty arrays are all it reports. *)
Theorem LoadScan_missing_file files uninitialized origin filename out :
  files filename = None ->
  LoadScan sscanf_floats sscanf_ints ConvertRSVectorToUnreal
           FVector_add FVector_sub FVector_scale FVector_div times_255_as_uint8
           files uninitialized origin filename out
  = empty_mesh.
Proof. intros H. unfold LoadScan. rewrite H. reflexivity. Qed.

End MeshLoaderFacts.

Lemma LoadScan_missing_file_on_empty_disk :
  LoadScan (fun _ => []) (fun _ => []) (fun v => v)
           (fun v _ => v) (fun v _ => v) (fun v _ => v) (fun v _ => v)
           (fun _ => 0)
           no_files {| floats := []; ints := [] |} origin "scan.obj" held_before
  = empty_mesh.
Proof.
  apply (LoadScan_missing_file (fun _ => []) (fun _ => []) (fun v => v)
           (fun v _ => v) (fun v _ => v) (fun v _ => v) (fun v _ => v)
           (fun _ => 0)
           no_files {| floats := []; ints := [] |} origin "scan.obj" held_before).
  reflexivity.
Defined.

(** ** Runs used as test cases *)

(** Scenario A on the frame ring: three frames, an acquire after each. *)
Example three_frames_three_acquires :
  observed [Publish color_and_depth; Acquire;
            Publish color_and_depth; Acquire;
            Publish color_and_depth; Acquire] streaming_640x480
  = [1; 2; 3].
Proof. vm_compute. reflexivity. Qed.

(** Scenario A seen from the consumer: after three frames and three
    acquires the foreground frame has number 3, a depth buffer of
    640 * 480 elements and a color buffer of size 0. *)
Example scenario_A_foreground :
  let m := or_power_on
             (run (tables := plain_tables)
                  [ThreadPass color_and_depth; DoSwapFrames;
                   ThreadPass color_and_depth; DoSwapFrames;
                   ThreadPass color_and_depth; DoSwapFrames]
                  streaming_640x480) in
  number (fgFrame (this m)) = 3
  /\ size (depthImage (fgFrame (this m))) = 640 * 480
  /\ size (colorImage (fgFrame (this m))) = 0.
Proof. vm_compute. repeat split; reflexivity. Qed.

(** Frames are dropped, never delivered out of order. *)
Example slow_consumer :
  observed [Acquire; Publish nothing_new; Publish nothing_new;
            Publish nothing_new; Acquire; Acquire; Publish nothing_new; Acquire]
           streaming_640x480
  = [0; 3; 3; 4].
Proof. vm_compute. reflexivity. Qed.


Lemma StopCamera_enables_disabled_streaming :
  feature_on CAMERA_STREAMING (this streaming_disabled) = false
  /\ has_feature (RealSenseFeatureSet
                    (this (or_power_on (exec StopCamera streaming_disabled))))
                 CAMERA_STREAMING = true
  /\ feature_on CAMERA_STREAMING
       (this (or_power_on (exec StopCamera streaming_disabled))) = true.
Proof.
  split; [vm_compute; reflexivity|].
  apply (proj2 (proj2 (proj2 (feature_set_only_accumulates
                                (tables := plain_tables))))
           streaming_disabled);
    vm_compute; reflexivity.
Defined.

(** One disable releases the configuration and the output; a second one, or
    the disable inside [StopCamera], goes through the released pointer. *)
Example disable_head_tracking_once_and_twice :
  outcome (DisableRealSenseFeature HEAD_TRACKING) tracking
  = Ok (set_faceEnabled false
          (set_faceData (released (FaceOutput 1))
             (set_faceConfig (released (FaceConfiguration 0)) (this tracking))))
  /\ outcome (twice (DisableRealSenseFeature HEAD_TRACKING)) tracking
     = Fault UseAfterRelease
  /\ run (tables := plain_tables) [DoDisable HEAD_TRACKING; DoStopCamera] tracking
     = Fault UseAfterRelease.
Proof. repeat split; vm_compute; reflexivity. Qed.

(** Head tracking enabled while the camera never ran: there is no face
    output yet, and the disable stops at the null [faceData]. *)
Example disable_head_tracking_before_start :
  run (tables := plain_tables) [DoEnable HEAD_TRACKING; DoDisable HEAD_TRACKING]
      power_on
  = Fault NullDereference.
Proof. vm_compute. reflexivity. Qed.

(** * Further properties of the code *)

(** ** The frame ring and its counter *)

#[local] Instance numbers_kept_order : Order numbers_kept.
Proof. split; unfold numbers_kept; intros; congruence. Qed.

Ltac numbers_finish := unfold numbers_kept, numbers; cbn; reflexivity.

Lemma stages_keep_numbers s :
  respects numbers_kept
    (color_stage s ;; depth_stage s ;; scan_stage s ;; face_stage s ;;
     call ReleaseFrame).
Proof.
  unfold color_stage, depth_stage, scan_stage, take_preview, face_stage.
  compose numbers_finish.
Qed.

(** Acquiring twice in a row is acquiring once: after an exchange the
    foreground frame is the newer one, so the second call finds nothing to
    take. *)
Theorem SwapFrames_twice (m : Machine) :
  exec (twice SwapFrames) m = exec SwapFrames m.
Proof.
  destruct m as [[] []].
  unfold twice, exec, SwapFrames, bind, get, put, when, ret. cbn.
  destruct (number fgFrame0 <? number midFrame0) eqn:E; cbn.
  - apply Z.ltb_lt in E.
    destruct (number midFrame0 <? number fgFrame0) eqn:E'; [|reflexivity].
    apply Z.ltb_lt in E'. lia.
  - rewrite E. reflexivity.
Qed.

(** A pass that gets no frame from [AcquireFrame] stops at [continue]: it
    returns, and nothing but [status] and the log has changed; no frame is
    stamped or published. *)
Theorem pass_without_frame (s : Sample) (m : Machine) :
  cameraThreadRunning (this m) = true ->
  acquired s <> PXC_STATUS_NO_ERROR ->
  exec (CameraThread_iteration s) m = Ok (no_frame s m).
Proof.
  destruct m as [[] []]. cbn. intros -> Hacq.
  apply Z.eqb_neq in Hacq.
  unfold exec, CameraThread_iteration, bind, get, put, call, when, no_frame.
  cbn. rewrite Hacq. reflexivity.
Qed.

Lemma pass_without_frame_at_start :
  exec (CameraThread_iteration
          {| acquired := -1; color := true; depth := true; preview := None;
             reconstructed := 0; faces := 0; pose := None |})
       streaming_640x480
  = Ok (no_frame
          {| acquired := -1; color := true; depth := true; preview := None;
             reconstructed := 0; faces := 0; pose := None |}
          streaming_640x480).
Proof.
  apply pass_without_frame; [vm_compute; reflexivity | discriminate].
Defined.

Lemma pass_stamps (s : Sample) (m m' : Machine) :
  cameraThreadRunning (this m) = true ->
  acquired s = PXC_STATUS_NO_ERROR ->
  exec (CameraThread_iteration s) m = Ok m' ->
  currentFrame (this m') = (currentFrame (this m) + 1) mod 2 ^ 64
  /\ number (midFrame (this m')) = currentFrame (this m')
  /\ number (bgFrame (this m')) = number (midFrame (this m))
  /\ number (fgFrame (this m')) = number (fgFrame (this m)).
Proof.
  destruct m as [[] []]. cbn. intros -> Hacq H.
  unfold CameraThread_iteration, process_frame in H.
  remember (bind (color_stage s) _) as rest eqn:Hrest.
  assert (Hkept : respects numbers_kept rest)
    by (subst rest; apply stages_keep_numbers).
  clear Hrest. rewrite Hacq in H.
  execute H.
  match goal with
  | E : rest _ = Ok (_, ?m1) |- _ =>
      apply Hkept in E; destruct m1 as [[] ?]
  end.
  unfold numbers_kept, numbers in *. cbn in *.
  match goal with E : (_, _, _, _) = _ |- _ => inversion E; subst end.
  repeat split; reflexivity.
Qed.

(** A pass that has a frame, when it returns, has advanced the counter by
    one (modulo 2^64) and published a frame stamped with the new value; the
    frame that was in the mid slot is the new background frame and the
    foreground number is untouched. *)
Theorem pass_publishes_next_number (s : Sample) (m m' : Machine) :
  cameraThreadRunning (this m) = true ->
  acquired s = PXC_STATUS_NO_ERROR ->
  exec (CameraThread_iteration s) m = Ok m' ->
  currentFrame (this m') = (currentFrame (this m) + 1) mod 2 ^ 64
  /\ number (midFrame (this m')) = currentFrame (this m')
  /\ number (bgFrame (this m')) = number (midFrame (this m))
  /\ number (fgFrame (this m')) = number (fgFrame (this m)).
Proof. exact (pass_stamps s m m'). Qed.

Lemma pass_publishes_next_number_at_start :
  currentFrame (this first_published) = 1
  /\ number (midFrame (this first_published)) = currentFrame (this first_published)
  /\ number (bgFrame (this first_published)) = 0
  /\ number (fgFrame (this first_published)) = 0.
Proof.
  apply (pass_publishes_next_number color_and_depth streaming_640x480
           first_published); vm_compute; reflexivity.
Defined.

Lemma pass_idle (s : Sample) (m m' : Machine) :
  cameraThreadRunning (this m) = false \/ acquired s <> PXC_STATUS_NO_ERROR ->
  exec (CameraThread_iteration s) m = Ok m' ->
  numbers (this m') = numbers (this m).
Proof.
  destruct m as [[] []]. cbn. intros Hidle H.
  unfold CameraThread_iteration in H.
  destruct cameraThreadRunning0.
  - destruct Hidle as [Hoff|Hacq]; [discriminate Hoff|].
    apply Z.eqb_neq in Hacq.
    cbv [exec bind get put call when ret] in H. cbn in H.
    rewrite Hacq in H. inversion H. reflexivity.
  - cbv [exec bind get put call when ret] in H. cbn in H.
    inversion H. reflexivity.
Qed.

Lemma last_nonempty {T} (t : T) (l : list T) (d d' : T) :
  last (t :: l) d = last (t :: l) d'.
Proof.
  revert t. induction l as [|b l IH]; intros t.
  - reflexivity.
  - change (last (b :: l) d = last (b :: l) d'). apply IH.
Qed.

Lemma last_app_from {T} (l1 l2 : list T) (d : T) :
  last (l1 ++ l2) d = last l2 (last l1 d).
Proof.
  revert d. induction l1 as [|a l1 IH]; intros d.
  - reflexivity.
  - destruct l1 as [|b l1].
    + cbn [app]. destruct l2 as [|t l2]; [reflexivity|].
      change (last (t :: l2) d = last (t :: l2) a). apply last_nonempty.
    + change (last ((b :: l1) ++ l2) d = last l2 (last (b :: l1) d)).
      apply IH.
Qed.

Lemma last_cons_from {T} (a : T) (l : list T) (d : T) :
  last (a :: l) d = last l a.
Proof. exact (last_app_from [a] l d). Qed.

Section RingRuns.
Context {tables : ResolutionTables}.

Lemma quiet_event (e : Event) :
  match e with
  | ThreadPass _ | DoSwapFrames | ThreadBegin _ => True
  | _ => respects numbers_kept (perform e)
  end.
Proof.
  destruct e; cbn [perform]; try exact I;
    try match goal with f : RealSenseFeature |- _ => destruct f end;
    unfold StopCamera, EnableRealSenseFeatures, DisableRealSenseFeatures;
    compose numbers_finish.
Qed.

Lemma newest_at_hand_kept r r' :
  numbers r' = numbers r -> newest_at_hand r -> newest_at_hand r'.
Proof.
  unfold numbers, newest_at_hand. intros E. inversion E as [[E1 E2 E3 E4]].
  rewrite E1, E2, E3, E4. auto.
Qed.

Lemma step_newest (e : Event) (m m' : Machine) :
  newest_at_hand (this m) ->
  currentFrame (this m) + 1 < 2 ^ 64 ->
  within_thread e = true ->
  exec (perform e) m = Ok m' ->
  newest_at_hand (this m')
  /\ currentFrame (this m') <= currentFrame (this m) + 1
  /\ currentFrame (this m') = last (published_by e m m') (currentFrame (this m)).
Proof.
  intros Hnew Hroom Hin H.
  assert (Hquiet := quiet_event e).
  destruct e; cbn [perform] in H; cbn [published_by last]; try discriminate Hin;
    try (apply (respects_exec _ _ _ Hquiet) in H;
         unfold numbers_kept in H; split;
         [ exact (newest_at_hand_kept _ _ H Hnew)
         | unfold numbers in H; inversion H as [[E1 E2 E3 E4]]; rewrite E4;
           split; [lia | reflexivity] ]).
  - (* SwapFrames *)
    destruct m as [[] []]. unfold newest_at_hand in *. cbn in *.
    unfold SwapFrames in H. execute H; lia.
  - (* a pass of the loop *)
    destruct (cameraThreadRunning (this m)) eqn:Hrun;
      [destruct (Z.eq_dec (acquired s) PXC_STATUS_NO_ERROR) as [Hacq|Hacq]|].
    + destruct (pass_stamps s m m' Hrun Hacq H) as (Hc & Hmid & Hbg & Hfg).
      rewrite Hacq. cbn [andb Z.eqb PXC_STATUS_NO_ERROR last].
      unfold newest_at_hand in *.
      rewrite Hmid, Hbg, Hfg, Hc.
      rewrite Z.mod_small by lia. lia.
    + assert (E := pass_idle s m m' (or_intror Hacq) H).
      apply Z.eqb_neq in Hacq. rewrite Hacq. cbn [andb last].
      split; [exact (newest_at_hand_kept _ _ E Hnew)|].
      unfold numbers in E. inversion E as [[E1 E2 E3 E4]]. rewrite E4.
      split; [lia | reflexivity].
    + assert (E := pass_idle s m m' (or_introl Hrun) H).
      cbn [andb last].
      split; [exact (newest_at_hand_kept _ _ E Hnew)|].
      unfold numbers in E. inversion E as [[E1 E2 E3 E4]]. rewrite E4.
      split; [lia | reflexivity].
Qed.

Lemma run_newest (es : list Event) (m m' : Machine) :
  newest_at_hand (this m) ->
  forallb within_thread es = true ->
  currentFrame (this m) + Z.of_nat (List.length es) < 2 ^ 64 ->
  run es m = Ok m' ->
  newest_at_hand (this m')
  /\ currentFrame (this m') = last (published es m) (currentFrame (this m)).
Proof.
  revert m. induction es as [|e es IH]; intros m Hnew Hin Hroom H; cbn in H.
  - inversion H; subst. split; [exact Hnew | reflexivity].
  - cbn [published].
    destruct (exec (perform e) m) as [m1|] eqn:E; [|discriminate].
    cbn in Hin. apply andb_prop in Hin as [Hin1 Hin].
    cbn [List.length] in Hroom. rewrite Nat2Z.inj_succ in Hroom.
    destruct (step_newest e m m1 Hnew ltac:(lia) Hin1 E) as (Hnew1 & Hle & Hpub).
    destruct (IH m1 Hnew1 Hin ltac:(lia) H) as (Hnew' & Hc).
    split; [exact Hnew'|].
    rewrite last_app_from, <- Hpub. exact Hc.
Qed.

(** Latest wins.  Take a ring whose newest frame is in the mid or in the
    foreground slot, as it is once the prologue of the thread is over, and a
    run of member functions and loop passes of that thread (no new prologue)
    short of the 2^64 frames that wrap the counter.  An acquire after the run
    leaves the consumer with the frame published last: the foreground number
    is the number of the last frame a pass of the run put into the mid slot,
    or, when the run published none, the number the counter had at the
    start.  A pass counts from the moment it publishes, under
    [midFrameMutex]; what it writes before goes to the background frame and
    to the counter only. *)
Theorem acquire_takes_last_published (es : list Event) (m m1 m' : Machine) :
  newest_at_hand (this m) ->
  forallb within_thread es = true ->
  currentFrame (this m) + Z.of_nat (List.length es) < 2 ^ 64 ->
  run es m = Ok m1 ->
  exec SwapFrames m1 = Ok m' ->
  number (fgFrame (this m')) = last (published es m) (currentFrame (this m)).
Proof.
  intros Hnew Hin Hroom Hrun H.
  destruct (run_newest es m m1 Hnew Hin Hroom Hrun) as (Hnew1 & Hc).
  rewrite <- Hc. clear Hc.
  destruct m1 as [[] []]. unfold newest_at_hand in Hnew1. cbn in *.
  unfold SwapFrames in H. execute H; lia.
Qed.

End RingRuns.

Lemma acquire_takes_last_published_slow_consumer :
  number (fgFrame (this (or_power_on
            (run (tables := plain_tables)
                 [ThreadPass nothing_new; ThreadPass color_and_depth;
                  DoSwapFrames; ThreadPass nothing_new; ThreadPass nothing_new;
                  DoSwapFrames]
                 streaming_640x480))))
  = last [1; 2; 3; 4] 0.
Proof.
  apply (acquire_takes_last_published (tables := plain_tables)
           [ThreadPass nothing_new; ThreadPass color_and_depth;
            DoSwapFrames; ThreadPass nothing_new; ThreadPass nothing_new]
           streaming_640x480
           (or_power_on
              (run (tables := plain_tables)
                   [ThreadPass nothing_new; ThreadPass color_and_depth;
                    DoSwapFrames; ThreadPass nothing_new; ThreadPass nothing_new]
                   streaming_640x480)));
    try (vm_compute; reflexivity).
  vm_compute. repeat split; (discriminate || (left; reflexivity)).
Defined.

(** The prologue of [CameraThread] sets the numbers of all three frames and
    the counter to zero, whatever [Init] returns: with a restarted camera
    the consumer's sequence number starts again from zero.  When [Init]
    returns an error the loop is not entered, no face output is created and
    [cameraThreadRunning] is left as it was. *)
Theorem CameraThread_begin_resets_numbers (initialized : pxcStatus)
    (m m' : Machine) (entered : bool) :
  CameraThread_begin initialized m = Ok (entered, m') ->
  numbers (this m') = (0, 0, 0, 0)
  /\ entered = negb (initialized <? PXC_STATUS_NO_ERROR)
  /\ cameraThreadRunning (this m') = cameraThreadRunning (this m)
  /\ (if entered && faceEnabled (this m)
      then faceData (this m') = live (FaceOutput (created (sdk m)))
      else faceData (this m') = faceData (this m)
           /\ created (sdk m') = created (sdk m)).
Proof.
  destruct m as [[] []]. intros H. unfold numbers.
  destruct (initialized <? PXC_STATUS_NO_ERROR) eqn:E;
    unfold CameraThread_begin in H;
    cbv [bind get put call when ret update_fg update_mid update_bg] in H;
    cbn in H; rewrite E in H; cbn in H.
  - inversion H; subst. cbn. repeat split; reflexivity.
  - destruct faceEnabled0; cbn in H.
    + destruct pFace0; cbn in H; try discriminate H.
      inversion H; subst. cbn. repeat split; reflexivity.
    + inversion H; subst. cbn. repeat split; reflexivity.
Qed.

Lemma CameraThread_begin_after_three_frames :
  number (fgFrame (this (or_power_on
            (run (tables := plain_tables)
                 [ThreadPass nothing_new; ThreadPass nothing_new;
                  ThreadPass nothing_new; DoSwapFrames]
                 streaming_640x480))))
  = 3
  /\ numbers (this (or_power_on
            (run (tables := plain_tables)
                 [ThreadPass nothing_new; ThreadPass nothing_new;
                  ThreadPass nothing_new; DoSwapFrames;
                  ThreadBegin (-3)]
                 streaming_640x480)))
     = (0, 0, 0, 0).
Proof.
  split; [vm_compute; reflexivity|].
  apply (CameraThread_begin_resets_numbers (-3)
           (or_power_on
              (run (tables := plain_tables)
                   [ThreadPass nothing_new; ThreadPass nothing_new;
                    ThreadPass nothing_new; DoSwapFrames]
                   streaming_640x480))
           _ false).
  vm_compute. reflexivity.
Defined.

(** ** The scan preview buffers *)

Lemma wrap_int32_small (z : Z) :
  - 2 ^ 31 <= z < 2 ^ 31 -> wrap_int32 z = z.
Proof.
  intros H. unfold wrap_int32. rewrite Z.mod_small by lia. lia.
Qed.

(** Within [in_range] the integers of this file are the [int]s of the code:
    no product wraps, and [resize] is asked for a size it can give. *)
Lemma resize_request_in_range (res : FStreamResolution) (per_pixel : Z) :
  0 < per_pixel ->
  in_range res per_pixel ->
  resize_request (width res) (height res) per_pixel
  = Some (width res * height res * per_pixel).
Proof.
  intros Hp (Hw & Hh & Hfit). unfold resize_request.
  assert (H0 : 0 <= width res * height res) by nia.
  assert (H1 : width res * height res <= width res * height res * per_pixel) by nia.
  rewrite (wrap_int32_small (width res * height res)) by lia.
  rewrite wrap_int32_small by nia.
  destruct (0 <=? width res * height res * per_pixel) eqn:E; [reflexivity|].
  apply Z.leb_gt in E. nia.
Qed.

(** Outside of it they part: the bytes of a 32768 x 32768 image wrap to an
    empty buffer, and a negative width makes [resize] throw. *)
Example resize_request_out_of_range :
  resize_request 32768 32768 4 = Some 0
  /\ resize_request (-1) 1 4 = None.
Proof. split; reflexivity. Qed.

#[local] Instance size_flag_kept_order : Order size_flag_kept.
Proof. split; unfold size_flag_kept; auto. Qed.

Ltac size_flag_finish :=
  unfold size_flag_kept; cbn; intros; (assumption || reflexivity).

Section ScanBuffers.
Context {tables : ResolutionTables}.

Lemma perform_size_flag (e : Event) : respects size_flag_kept (perform e).
Proof. revert e. every_event size_flag_finish. Qed.

(** Nothing in the class lowers [scan3DImageSizeChanged]: once a preview
    image of a new size has raised it, it stays up through every run. *)
Theorem scan3DImageSizeChanged_is_never_cleared (es : list Event)
    (m m' : Machine) :
  scan3DImageSizeChanged (this m) = true ->
  run es m = Ok m' ->
  scan3DImageSizeChanged (this m') = true.
Proof.
  revert m. induction es as [|e es IH]; intros m Hs H; cbn in H.
  - inversion H; subst. exact Hs.
  - destruct (exec (perform e) m) as [m1|] eqn:E; [|discriminate].
    apply (IH m1); [|exact H].
    exact (respects_exec _ _ _ (perform_size_flag e) E Hs).
Qed.

End ScanBuffers.

Lemma scan3DImageSizeChanged_stays_up :
  scan3DImageSizeChanged
    (this (or_power_on
             (run (tables := plain_tables)
                  [ThreadPass (preview_of 320 240); ThreadPass (preview_of 320 240);
                   DoResetScanning; DoStopCamera; DoStartCamera;
                   ThreadBegin PXC_STATUS_NO_ERROR; ThreadPass nothing_new]
                  scanning)))
  = true.
Proof.
  apply (scan3DImageSizeChanged_is_never_cleared (tables := plain_tables)
           [ThreadPass (preview_of 320 240);
            DoResetScanning; DoStopCamera; DoStartCamera;
            ThreadBegin PXC_STATUS_NO_ERROR; ThreadPass nothing_new]
           (or_power_on
              (run (tables := plain_tables)
                   [ThreadPass (preview_of 320 240)] scanning)));
    vm_compute; reflexivity.
Defined.

(** The scan stage copies the preview image only after the buffers have been
    brought to its size.  With buffers that match [scan3DResolution], a
    usable scan module and a preview image whose dimensions are not negative
    and whose bytes fit an [int], the preview step, run on its own, returns,
    records the size of the image in [scan3DResolution], and hands the copy a
    background buffer of exactly width * height * 4 bytes of that image,
    changed size or not. *)
Theorem preview_copy_fits (s : Sample) (info : ImageInfo) (m : Machine) :
  preview_in_range info ->
  scan_sized (this m) ->
  is_live (p3DScan (this m)) = true ->
  preview s = Some info ->
  exists m',
    exec (take_preview s) m = Ok m'
    /\ calls (sdk m')
       = calls (sdk m)
         ++ [AcquirePreviewImage;
             CopyColorImageToBuffer
               (color_copy_extent (info_width info) (info_height info))
               (info_width info) (info_height info);
             ReleaseImage]
    /\ scan3DResolution (this m')
       = {| width := info_width info; height := info_height info |}
    /\ scan_sized (this m').
Proof.
  intros _.
  destruct m as [[] []]. unfold scan_sized, color_copy_extent. cbn.
  intros (Hbg & Hmid & Hfg) Hlive Hprev.
  destruct p3DScan0; try discriminate Hlive.
  match goal with
  | |- exists m', _ = Ok m' /\ @?Q m' => apply (reaches_exec _ _ (fun _ => Q))
  end.
  unfold take_preview. rewrite Hprev. reach.
  - apply andb_prop in Heqb as [Hw Hh].
    apply Z.eqb_eq in Hw, Hh.
    destruct scan3DResolution0 as [w h]. cbn in *. subst w h.
    rewrite <- !app_assoc. cbn. rewrite Hbg. repeat split; assumption.
  - rewrite <- !app_assoc. cbn. repeat split; reflexivity.
Qed.

Lemma preview_copy_fits_first_preview :
  exists m',
    exec (take_preview (preview_of 320 240)) scanning = Ok m'
    /\ calls (sdk m')
       = calls (sdk scanning)
         ++ [AcquirePreviewImage; CopyColorImageToBuffer 307200 320 240;
             ReleaseImage]
    /\ scan3DResolution (this m') = {| width := 320; height := 240 |}
    /\ scan_sized (this m').
Proof.
  apply (preview_copy_fits (preview_of 320 240)
           {| info_width := 320; info_height := 240 |} scanning).
  - unfold preview_in_range, in_range. cbn. lia.
  - vm_compute. repeat split; reflexivity.
  - vm_compute. reflexivity.
  - reflexivity.
Defined.

(** Taken statement by statement, [UpdateScan3DImageSize] is the function
    above. *)
Lemma UpdateScan3DImageSize_steps (info : ImageInfo) (m : Machine) :
  UpdateScan3DImageSize_in_steps info m = UpdateScan3DImageSize info m.
Proof.
  destruct m as [[] []].
  unfold UpdateScan3DImageSize_in_steps, UpdateScan3DImageSize,
    store_scan_resolution, resize_scan_bg, resize_scan_mid, resize_scan_fg.
  cbv [bind get put ret update_bg update_mid update_fg]. cbn.
  destruct ((width scan3DResolution0 =? info_width info)
            && (height scan3DResolution0 =? info_height info)); reflexivity.
Qed.

(** The resizes of [UpdateScan3DImageSize] are not atomic for the consumer.
    When a preview image of a new size arrives while the mid frame is newer
    than the foreground frame, and [SwapFrames] runs between the resize of
    the mid frame and the resize of the foreground frame, the frame resized
    as mid frame is resized once more as foreground frame, and the frame that
    was in the foreground slot ends in the mid slot with the scan buffer it
    had.  [scan3DResolution] already holds the new size, so a later preview
    image of this size resizes nothing: the stale buffer stays until the
    size changes again. *)
Theorem acquire_between_scan_resizes (info : ImageInfo) (m : Machine) :
  preview_in_range info ->
  (width (scan3DResolution (this m)) =? info_width info)
  && (height (scan3DResolution (this m)) =? info_height info) = false ->
  number (fgFrame (this m)) < number (midFrame (this m)) ->
  exists m',
    exec (UpdateScan3DImageSize_with_acquire info) m = Ok m'
    /\ scan3DResolution (this m')
       = {| width := info_width info; height := info_height info |}
    /\ size (scanImage (bgFrame (this m')))
       = info_width info * info_height info * 4
    /\ size (scanImage (fgFrame (this m')))
       = info_width info * info_height info * 4
    /\ size (scanImage (midFrame (this m')))
       = size (scanImage (fgFrame (this m)))
    /\ exec (UpdateScan3DImageSize info) m' = Ok m'.
Proof.
  intros _. destruct m as [[] []]. cbn. intros Hnew Hlt.
  apply Z.ltb_lt in Hlt.
  unfold exec, UpdateScan3DImageSize_with_acquire, UpdateScan3DImageSize,
    store_scan_resolution, resize_scan_bg, resize_scan_mid, resize_scan_fg,
    SwapFrames.
  cbv [bind get put ret when update_bg update_mid update_fg]. cbn.
  rewrite Hnew. cbn. rewrite Hlt. cbn.
  eexists. split; [reflexivity|]. cbn.
  rewrite !Z.eqb_refl. cbn. repeat split; reflexivity.
Qed.

Lemma acquire_between_scan_resizes_at_640x480 :
  exists m',
    exec (UpdateScan3DImageSize_with_acquire
            {| info_width := 640; info_height := 480 |}) scanning_320x240
    = Ok m'
    /\ scan3DResolution (this m') = {| width := 640; height := 480 |}
    /\ size (scanImage (bgFrame (this m'))) = 640 * 480 * 4
    /\ size (scanImage (fgFrame (this m'))) = 640 * 480 * 4
    /\ size (scanImage (midFrame (this m'))) = 320 * 240 * 4
    /\ exec (UpdateScan3DImageSize {| info_width := 640; info_height := 480 |})
            m'
       = Ok m'.
Proof.
  apply (acquire_between_scan_resizes
           {| info_width := 640; info_height := 480 |} scanning_320x240).
  - unfold preview_in_range, in_range. cbn. lia.
  - vm_compute. reflexivity.
  - vm_compute. reflexivity.
Defined.

(** ** The depth buffers *)

#[local] Instance depth_sized_kept_order : Order depth_sized_kept.
Proof. split; unfold depth_sized_kept; auto. Qed.

Ltac depth_sized_finish :=
  unfold depth_sized_kept, depth_sized; cbn;
  try (intros (? & ? & ?); repeat split; (assumption || reflexivity || lia)).

Section DepthBuffers.
Context {tables : ResolutionTables}.

Lemma perform_depth_sized (e : Event) :
  depth_stream_accepted e = true -> respects depth_sized_kept (perform e).
Proof.
  destruct e; cbn [perform depth_stream_accepted]; intros Hok;
    try (apply Z.eqb_eq in Hok; subst);
    try match goal with f : RealSenseFeature |- _ => destruct f end;
    unfold StopCamera, EnableRealSenseFeatures, DisableRealSenseFeatures,
      CameraThread_iteration, process_frame, scan_stage;
    compose depth_sized_finish.
Qed.

Lemma depth_change_accepted (e : Event) (r : RealSenseImpl) :
  depth_change_in_order e r = true -> depth_stream_accepted e = true.
Proof.
  destruct e; cbn; try reflexivity.
  intros H. repeat (apply andb_prop in H as [H ?]). assumption.
Qed.

(** The depth buffers keep up with the depth resolution when it is changed
    with the camera stopped.  Take a run in which every
    [SetDepthCameraResolution] is called while the camera thread is not
    running (before [StartCamera] or after [StopCamera]), for a resolution
    whose dimensions are not negative and whose product fits an [int], and
    has its stream accepted.  If the depth buffers of the three frames hold
    width * height elements of [depthResolution] at the start, they do at
    the end: the depth stage of a later pass copies into a buffer of the size
    it writes. *)
Theorem depth_buffers_follow_resolution (es : list Event) (m m' : Machine) :
  depth_sized (this m) ->
  always depth_change_in_order es m = true ->
  run es m = Ok m' ->
  depth_sized (this m').
Proof.
  revert m. induction es as [|e es IH]; intros m Hs Hok H; cbn in H.
  - inversion H; subst. exact Hs.
  - cbn [always] in Hok. apply andb_prop in Hok as [Hok1 Hok].
    destruct (exec (perform e) m) as [m1|] eqn:E; [|discriminate].
    apply (IH m1); [|exact Hok|exact H].
    exact (respects_exec _ _ _
             (perform_depth_sized e (depth_change_accepted e _ Hok1)) E Hs).
Qed.

(** A refused depth stream leaves the buffers behind the resolution.
    [SetDepthCameraResolution] stores the requested resolution before it
    looks at the status, so after a refusal the next pass with a depth
    payload hands the copy the requested width and height together with a
    background buffer that still has its old size. *)
Theorem refused_depth_stream_then_pass (resolution : EDepthResolution)
    (enabled : pxcStatus) (s : Sample) (m m1 m2 : Machine) :
  enabled <> PXC_STATUS_NO_ERROR ->
  cameraThreadRunning (this m) = true ->
  depthStreamingEnabled (this m) = true ->
  acquired s = PXC_STATUS_NO_ERROR ->
  depth s = true ->
  exec (SetDepthCameraResolution resolution enabled) m = Ok m1 ->
  exec (CameraThread_iteration s) m1 = Ok m2 ->
  In (CopyDepthImageToBuffer
        (size (depthImage (bgFrame (this m))))
        (width (GetEDepthResolutionValue resolution))
        (height (GetEDepthResolutionValue resolution)))
     (calls (sdk m2)).
Proof.
  destruct m as [[] []]. cbn. intros Hst -> -> Hacq Hdepth H1 H2.
  apply Z.eqb_neq in Hst.
  unfold SetDepthCameraResolution in H1.
  cbv [exec bind get put call when ret] in H1. cbn in H1.
  rewrite Hst in H1. inversion H1; subst m1; clear H1.
  unfold CameraThread_iteration, process_frame in H2.
  remember (bind (scan_stage s) _) as rest eqn:Hrest.
  assert (Hkept : respects color_kept rest).
  { subst rest. unfold scan_stage, take_preview, face_stage.
    compose color_finish. }
  clear Hrest. rewrite Hacq in H2. unfold depth_stage in H2.
  rewrite Hdepth in H2.
  execute H2;
    match goal with
    | E : rest _ = Ok (_, ?m1) |- _ => apply Hkept in E as [_ Hin]
    end;
    apply Hin; cbn; rewrite !in_app_iff; cbn; auto.
Qed.

End DepthBuffers.

Lemma depth_buffers_follow_resolution_restarted :
  depth_sized
    (this (or_power_on
             (run (tables := plain_tables) depth_change_while_stopped
                  depth_streaming_320x240))).
Proof.
  apply (depth_buffers_follow_resolution (tables := plain_tables)
           depth_change_while_stopped depth_streaming_320x240).
  - vm_compute. repeat split; reflexivity.
  - vm_compute. reflexivity.
  - vm_compute. reflexivity.
Defined.

Lemma refused_depth_stream_then_pass_640x480 :
  In (CopyDepthImageToBuffer (320 * 240) 640 480)
     (calls (sdk (or_power_on
        (run (tables := plain_tables)
             [DoSetDepthResolution (tables := plain_tables) VGA (-1);
              ThreadPass color_and_depth]
             depth_streaming_320x240)))).
Proof.
  apply (refused_depth_stream_then_pass (tables := plain_tables)
           VGA (-1) color_and_depth depth_streaming_320x240
           (or_power_on
              (exec (SetDepthCameraResolution (tables := plain_tables) VGA (-1))
                    depth_streaming_320x240)));
    try (vm_compute; reflexivity).
  discriminate.
Defined.

(** ** The scan requests *)

Ltac view_finish :=
  unfold scan_commands; cbn;
  rewrite ?filter_app; cbn; rewrite ?app_nil_r; reflexivity.

Lemma color_stage_view s m :
  reaches (color_stage s) m (fun _ m' => scan_view m' = scan_view m).
Proof.
  destruct m as [[] []]. unfold color_stage, scan_view. reach; view_finish.
Qed.

Lemma depth_stage_view s m :
  reaches (depth_stage s) m (fun _ m' => scan_view m' = scan_view m).
Proof.
  destruct m as [[] []]. unfold depth_stage, scan_view. reach; view_finish.
Qed.

Lemma face_stage_view s m :
  face_ready (this m) = true ->
  reaches (face_stage s) m (fun _ m' => scan_view m' = scan_view m).
Proof.
  destruct m as [[] []]. unfold face_stage, scan_view, face_ready.
  cbn. intros Hready.
  reach; cbn in Hready; try discriminate Hready; view_finish.
Qed.

Lemma scan_stage_view s m :
  scan3DEnabled (this m) = true ->
  is_live (p3DScan (this m)) = true ->
  reaches (scan_stage s) m
    (fun _ m' =>
       scan_view m'
       = {| v_scanStarted := false;
            v_scanStopped := false;
            v_reconstructEnabled := false;
            v_scanCompleted := scanCompleted (this m) || reconstructEnabled (this m);
            v_scan3DEnabled := true;
            v_p3DScan := p3DScan (this m);
            v_faceEnabled := faceEnabled (this m);
            v_pFace := pFace (this m);
            v_faceData := faceData (this m);
            v_format := scan3DFileFormat (this m);
            v_filename := scan3DFilename (this m);
            v_commands := scan_commands m ++ commands_for (this m) |}).
Proof.
  destruct m as [[] []]. unfold scan_stage, scan_view, commands_for.
  cbn. intros -> Hlive.
  destruct p3DScan0; try discriminate Hlive.
  reach; unfold scan_commands; cbn;
    rewrite ?filter_app; cbn; rewrite ?app_nil_r, ?orb_true_r, ?orb_false_r;
    rewrite <- ?app_assoc; reflexivity.
Qed.

Lemma scan_stage_off s m :
  scan3DEnabled (this m) = false ->
  reaches (scan_stage s) m (fun _ m' => scan_view m' = scan_view m).
Proof.
  destruct m as [[] []]. unfold scan_stage, scan_view.
  cbn. intros ->. reach. reflexivity.
Qed.

Ltac same_view Hc :=
  injection Hc; clear Hc; intros; subst.

Lemma pass_scan_on (s : Sample) (m : Machine) :
  cameraThreadRunning (this m) = true ->
  acquired s = PXC_STATUS_NO_ERROR ->
  scan3DEnabled (this m) = true ->
  is_live (p3DScan (this m)) = true ->
  face_ready (this m) = true ->
  exists m',
    exec (CameraThread_iteration s) m = Ok m'
    /\ scanStarted (this m') = false
    /\ scanStopped (this m') = false
    /\ reconstructEnabled (this m') = false
    /\ scanCompleted (this m')
       = scanCompleted (this m) || reconstructEnabled (this m)
    /\ scan_commands m' = scan_commands m ++ commands_for (this m).
Proof.
  destruct m as [[] []]. cbn.
  intros -> Hacq -> Hlive Hready.
  match goal with
  | |- exists m', _ = Ok m' /\ @?Q m' => apply (reaches_exec _ _ (fun _ => Q))
  end.
  unfold CameraThread_iteration, process_frame.
  rewrite Hacq. reach.
  eapply reaches_weaken; [apply color_stage_view|].
  intros _ [[] []] Hc. unfold scan_view, scan_commands in Hc. cbn in Hc.
  rewrite ?filter_app in Hc. cbn in Hc. rewrite ?app_nil_r in Hc.
  same_view Hc. reach.
  eapply reaches_weaken; [apply depth_stage_view|].
  intros _ [[] []] Hc. unfold scan_view, scan_commands in Hc. cbn in Hc.
  same_view Hc. reach.
  eapply reaches_weaken; [apply scan_stage_view; assumption || reflexivity|].
  intros _ [[] []] Hc. unfold scan_view, scan_commands in Hc. cbn in Hc.
  same_view Hc. reach.
  eapply reaches_weaken; [apply face_stage_view; exact Hready|].
  intros _ [[] []] Hc. unfold scan_view, scan_commands in Hc. cbn in Hc.
  same_view Hc.
  unfold publish. reach.
  unfold scan_commands, commands_for in *. cbn in *.
  rewrite ?filter_app in *. cbn in *. rewrite ?app_nil_r in *.
  repeat split; congruence.
Qed.

Lemma pass_scan_off (s : Sample) (m : Machine) :
  cameraThreadRunning (this m) = true ->
  acquired s = PXC_STATUS_NO_ERROR ->
  scan3DEnabled (this m) = false ->
  face_ready (this m) = true ->
  exists m',
    exec (CameraThread_iteration s) m = Ok m'
    /\ scanStarted (this m') = scanStarted (this m)
    /\ scanStopped (this m') = scanStopped (this m)
    /\ reconstructEnabled (this m') = reconstructEnabled (this m)
    /\ scanCompleted (this m') = scanCompleted (this m)
    /\ scan_commands m' = scan_commands m.
Proof.
  destruct m as [[] []]. cbn.
  intros -> Hacq -> Hready.
  match goal with
  | |- exists m', _ = Ok m' /\ @?Q m' => apply (reaches_exec _ _ (fun _ => Q))
  end.
  unfold CameraThread_iteration, process_frame.
  rewrite Hacq. reach.
  eapply reaches_weaken; [apply color_stage_view|].
  intros _ [[] []] Hc. unfold scan_view, scan_commands in Hc. cbn in Hc.
  rewrite ?filter_app in Hc. cbn in Hc. rewrite ?app_nil_r in Hc.
  same_view Hc. reach.
  eapply reaches_weaken; [apply depth_stage_view|].
  intros _ [[] []] Hc. unfold scan_view, scan_commands in Hc. cbn in Hc.
  same_view Hc. reach.
  eapply reaches_weaken; [apply scan_stage_off; reflexivity|].
  intros _ [[] []] Hc. unfold scan_view, scan_commands in Hc. cbn in Hc.
  same_view Hc. reach.
  eapply reaches_weaken; [apply face_stage_view; exact Hready|].
  intros _ [[] []] Hc. unfold scan_view, scan_commands in Hc. cbn in Hc.
  same_view Hc.
  unfold publish. reach.
  unfold scan_commands in *. cbn in *.
  rewrite ?filter_app in *. cbn in *. rewrite ?app_nil_r in *.
  repeat split; congruence.
Qed.

Ltac module_view_finish :=
  unfold scan_module_calls; cbn;
  rewrite ?filter_app; cbn; rewrite ?app_nil_r; reflexivity.

Lemma color_stage_module_view s m :
  reaches (color_stage s) m (fun _ m' => module_view m' = module_view m).
Proof.
  destruct m as [[] []]. unfold color_stage, module_view. reach; module_view_finish.
Qed.

Lemma depth_stage_module_view s m :
  reaches (depth_stage s) m (fun _ m' => module_view m' = module_view m).
Proof.
  destruct m as [[] []]. unfold depth_stage, module_view. reach; module_view_finish.
Qed.

Lemma face_stage_module_view s m :
  face_ready (this m) = true ->
  reaches (face_stage s) m (fun _ m' => module_view m' = module_view m).
Proof.
  destruct m as [[] []]. unfold face_stage, module_view, face_ready.
  cbn. intros Hready.
  reach; cbn in Hready; try discriminate Hready; module_view_finish.
Qed.

Lemma scan_stage_module_view s m :
  scan3DEnabled (this m) = true ->
  is_live (p3DScan (this m)) = true ->
  reaches (scan_stage s) m
    (fun _ m' =>
       module_view m'
       = {| v_scanStarted := false;
            v_scanStopped := false;
            v_reconstructEnabled := false;
            v_scanCompleted := scanCompleted (this m) || reconstructEnabled (this m);
            v_scan3DEnabled := true;
            v_p3DScan := p3DScan (this m);
            v_faceEnabled := faceEnabled (this m);
            v_pFace := pFace (this m);
            v_faceData := faceData (this m);
            v_format := scan3DFileFormat (this m);
            v_filename := scan3DFilename (this m);
            v_commands := scan_module_calls m ++ module_calls_for (this m) |}).
Proof.
  destruct m as [[] []]. unfold scan_stage, module_view, module_calls_for.
  cbn. intros -> Hlive.
  destruct p3DScan0; try discriminate Hlive.
  reach; unfold scan_module_calls; cbn;
    rewrite ?filter_app; cbn; rewrite ?app_nil_r, ?orb_true_r, ?orb_false_r;
    rewrite <- ?app_assoc; reflexivity.
Qed.

Lemma scan_stage_off_module s m :
  scan3DEnabled (this m) = false ->
  reaches (scan_stage s) m (fun _ m' => module_view m' = module_view m).
Proof.
  destruct m as [[] []]. unfold scan_stage, module_view.
  cbn. intros ->. reach. reflexivity.
Qed.

Lemma pass_module_on (s : Sample) (m : Machine) :
  cameraThreadRunning (this m) = true ->
  acquired s = PXC_STATUS_NO_ERROR ->
  scan3DEnabled (this m) = true ->
  is_live (p3DScan (this m)) = true ->
  face_ready (this m) = true ->
  exists m',
    exec (CameraThread_iteration s) m = Ok m'
    /\ scanStarted (this m') = false
    /\ scanStopped (this m') = false
    /\ reconstructEnabled (this m') = false
    /\ scanCompleted (this m')
       = scanCompleted (this m) || reconstructEnabled (this m)
    /\ scan_module_calls m' = scan_module_calls m ++ module_calls_for (this m).
Proof.
  destruct m as [[] []]. cbn.
  intros -> Hacq -> Hlive Hready.
  match goal with
  | |- exists m', _ = Ok m' /\ @?Q m' => apply (reaches_exec _ _ (fun _ => Q))
  end.
  unfold CameraThread_iteration, process_frame.
  rewrite Hacq. reach.
  eapply reaches_weaken; [apply color_stage_module_view|].
  intros _ [[] []] Hc. unfold module_view, scan_module_calls in Hc. cbn in Hc.
  rewrite ?filter_app in Hc. cbn in Hc. rewrite ?app_nil_r in Hc.
  same_view Hc. reach.
  eapply reaches_weaken; [apply depth_stage_module_view|].
  intros _ [[] []] Hc. unfold module_view, scan_module_calls in Hc. cbn in Hc.
  same_view Hc. reach.
  eapply reaches_weaken; [apply scan_stage_module_view; assumption || reflexivity|].
  intros _ [[] []] Hc. unfold module_view, scan_module_calls in Hc. cbn in Hc.
  same_view Hc. reach.
  eapply reaches_weaken; [apply face_stage_module_view; exact Hready|].
  intros _ [[] []] Hc. unfold module_view, scan_module_calls in Hc. cbn in Hc.
  same_view Hc.
  unfold publish. reach.
  unfold scan_module_calls, module_calls_for in *. cbn in *.
  rewrite ?filter_app in *. cbn in *. rewrite ?app_nil_r in *.
  repeat split; congruence.
Qed.

Lemma pass_module_off (s : Sample) (m : Machine) :
  cameraThreadRunning (this m) = true ->
  acquired s = PXC_STATUS_NO_ERROR ->
  scan3DEnabled (this m) = false ->
  face_ready (this m) = true ->
  exists m',
    exec (CameraThread_iteration s) m = Ok m'
    /\ scanStarted (this m') = scanStarted (this m)
    /\ scanStopped (this m') = scanStopped (this m)
    /\ reconstructEnabled (this m') = reconstructEnabled (this m)
    /\ scanCompleted (this m') = scanCompleted (this m)
    /\ scan_module_calls m' = scan_module_calls m.
Proof.
  destruct m as [[] []]. cbn.
  intros -> Hacq -> Hready.
  match goal with
  | |- exists m', _ = Ok m' /\ @?Q m' => apply (reaches_exec _ _ (fun _ => Q))
  end.
  unfold CameraThread_iteration, process_frame.
  rewrite Hacq. reach.
  eapply reaches_weaken; [apply color_stage_module_view|].
  intros _ [[] []] Hc. unfold module_view, scan_module_calls in Hc. cbn in Hc.
  rewrite ?filter_app in Hc. cbn in Hc. rewrite ?app_nil_r in Hc.
  same_view Hc. reach.
  eapply reaches_weaken; [apply depth_stage_module_view|].
  intros _ [[] []] Hc. unfold module_view, scan_module_calls in Hc. cbn in Hc.
  same_view Hc. reach.
  eapply reaches_weaken; [apply scan_stage_off_module; reflexivity|].
  intros _ [[] []] Hc. unfold module_view, scan_module_calls in Hc. cbn in Hc.
  same_view Hc. reach.
  eapply reaches_weaken; [apply face_stage_module_view; exact Hready|].
  intros _ [[] []] Hc. unfold module_view, scan_module_calls in Hc. cbn in Hc.
  same_view Hc.
  unfold publish. reach.
  unfold scan_module_calls in *. cbn in *.
  rewrite ?filter_app in *. cbn in *. rewrite ?app_nil_r in *.
  repeat split; congruence.
Qed.

(** Each scan request is acted on once, in a fixed order.  A pass that has a
    frame, with the scan stage on, handles it can go through and a preview
    image (if any) in range, returns.  Through [p3DScan] it has made, in this
    order: the start command if a start was requested, the stop command if a
    stop was requested, [AcquirePreviewImage], and [Reconstruct] if a
    reconstruction was requested; and no other call.  All three request flags
    are down afterwards, and [scanCompleted] is up if it was or if a
    reconstruction was requested. *)
Theorem pass_consumes_scan_requests (s : Sample) (m : Machine) :
  sample_in_range s ->
  cameraThreadRunning (this m) = true ->
  acquired s = PXC_STATUS_NO_ERROR ->
  scan3DEnabled (this m) = true ->
  is_live (p3DScan (this m)) = true ->
  face_ready (this m) = true ->
  exists m',
    exec (CameraThread_iteration s) m = Ok m'
    /\ scanStarted (this m') = false
    /\ scanStopped (this m') = false
    /\ reconstructEnabled (this m') = false
    /\ scanCompleted (this m')
       = scanCompleted (this m) || reconstructEnabled (this m)
    /\ scan_module_calls m' = scan_module_calls m ++ module_calls_for (this m).
Proof. intros _. exact (pass_module_on s m). Qed.

Lemma pass_consumes_scan_requests_all_three :
  exists m',
    exec (CameraThread_iteration (preview_of 320 240)) scanning_all_requested
    = Ok m'
    /\ scanStarted (this m') = false
    /\ scanStopped (this m') = false
    /\ reconstructEnabled (this m') = false
    /\ scanCompleted (this m') = true
    /\ scan_module_calls m'
       = [SetStartScan true; SetStartScan false; AcquirePreviewImage;
          Reconstruct PLY "scan.ply"].
Proof.
  apply (pass_consumes_scan_requests (preview_of 320 240) scanning_all_requested);
    try (vm_compute; reflexivity).
  unfold sample_in_range, preview_in_range, in_range. cbn. lia.
Defined.

(** While the scan stage is off the requests wait.  A pass that has a frame,
    with [scan3DEnabled] down, returns without a single call through
    [p3DScan], not even for the preview image; [scanStarted], [scanStopped],
    [reconstructEnabled] and [scanCompleted] are as they were. *)
Theorem pass_holds_scan_requests_while_off (s : Sample) (m : Machine) :
  cameraThreadRunning (this m) = true ->
  acquired s = PXC_STATUS_NO_ERROR ->
  scan3DEnabled (this m) = false ->
  face_ready (this m) = true ->
  exists m',
    exec (CameraThread_iteration s) m = Ok m'
    /\ scanStarted (this m') = scanStarted (this m)
    /\ scanStopped (this m') = scanStopped (this m)
    /\ reconstructEnabled (this m') = reconstructEnabled (this m)
    /\ scanCompleted (this m') = scanCompleted (this m)
    /\ scan_module_calls m' = scan_module_calls m.
Proof. exact (pass_module_off s m). Qed.

Lemma pass_holds_scan_requests_never_enabled :
  exists m',
    exec (CameraThread_iteration color_and_depth) requests_without_scan = Ok m'
    /\ scanStarted (this m') = true
    /\ scanStopped (this m') = true
    /\ reconstructEnabled (this m') = true
    /\ scanCompleted (this m') = false
    /\ scan_module_calls m' = [].
Proof.
  apply (pass_holds_scan_requests_while_off color_and_depth
           requests_without_scan);
    vm_compute; reflexivity.
Defined.

(** ** Handles the loop goes through *)

#[local] Instance face_kept_order : Order face_kept.
Proof.
  split; unfold face_kept.
  - intros m. repeat split.
  - intros a b c (H1 & H2 & H3) (H4 & H5 & H6). repeat split; congruence.
Qed.

Ltac face_kept_finish := unfold face_kept; cbn; repeat split; reflexivity.

Lemma bind_Ok {A B} (c : M A) (k : A -> M B) m b m' :
  bind c k m = Ok (b, m') ->
  exists a m1, c m = Ok (a, m1) /\ k a m1 = Ok (b, m').
Proof.
  unfold bind. destruct (c m) as [[a m1]|]; [|discriminate].
  intros H. exists a, m1. split; [reflexivity | exact H].
Qed.

Lemma face_stage_stops (s : Sample) (m : Machine) u m' :
  faceEnabled (this m) = true ->
  non_null (pFace (this m)) = true ->
  is_live (faceData (this m)) = false ->
  face_stage s m = Ok (u, m') -> False.
Proof.
  destruct m as [[] []]. cbn. intros -> Hface Hdata H.
  unfold face_stage in H.
  destruct pFace0; try discriminate Hface;
    destruct faceData0; try discriminate Hdata;
    cbv [bind get put call deref when ret] in H; cbn in H; discriminate H.
Qed.

(** A pass that has a frame does not return when head tracking is on, the
    face module pointer is set and [faceData] is not a live face output, as
    when HEAD_TRACKING is enabled after the camera thread has begun: the
    face stage goes through [faceData], which only the prologue of the
    thread creates. *)
Theorem pass_faults_without_face_output (s : Sample) (m : Machine) :
  cameraThreadRunning (this m) = true ->
  acquired s = PXC_STATUS_NO_ERROR ->
  faceEnabled (this m) = true ->
  non_null (pFace (this m)) = true ->
  is_live (faceData (this m)) = false ->
  exists f, exec (CameraThread_iteration s) m = Fault f.
Proof.
  intros Hrun Hacq Hon Hface Hdata.
  destruct (exec (CameraThread_iteration s) m) as [m'|f] eqn:H;
    [exfalso | exists f; reflexivity].
  destruct m as [[] []]. cbn in Hrun, Hon, Hface, Hdata. subst.
  unfold CameraThread_iteration, process_frame in H.
  remember (bind (color_stage s) _) as rest eqn:Hrest.
  assert (Hstop : forall M u M', rest M = Ok (u, M') ->
            faceEnabled (this M) = true ->
            non_null (pFace (this M)) = true ->
            is_live (faceData (this M)) = false -> False).
  { subst rest. intros M u M' HM Ha Hb Hc.
    apply bind_Ok in HM as (? & M1 & H1 & HM).
    apply bind_Ok in HM as (? & M2 & H2 & HM).
    apply bind_Ok in HM as (? & M3 & H3 & HM).
    apply bind_Ok in HM as (? & M4 & H4 & _).
    assert (K1 : respects face_kept (color_stage s))
      by (unfold color_stage; compose face_kept_finish).
    assert (K2 : respects face_kept (depth_stage s))
      by (unfold depth_stage; compose face_kept_finish).
    assert (K3 : respects face_kept (scan_stage s))
      by (unfold scan_stage; compose face_kept_finish).
    apply K1 in H1 as (E1 & E2 & E3).
    apply K2 in H2 as (E4 & E5 & E6).
    apply K3 in H3 as (E7 & E8 & E9).
    apply (face_stage_stops s M3 _ _) in H4; [exact H4 | | |]; congruence. }
  clear Hrest. rewrite Hacq in H.
  execute H.
  match goal with
  | E : rest _ = Ok _ |- _ =>
      apply Hstop in E; [exact E | | |]; cbn; (reflexivity || assumption)
  end.
Qed.

Lemma pass_faults_when_tracking_enabled_late :
  exists f,
    exec (CameraThread_iteration nothing_new) tracking_enabled_late = Fault f.
Proof.
  apply (pass_faults_without_face_output nothing_new tracking_enabled_late);
    vm_compute; reflexivity.
Defined.

#[local] Instance scan_usable_kept_order : Order scan_usable_kept.
Proof. split; unfold scan_usable_kept; auto. Qed.

Ltac scan_usable_finish :=
  unfold scan_usable_kept, scan_usable; cbn;
  try (intros; first [ reflexivity | discriminate | auto ]).

Section LoopSafety.
Context {tables : ResolutionTables}.

Lemma perform_scan_usable (e : Event) : respects scan_usable_kept (perform e).
Proof. revert e. every_event scan_usable_finish. Qed.

Lemma run_scan_usable (es : list Event) (m m' : Machine) :
  scan_usable (this m) -> run es m = Ok m' -> scan_usable (this m').
Proof.
  revert m. induction es as [|e es IH]; intros m Hs H; cbn in H.
  - inversion H; subst. exact Hs.
  - destruct (exec (perform e) m) as [m1|] eqn:E; [|discriminate].
    apply (IH m1); [|exact H].
    exact (respects_exec _ _ _ (perform_scan_usable e) E Hs).
Qed.

(** The scan stage does not go through a null pointer.  In every state that
    a run of member functions and loop passes, each run to its end, reaches
    from a newly constructed object, [scan3DEnabled] is up only when [p3DScan]
    is a live scan module.  So from such a state the scan stage of a pass
    runs to its end, given a preview image (if any) whose size [resize] can
    give.  ([ConfigureScanning] on a null [p3DScan] raises the flag before it
    goes through the pointer: that call does not run to its end.) *)
Theorem scan_stage_returns_from_reachable_state (es : list Event)
    (m : Machine) (s : Sample) :
  sample_in_range s ->
  run es power_on = Ok m ->
  (scan3DEnabled (this m) = true -> is_live (p3DScan (this m)) = true)
  /\ exists m', exec (scan_stage s) m = Ok m'.
Proof.
  intros _ Hrun.
  assert (Hscan : scan_usable (this m)).
  { apply (run_scan_usable es power_on m); [|exact Hrun].
    unfold scan_usable. cbn. discriminate. }
  split; [exact Hscan|].
  destruct (scan3DEnabled (this m)) eqn:Hon.
  - destruct (reaches_exec _ _ _ (scan_stage_view s m Hon (Hscan Hon)))
      as (m' & H & _).
    exists m'. exact H.
  - destruct (reaches_exec _ _ _ (scan_stage_off s m Hon)) as (m' & H & _).
    exists m'. exact H.
Qed.

End LoopSafety.

Lemma scan_stage_returns_after_reset_and_disable :
  (scan3DEnabled (this (or_power_on
      (run (tables := plain_tables)
           [DoEnable SCAN_3D; DoDisable SCAN_3D; DoConfigureScanning 0 true false 0;
            DoResetScanning; DoStartCamera; ThreadBegin 0; DoStartScanning]
           power_on))) = true ->
   is_live (p3DScan (this (or_power_on
      (run (tables := plain_tables)
           [DoEnable SCAN_3D; DoDisable SCAN_3D; DoConfigureScanning 0 true false 0;
            DoResetScanning; DoStartCamera; ThreadBegin 0; DoStartScanning]
           power_on)))) = true)
  /\ exists m',
       exec (scan_stage (preview_of 320 240))
            (or_power_on
               (run (tables := plain_tables)
                    [DoEnable SCAN_3D; DoDisable SCAN_3D;
                     DoConfigureScanning 0 true false 0;
                     DoResetScanning; DoStartCamera; ThreadBegin 0;
                     DoStartScanning]
                    power_on))
       = Ok m'.
Proof.
  apply (scan_stage_returns_from_reachable_state (tables := plain_tables)
           [DoEnable SCAN_3D; DoDisable SCAN_3D;
            DoConfigureScanning 0 true false 0;
            DoResetScanning; DoStartCamera; ThreadBegin 0; DoStartScanning]);
    try (vm_compute; reflexivity).
  unfold sample_in_range, preview_in_range, in_range. cbn. lia.
Defined.

(** The scan controls need the scan module.  On an object whose [p3DScan] is
    null, as before SCAN_3D is first enabled, [ConfigureScanning],
    [SetScanningVolume] and [ResetScanning] each go through the null
    pointer. *)
Theorem scan_controls_on_null_module (m : Machine) (mode : Z)
    (solidify texture : bool) (boundingBox : FVector) (resolution : Z)
    (returned : pxcStatus) :
  p3DScan (this m) = nullptr ->
  ConfigureScanning mode solidify texture returned m = Fault NullDereference
  /\ exec (SetScanningVolume boundingBox resolution returned) m
     = Fault NullDereference
  /\ exec ResetScanning m = Fault NullDereference.
Proof.
  destruct m as [[] []]. cbn. intros ->. repeat split.
Qed.

Lemma scan_controls_before_enable :
  ConfigureScanning 0 true true 0 power_on = Fault NullDereference
  /\ exec (SetScanningVolume origin 8 0) power_on = Fault NullDereference
  /\ exec ResetScanning power_on = Fault NullDereference.
Proof.
  apply (scan_controls_on_null_module power_on 0 true true origin 8 0).
  reflexivity.
Defined.

(** ** The arrays of a loaded mesh *)

Section MeshArrays.
Variable sscanf_floats : string -> list float.
Variable sscanf_ints : string -> list Z.
Variable ConvertRSVectorToUnreal : FVector -> FVector.
Variable FVector_add FVector_sub : FVector -> FVector -> FVector.
Variable FVector_scale FVector_div : FVector -> Z -> FVector.
Variable times_255_as_uint8 : float -> Z.

Lemma read_line_lengths (line : string) (l : Locals) (mesh : Mesh) :
  let mesh' := snd (read_line sscanf_floats sscanf_ints ConvertRSVectorToUnreal
                              FVector_scale times_255_as_uint8 line (l, mesh)) in
  List.length (Vertices mesh')
  = (List.length (Vertices mesh) + if is_vertex_line line then 1 else 0)%nat
  /\ List.length (Colors mesh')
     = (List.length (Colors mesh) + if is_vertex_line line then 1 else 0)%nat
  /\ List.length (Triangles mesh')
     = (List.length (Triangles mesh) + if is_face_line line then 3 else 0)%nat.
Proof.
  unfold read_line, is_vertex_line, is_face_line.
  destruct (Ascii.eqb (char_at 0 line) "v") eqn:Ev.
  - apply Ascii.eqb_eq in Ev.
    assert (Ef : Ascii.eqb (char_at 0 line) "f" = false)
      by (rewrite Ev; reflexivity).
    rewrite Ef.
    destruct (Ascii.eqb (char_at 1 line) " "); cbn;
      rewrite ?length_app; cbn; repeat split; lia.
  - destruct (Ascii.eqb (char_at 0 line) "f"); cbn;
      rewrite ?length_app; cbn; repeat split; lia.
Qed.

Lemma read_lines_lengths (lines : list string) (l : Locals) (mesh : Mesh) :
  let mesh' := snd (read_lines sscanf_floats sscanf_ints ConvertRSVectorToUnreal
                               FVector_scale times_255_as_uint8 lines (l, mesh)) in
  List.length (Vertices mesh')
  = (List.length (Vertices mesh)
     + List.length (filter is_vertex_line lines))%nat
  /\ List.length (Colors mesh')
     = (List.length (Colors mesh)
        + List.length (filter is_vertex_line lines))%nat
  /\ List.length (Triangles mesh')
     = (List.length (Triangles mesh)
        + 3 * List.length (filter is_face_line lines))%nat.
Proof.
  revert l mesh. induction lines as [|line lines IH]; intros l mesh.
  - cbn. repeat split; lia.
  - unfold read_lines. cbn [fold_left].
    destruct (read_line sscanf_floats sscanf_ints ConvertRSVectorToUnreal
                FVector_scale times_255_as_uint8 line (l, mesh))
      as [l1 mesh1] eqn:E.
    pose proof (read_line_lengths line l mesh) as H. rewrite E in H. cbn in H.
    destruct H as (Hv & Hc & Ht).
    specialize (IH l1 mesh1). unfold read_lines in IH. cbn in IH.
    destruct IH as (Iv & Ic & It).
    cbn [filter].
    destruct (is_vertex_line line); destruct (is_face_line line);
      cbn [List.length]; repeat split; lia.
Qed.

(** The arrays of a loaded mesh are parallel.  For a file that opens,
    [LoadScan] returns one vertex and one color for every line that starts
    with "v" and a blank, and three triangle indices for every line that
    starts with "f"; other lines (comments, [vn], [vt], empty lines) add
    nothing, and the centering at the end changes no length.  So [Vertices]
    and [Colors] have the same length and the length of [Triangles] is a
    multiple of three. *)
Theorem LoadScan_array_lengths files uninitialized origin filename out lines :
  files filename = Some lines ->
  let mesh := LoadScan sscanf_floats sscanf_ints ConvertRSVectorToUnreal
                       FVector_add FVector_sub FVector_scale FVector_div
                       times_255_as_uint8
                       files uninitialized origin filename out in
  List.length (Vertices mesh) = List.length (filter is_vertex_line lines)
  /\ List.length (Colors mesh) = List.length (filter is_vertex_line lines)
  /\ List.length (Triangles mesh)
     = (3 * List.length (filter is_face_line lines))%nat.
Proof.
  intros Hopen. unfold LoadScan. rewrite Hopen. cbn zeta.
  unfold center. cbn [Vertices Triangles Colors]. rewrite length_map.
  pose proof (read_lines_lengths lines uninitialized
                {| Vertices := []; Triangles := []; Colors := [] |}) as H.
  cbn in H. exact H.
Qed.






End MeshArrays.



(** With the axes as they are: the first vertex ends at 128.57143..., the
    other six at -21.428572..., and their exact sum is -2^-18 in each
    coordinate ([exact_sum] counts in units of 2^-149). *)
Example seven_vertices_centered :
  Vertices (LoadScan_seven_vertices (fun v => v) FVector_div32)
  = {| X := S754_finite false 8426057 (-16);
       Y := S754_finite false 8426057 (-16);
       Z_ := S754_finite false 8426057 (-16) |}
    :: repeat {| X := S754_finite true 11234743 (-19);
                 Y := S754_finite true 11234743 (-19);
                 Z_ := S754_finite true 11234743 (-19) |} 6
  /\ exact_sum (Vertices (LoadScan_seven_vertices (fun v => v) FVector_div32))
     = Some (- 2 ^ 131, - 2 ^ 131, - 2 ^ 131)
  /\ fold_left FVector_add32
               (Vertices (LoadScan_seven_vertices (fun v => v) FVector_div32))
               origin
     = {| X := S754_finite true 12582912 (-40);
          Y := S754_finite true 12582912 (-40);
          Z_ := S754_finite true 12582912 (-40) |}.
Proof. repeat split; vm_compute; reflexivity. Qed.

Lemma LoadScan_array_lengths_two_triangles :
  let mesh := LoadScan (fun _ => []) (fun _ => []) (fun v => v)
                       (fun v _ => v) (fun v _ => v) (fun v _ => v) (fun v _ => v)
                       (fun _ => 0)
                       (fun _ => Some a_mesh_file)
                       {| floats := []; ints := [] |} origin "scan.obj"
                       held_before in
  List.length (Vertices mesh) = 4%nat
  /\ List.length (Colors mesh) = 4%nat
  /\ List.length (Triangles mesh) = 6%nat.
Proof.
  apply (LoadScan_array_lengths (fun _ => []) (fun _ => []) (fun v => v)
           (fun v _ => v) (fun v _ => v) (fun v _ => v) (fun v _ => v)
           (fun _ => 0)
           (fun _ => Some a_mesh_file)
           {| floats := []; ints := [] |} origin "scan.obj" held_before
           a_mesh_file).
  reflexivity.
Defined.

(** ** Feature sets *)

Lemma feature_bit_index (f : RealSenseFeature) :
  feature_bit f = 2 ^ feature_index f.
Proof. destruct f; reflexivity. Qed.

Lemma land_bit (a k : Z) :
  0 <= k -> Z.land a (2 ^ k) = if Z.testbit a k then 2 ^ k else 0.
Proof.
  intros Hk. apply Z.bits_inj'. intros n Hn.
  rewrite Z.land_spec, Z.pow2_bits_eqb by exact Hk.
  destruct (Z.eqb_spec k n) as [->|Hne].
  - destruct (Z.testbit a n); cbn.
    + rewrite Z.pow2_bits_eqb by exact Hn. rewrite Z.eqb_refl. reflexivity.
    + rewrite Z.bits_0. reflexivity.
  - rewrite andb_false_r.
    destruct (Z.testbit a k).
    + rewrite Z.pow2_bits_eqb by exact Hk.
      symmetry. apply Z.eqb_neq. exact Hne.
    + rewrite Z.bits_0. reflexivity.
Qed.

Lemma has_feature_testbit (a : Z) (f : RealSenseFeature) :
  has_feature a f = Z.testbit a (feature_index f).
Proof.
  unfold has_feature. rewrite feature_bit_index, land_bit by (destruct f; cbn; lia).
  destruct (Z.testbit a (feature_index f)); destruct f; reflexivity.
Qed.

Lemma land_feature (a : Z) (f : RealSenseFeature) :
  Z.land a (feature_bit f) = if has_feature a f then feature_bit f else 0.
Proof.
  rewrite has_feature_testbit, feature_bit_index.
  apply land_bit. destruct f; cbn; lia.
Qed.

Lemma lor_feature (a : Z) (f : RealSenseFeature) :
  has_feature a f = true -> Z.lor a (feature_bit f) = a.
Proof.
  rewrite has_feature_testbit, feature_bit_index. intros H.
  apply Z.bits_inj'. intros n Hn.
  rewrite Z.lor_spec, Z.pow2_bits_eqb by (destruct f; cbn; lia).
  destruct (Z.eqb_spec (feature_index f) n) as [<-|Hne].
  - rewrite H. reflexivity.
  - apply orb_false_r.
Qed.

Lemma has_feature_own_bit (a : Z) (f : RealSenseFeature) :
  has_feature (Z.lor a (feature_bit f)) f = true.
Proof.
  rewrite has_feature_testbit, feature_bit_index, Z.lor_spec.
  rewrite Z.pow2_bits_eqb by (destruct f; cbn; lia).
  rewrite Z.eqb_refl. apply orb_true_r.
Qed.

Lemma land_all_features (a : Z) :
  Z.land a all_features
  = Z.lor (Z.land a (feature_bit CAMERA_STREAMING))
          (Z.lor (Z.land a (feature_bit SCAN_3D))
                 (Z.land a (feature_bit HEAD_TRACKING))).
Proof.
  rewrite <- !Z.land_lor_distr_r. reflexivity.
Qed.

Lemma reaches_fresh m (Q : nat -> Machine -> Prop) :
  Q (created (sdk m))
    {| this := this m;
       sdk := {| calls := calls (sdk m); created := S (created (sdk m)) |} |} ->
  reaches fresh m Q.
Proof. intros H. eexists _, _. split; [reflexivity | exact H]. Qed.

Ltac reach_all := repeat first [ reach_step | apply reaches_fresh; cbn ].

Lemma EnableRealSenseFeatures_reaches (featureSet : Z) (m : Machine) :
  exists m',
    exec (EnableRealSenseFeatures featureSet) m = Ok m'
    /\ RealSenseFeatureSet (this m')
       = Z.lor (RealSenseFeatureSet (this m)) (Z.land featureSet all_features)
    /\ forall f, feature_on f (this m')
                 = has_feature featureSet f || feature_on f (this m).
Proof.
  destruct m as [[] []].
  match goal with
  | |- exists m', _ = Ok m' /\ @?Q m' => apply (reaches_exec _ _ (fun _ => Q))
  end.
  rewrite land_all_features, !land_feature.
  unfold EnableRealSenseFeatures.
  destruct (has_feature featureSet CAMERA_STREAMING) eqn:E1;
    destruct (has_feature featureSet SCAN_3D) eqn:E2;
    destruct (has_feature featureSet HEAD_TRACKING) eqn:E3;
    unfold EnableRealSenseFeature; cbn [RealSenseFeature_eqb];
    reach_all;
    (split;
     [ cbn [feature_bit];
       rewrite ?Z.lor_0_l, ?Z.lor_0_r, <- ?Z.lor_assoc; reflexivity
     | intros f; destruct f; cbn; rewrite ?E1, ?E2, ?E3;
       cbn; rewrite ?orb_true_r; reflexivity ]).
Qed.

(** What [EnableRealSenseFeatures] has done when it returns.  It has or'ed
    into [RealSenseFeatureSet] exactly the bits of its argument that name a
    feature, ignoring any other bit, and switched on the stage of each
    feature named, leaving the other stages as they were. *)
Theorem EnableRealSenseFeatures_records_its_set (featureSet : Z)
    (m m' : Machine) :
  exec (EnableRealSenseFeatures featureSet) m = Ok m' ->
  RealSenseFeatureSet (this m')
  = Z.lor (RealSenseFeatureSet (this m)) (Z.land featureSet all_features)
  /\ forall f, feature_on f (this m')
               = has_feature featureSet f || feature_on f (this m).
Proof.
  intros H.
  destruct (EnableRealSenseFeatures_reaches featureSet m) as (m1 & H1 & Hset).
  rewrite H in H1. inversion H1; subst m1. exact Hset.
Qed.

Lemma EnableRealSenseFeatures_records_streaming_and_scan :
  RealSenseFeatureSet
    (this (or_power_on (exec (EnableRealSenseFeatures 11) streaming_disabled)))
  = Z.lor (RealSenseFeatureSet (this streaming_disabled)) (Z.land 11 all_features)
  /\ forall f,
       feature_on f
         (this (or_power_on (exec (EnableRealSenseFeatures 11) streaming_disabled)))
       = has_feature 11 f || feature_on f (this streaming_disabled).
Proof.
  apply (EnableRealSenseFeatures_records_its_set 11 streaming_disabled).
  vm_compute. reflexivity.
Defined.

Lemma lor_streaming (a : Z) :
  has_feature a CAMERA_STREAMING = true -> Z.lor a 1 = a.
Proof. exact (lor_feature a CAMERA_STREAMING). Qed.

Lemma lor_scan (a : Z) : has_feature a SCAN_3D = true -> Z.lor a 2 = a.
Proof. exact (lor_feature a SCAN_3D). Qed.

Lemma lor_tracking (a : Z) : has_feature a HEAD_TRACKING = true -> Z.lor a 4 = a.
Proof. exact (lor_feature a HEAD_TRACKING). Qed.

Ltac fold_feature_set :=
  repeat match goal with
         | E : has_feature ?a CAMERA_STREAMING = true |- context [Z.lor ?a 1] =>
             rewrite (lor_streaming a E)
         | E : has_feature ?a SCAN_3D = true |- context [Z.lor ?a 2] =>
             rewrite (lor_scan a E)
         | E : has_feature ?a HEAD_TRACKING = true |- context [Z.lor ?a 4] =>
             rewrite (lor_tracking a E)
         end.

Lemma StopCamera_reaches (m : Machine) :
  has_feature (RealSenseFeatureSet (this m)) HEAD_TRACKING = false ->
  exists m',
    exec StopCamera m = Ok m'
    /\ cameraThreadRunning (this m') = false
    /\ RealSenseFeatureSet (this m') = RealSenseFeatureSet (this m)
    /\ (forall f, feature_on f (this m')
                  = has_feature (RealSenseFeatureSet (this m)) f
                    || feature_on f (this m))
    /\ filter (fun c => match c with Close => true | _ => false end)
              (calls (sdk m'))
       = filter (fun c => match c with Close => true | _ => false end)
                (calls (sdk m)) ++ [Close].
Proof.
  destruct m as [[] []]. cbn. intros Hht.
  match goal with
  | |- exists m', _ = Ok m' /\ @?Q m' => apply (reaches_exec _ _ (fun _ => Q))
  end.
  destruct (has_feature RealSenseFeatureSet0 CAMERA_STREAMING) eqn:E1;
    destruct (has_feature RealSenseFeatureSet0 SCAN_3D) eqn:E2;
    unfold StopCamera, DisableRealSenseFeatures, EnableRealSenseFeatures,
      DisableRealSenseFeature, EnableRealSenseFeature;
    cbn [RealSenseFeature_eqb];
    repeat first [ rewrite E1 | rewrite E2 | rewrite Hht
                 | progress fold_feature_set
                 | reach_step | apply reaches_fresh; cbn ];
    (split; [|split; [|split]];
     [ reflexivity
     | cbn; fold_feature_set; reflexivity
     | intros f; destruct f; cbn;
       rewrite ?E1, ?E2, ?Hht; cbn; rewrite ?orb_true_r; reflexivity
     | cbn; rewrite ?filter_app; cbn; rewrite ?app_nil_r; reflexivity ]).
Qed.

(** What [StopCamera] has done when it returns, on an object that never had
    HEAD_TRACKING enabled.  The camera thread is marked stopped, the pipeline
    has been closed once, [RealSenseFeatureSet] is what it was, the stages of
    the recorded features are on and the other stages are as they were. *)
Theorem StopCamera_without_head_tracking (m m' : Machine) :
  has_feature (RealSenseFeatureSet (this m)) HEAD_TRACKING = false ->
  exec StopCamera m = Ok m' ->
  cameraThreadRunning (this m') = false
  /\ RealSenseFeatureSet (this m') = RealSenseFeatureSet (this m)
  /\ (forall f, feature_on f (this m')
                = has_feature (RealSenseFeatureSet (this m)) f
                  || feature_on f (this m))
  /\ filter (fun c => match c with Close => true | _ => false end)
            (calls (sdk m'))
     = filter (fun c => match c with Close => true | _ => false end)
              (calls (sdk m)) ++ [Close].
Proof.
  intros Hht H.
  destruct (StopCamera_reaches m Hht) as (m1 & H1 & Hrest).
  rewrite H in H1. inversion H1; subst m1. exact Hrest.
Qed.

Lemma StopCamera_without_head_tracking_streaming :
  cameraThreadRunning (this (or_power_on (exec StopCamera streaming_disabled)))
  = false
  /\ RealSenseFeatureSet (this (or_power_on (exec StopCamera streaming_disabled)))
     = RealSenseFeatureSet (this streaming_disabled)
  /\ (forall f,
         feature_on f (this (or_power_on (exec StopCamera streaming_disabled)))
         = has_feature (RealSenseFeatureSet (this streaming_disabled)) f
           || feature_on f (this streaming_disabled))
  /\ filter (fun c => match c with Close => true | _ => false end)
            (calls (sdk (or_power_on (exec StopCamera streaming_disabled))))
     = filter (fun c => match c with Close => true | _ => false end)
              (calls (sdk streaming_disabled)) ++ [Close].
Proof.
  apply (StopCamera_without_head_tracking streaming_disabled);
    vm_compute; reflexivity.
Defined.

Lemma StopCamera_leaves_output_released (m m1 : Machine) :
  has_feature (RealSenseFeatureSet (this m)) HEAD_TRACKING = true ->
  exec StopCamera m = Ok m1 ->
  has_feature (RealSenseFeatureSet (this m1)) HEAD_TRACKING = true
  /\ is_live (faceConfig (this m1)) = true
  /\ exists d, faceData (this m1) = released d.
Proof.
  destruct m as [[] []]. cbn. intros Hht H.
  unfold StopCamera, DisableRealSenseFeatures, EnableRealSenseFeatures in H.
  execute H; try congruence;
    (split;
     [ repeat first [ assumption
                    | apply has_feature_own_bit
                    | apply has_feature_lor ]
     | split; [reflexivity | eexists; reflexivity] ]).
Qed.

Lemma StopCamera_on_released_output (m : Machine) (d : SdkObject) :
  has_feature (RealSenseFeatureSet (this m)) HEAD_TRACKING = true ->
  is_live (faceConfig (this m)) = true ->
  faceData (this m) = released d ->
  exec StopCamera m = Fault UseAfterRelease.
Proof.
  destruct m as [[] []]. cbn. intros Hht Hconfig ->.
  destruct faceConfig0; try discriminate Hconfig.
  unfold exec, StopCamera, DisableRealSenseFeatures, DisableRealSenseFeature.
  cbv [bind get put call deref when ret]. cbn.
  destruct cameraThreadRunning0; cbn;
    destruct (has_feature RealSenseFeatureSet0 CAMERA_STREAMING); cbn;
    destruct (has_feature RealSenseFeatureSet0 SCAN_3D); cbn;
    rewrite Hht; reflexivity.
Qed.

(** With HEAD_TRACKING in the recorded set, a [StopCamera] that returns
    cannot be followed by another: the first call releases the face output
    and creates a new configuration but no new output, so the second call
    releases the released [faceData]. *)
Theorem StopCamera_twice_with_head_tracking (m m1 : Machine) :
  has_feature (RealSenseFeatureSet (this m)) HEAD_TRACKING = true ->
  exec StopCamera m = Ok m1 ->
  exec StopCamera m1 = Fault UseAfterRelease.
Proof.
  intros Hht H.
  destruct (StopCamera_leaves_output_released m m1 Hht H) as (H1 & H2 & d & H3).
  exact (StopCamera_on_released_output m1 d H1 H2 H3).
Qed.

Lemma StopCamera_twice_while_tracking :
  exec StopCamera tracking_stopped = Fault UseAfterRelease.
Proof.
  apply (StopCamera_twice_with_head_tracking tracking tracking_stopped);
    vm_compute; reflexivity.
Defined.

(** ** Finding the camera, and letting it go *)

Lemma query_devices_finds (m j : nat) (answers : list DeviceInfo) (d : Discovery) :
  deviceInfo (query_devices m j answers d) = last answers (deviceInfo d)
  /\ capture (query_devices m j answers d) = capture d
  /\ (device (query_devices m j answers d) = None
      <-> device d = None /\ existsb is_RealSense answers = false).
Proof.
  revert j d. induction answers as [|info answers IH]; intros j d.
  - cbn. intuition.
  - cbn [query_devices existsb].
    destruct (IH (S j)
                {| capture := capture d;
                   device := if is_RealSense info then Some (m, j) else device d;
                   deviceInfo := info |}) as (Hi & Hc & Hd).
    cbn in Hi, Hc, Hd. rewrite Hi, Hc, Hd, last_cons_from.
    split; [reflexivity | split; [reflexivity|]].
    destruct (is_RealSense info); cbn; intuition discriminate.
Qed.

Lemma query_modules_finds (m : nat) (modules : list CaptureModule) (d : Discovery) :
  deviceInfo (query_modules m modules d) = last (listed modules) (deviceInfo d)
  /\ (capture (query_modules m modules d) = None
      <-> capture d = None /\ existsb creatable modules = false)
  /\ (device (query_modules m modules d) = None
      <-> device d = None /\ existsb is_RealSense (listed modules) = false).
Proof.
  revert m d. induction modules as [|c modules IH]; intros m d.
  - cbn. intuition.
  - unfold listed. cbn [query_modules filter existsb].
    destruct (creatable c) eqn:Ec.
    + cbn [map List.concat]. rewrite last_app_from, existsb_app.
      destruct (IH (S m)
                  (query_devices m 0 (infos c)
                     {| capture := Some m; device := device d;
                        deviceInfo := deviceInfo d |})) as (Hi & Hc & Hd).
      destruct (query_devices_finds m 0 (infos c)
                  {| capture := Some m; device := device d;
                     deviceInfo := deviceInfo d |}) as (Qi & Qc & Qd).
      cbn in Qi, Qc, Qd. unfold listed in Hi, Hd.
      rewrite Hi, Hc, Hd, Qi, Qc, Qd.
      split; [reflexivity | split].
      * cbn. intuition discriminate.
      * rewrite orb_false_iff. intuition.
    + destruct (IH (S m) d) as (Hi & Hc & Hd).
      unfold listed in Hi, Hd. rewrite Hi, Hc, Hd. cbn.
      split; [reflexivity | split; reflexivity].
Qed.

(** What the constructor finds.  [device] is non-null exactly when some
    listed device is an F200 or an R200, but [deviceInfo] ends as the info of
    the device listed last, whatever its model: [GetCameraModel] answers for
    that one. *)
Theorem constructor_keeps_last_device_info (modules : list CaptureModule) :
  deviceInfo (find_camera modules) = last (listed modules) no_info
  /\ (device (find_camera modules) = None
      <-> existsb is_RealSense (listed modules) = false)
  /\ GetCameraModel (find_camera modules)
     = match model (last (listed modules) no_info) with
       | DEVICE_MODEL_F200 => F200
       | DEVICE_MODEL_R200 => R200
       | _ => Other
       end.
Proof.
  unfold find_camera, GetCameraModel.
  destruct (query_modules_finds 0 modules
              {| capture := None; device := None; deviceInfo := no_info |})
    as (Hi & _ & Hd).
  cbn in Hi, Hd. rewrite Hi. split; [reflexivity | split; [|reflexivity]].
  rewrite Hd. intuition.
Qed.

(** A RealSense camera followed by a webcam: the camera is selected and
    reported as [Other]. *)
Example camera_then_webcam_is_reported_as_other :
  device (find_camera camera_then_webcam) = Some (1%nat, 0%nat)
  /\ GetCameraModel (find_camera camera_then_webcam) = Other.
Proof. split; reflexivity. Qed.

(** The destructor checks [device] only.  A constructor that was given a
    session returns, whether or not [CreateSenseManager] gave an object; the
    destructor of what it leaves goes through [capture] and [senseManager]
    unchecked, so it faults exactly when no capture module could be created
    or [senseManager] is null, whether or not the camera thread is marked
    running.  Without a session the constructor itself goes through the null
    [session]. *)
Theorem destructor_needs_capture_and_senseManager (running manager_created : bool)
    (modules : list CaptureModule) :
  constructor false manager_created modules = Fault NullDereference
  /\ exists c,
       constructor true manager_created modules = Ok c
       /\ is_fault (destructor running c)
          = negb (existsb creatable modules && manager_created).
Proof.
  split; [reflexivity|].
  eexists. split; [reflexivity|].
  unfold find_camera, destructor. cbn [found senseManager].
  destruct (query_modules_finds 0 modules
              {| capture := None; device := None; deviceInfo := no_info |})
    as (_ & Hc & _).
  cbn in Hc.
  destruct (capture (query_modules 0 modules _)) eqn:E;
    destruct (existsb creatable modules); destruct manager_created;
    cbn; try reflexivity.
  - destruct Hc as [_ Hc]. discriminate (Hc (conj eq_refl eq_refl)).
  - destruct Hc as [Hc _]. destruct (Hc eq_refl) as [_ Habs]. discriminate Habs.
Qed.

(** A camera was found but [CreateSenseManager] failed: the destructor goes
    through the null [senseManager]. *)
Example destructor_without_senseManager :
  exists c,
    constructor true false camera_then_webcam = Ok c
    /\ destructor false c = Fault NullDereference.
Proof. eexists. split; reflexivity. Qed.

(** ** Requests are flags, not a queue *)

Lemma exec_seq (c1 c2 : M unit) (m : Machine) :
  exec (c1 ;; c2) m
  = match exec c1 m with
    | Ok m1 => exec c2 m1
    | Fault f => Fault f
    end.
Proof.
  unfold exec, bind. destruct (c1 m) as [[[] m1]|]; reflexivity.
Qed.

(** Two [SaveScan] calls before the next pass give one reconstruction, with
    the format and file name of the second call. *)
Theorem SaveScan_last_request_wins (format1 format2 : FileFormat)
    (filename1 filename2 : string) (s : Sample) (m : Machine) :
  cameraThreadRunning (this m) = true ->
  acquired s = PXC_STATUS_NO_ERROR ->
  scan3DEnabled (this m) = true ->
  is_live (p3DScan (this m)) = true ->
  face_ready (this m) = true ->
  exists m',
    exec (SaveScan format1 filename1 ;; SaveScan format2 filename2 ;;
          CameraThread_iteration s) m = Ok m'
    /\ filter is_Reconstruct (scan_commands m')
       = filter is_Reconstruct (scan_commands m)
         ++ [Reconstruct format2 filename2]
    /\ reconstructEnabled (this m') = false
    /\ scanCompleted (this m') = true.
Proof.
  intros Hrun Hacq Hon Hlive Hready.
  destruct m as [[] []]. cbn in Hrun, Hon, Hlive, Hready. subst.
  rewrite exec_seq. cbn. rewrite exec_seq. cbn.
  match goal with
  | |- exists m', exec _ ?M = _ /\ _ =>
      destruct (pass_scan_on s M eq_refl Hacq eq_refl Hlive Hready)
        as (m' & H & _ & _ & Hreq & Hdone & Hcmd)
  end.
  exists m'. split; [exact H|].
  rewrite Hcmd. cbn in Hdone |- *. unfold commands_for. cbn.
  rewrite !filter_app. cbn.
  destruct scanStarted0, scanStopped0; cbn;
    rewrite ?app_nil_r, ?orb_true_r in *; repeat split; assumption || reflexivity.
Qed.

Lemma SaveScan_twice_on_scanning :
  exists m',
    exec (SaveScan OBJ "first.obj" ;; SaveScan PLY "second.ply" ;;
          CameraThread_iteration nothing_new) scanning = Ok m'
    /\ filter is_Reconstruct (scan_commands m')
       = [Reconstruct PLY "second.ply"]
    /\ reconstructEnabled (this m') = false
    /\ scanCompleted (this m') = true.
Proof.
  apply (SaveScan_last_request_wins OBJ PLY "first.obj" "second.ply"
           nothing_new scanning);
    vm_compute; reflexivity.
Defined.

(** The order of a start and a stop request is lost.  Whichever of
    [StartScanning] and [StopScanning] is called first, the next pass sends
    the start command and then the stop command: scanning ends stopped. *)
Theorem start_and_stop_in_either_order (s : Sample) (m : Machine) :
  cameraThreadRunning (this m) = true ->
  acquired s = PXC_STATUS_NO_ERROR ->
  scan3DEnabled (this m) = true ->
  is_live (p3DScan (this m)) = true ->
  face_ready (this m) = true ->
  (exists m',
      exec (StartScanning ;; StopScanning ;; CameraThread_iteration s) m = Ok m'
      /\ filter (fun c => negb (is_Reconstruct c)) (scan_commands m')
         = filter (fun c => negb (is_Reconstruct c)) (scan_commands m)
           ++ [SetStartScan true; SetStartScan false])
  /\ (exists m',
         exec (StopScanning ;; StartScanning ;; CameraThread_iteration s) m = Ok m'
         /\ filter (fun c => negb (is_Reconstruct c)) (scan_commands m')
            = filter (fun c => negb (is_Reconstruct c)) (scan_commands m)
              ++ [SetStartScan true; SetStartScan false]).
Proof.
  intros Hrun Hacq Hon Hlive Hready.
  destruct m as [[] []]. cbn in Hrun, Hon, Hlive, Hready. subst.
  split; rewrite exec_seq; cbn; rewrite exec_seq; cbn;
    match goal with
    | |- exists m', exec _ ?M = _ /\ _ =>
        destruct (pass_scan_on s M eq_refl Hacq eq_refl Hlive Hready)
          as (m' & H & _ & _ & _ & _ & Hcmd)
    end;
    (exists m'; split; [exact H|]);
    rewrite Hcmd; unfold commands_for; cbn;
    rewrite !filter_app; cbn;
    destruct reconstructEnabled0; cbn; rewrite ?app_nil_r; reflexivity.
Qed.

Lemma stop_then_start_on_scanning :
  (exists m',
      exec (StartScanning ;; StopScanning ;; CameraThread_iteration nothing_new)
           scanning = Ok m'
      /\ filter (fun c => negb (is_Reconstruct c)) (scan_commands m')
         = [SetStartScan true; SetStartScan false])
  /\ (exists m',
         exec (StopScanning ;; StartScanning ;; CameraThread_iteration nothing_new)
              scanning = Ok m'
         /\ filter (fun c => negb (is_Reconstruct c)) (scan_commands m')
            = [SetStartScan true; SetStartScan false]).
Proof.
  apply (start_and_stop_in_either_order nothing_new scanning);
    vm_compute; reflexivity.
Defined.

(** ** The head data of a published frame *)

#[local] Instance head_kept_order : Order head_kept.
Proof.
  split; unfold head_kept.
  - intros m. split; [apply Rel_refl | reflexivity].
  - intros a b c [H1 H2] [H3 H4].
    split; [exact (Rel_trans _ _ _ H1 H3) | congruence].
Qed.

Ltac head_kept_finish :=
  unfold head_kept, face_kept, head_data; cbn; repeat split; reflexivity.

Lemma face_stage_writes_head (s : Sample) (m : Machine) u m' :
  faceEnabled (this m) = true ->
  non_null (pFace (this m)) = true ->
  face_stage s m = Ok (u, m') ->
  head_data (bgFrame (this m'))
  = (faces s,
     if 0 <? faces s
     then match pose s with
          | Some (position, _) => position
          | None => headPosition (bgFrame (this m))
          end
     else headPosition (bgFrame (this m)),
     if 0 <? faces s
     then match pose s with
          | Some (_, rotation) => rotation
          | None => headRotation (bgFrame (this m))
          end
     else headRotation (bgFrame (this m))).
Proof.
  destruct m as [[] []]. cbn. intros -> Hface H.
  unfold face_stage in H. unfold head_data.
  destruct pFace0; try discriminate Hface;
    execute H; reflexivity.
Qed.

(** What a pass publishes about the head.  With head tracking on and a
    frame at hand, a pass that returns publishes the number of faces the
    sample reports.  Position and rotation are those of the sample's pose
    when there is a face and a pose; otherwise they are whatever the frame
    that served as background held, that is, values of an older frame. *)
Theorem pass_publishes_head_data (s : Sample) (m m' : Machine) :
  cameraThreadRunning (this m) = true ->
  acquired s = PXC_STATUS_NO_ERROR ->
  faceEnabled (this m) = true ->
  non_null (pFace (this m)) = true ->
  exec (CameraThread_iteration s) m = Ok m' ->
  head_data (midFrame (this m'))
  = (faces s,
     if 0 <? faces s
     then match pose s with
          | Some (position, _) => position
          | None => headPosition (bgFrame (this m))
          end
     else headPosition (bgFrame (this m)),
     if 0 <? faces s
     then match pose s with
          | Some (_, rotation) => rotation
          | None => headRotation (bgFrame (this m))
          end
     else headRotation (bgFrame (this m))).
Proof.
  intros Hrun Hacq Hon Hface H.
  destruct m as [[] []]. cbn in Hrun, Hon, Hface. subst.
  unfold CameraThread_iteration, process_frame in H.
  remember (bind (color_stage s) _) as rest eqn:Hrest.
  assert (Hhead : forall M u M', rest M = Ok (u, M') ->
            faceEnabled (this M) = true ->
            non_null (pFace (this M)) = true ->
            head_data (bgFrame (this M'))
            = (faces s,
               if 0 <? faces s
               then match pose s with
                    | Some (position, _) => position
                    | None => headPosition (bgFrame (this M))
                    end
               else headPosition (bgFrame (this M)),
               if 0 <? faces s
               then match pose s with
                    | Some (_, rotation) => rotation
                    | None => headRotation (bgFrame (this M))
                    end
               else headRotation (bgFrame (this M)))).
  { subst rest. intros M u M' HM Ha Hb.
    apply bind_Ok in HM as (? & M1 & H1 & HM).
    apply bind_Ok in HM as (? & M2 & H2 & HM).
    apply bind_Ok in HM as (? & M3 & H3 & HM).
    apply bind_Ok in HM as (? & M4 & H4 & H5).
    assert (K1 : respects head_kept (color_stage s))
      by (unfold color_stage; compose head_kept_finish).
    assert (K2 : respects head_kept (depth_stage s))
      by (unfold depth_stage; compose head_kept_finish).
    assert (K3 : respects head_kept (scan_stage s))
      by (unfold scan_stage; compose head_kept_finish).
    apply K1 in H1 as ((E1 & E2 & _) & D1).
    apply K2 in H2 as ((E3 & E4 & _) & D2).
    apply K3 in H3 as ((E5 & E6 & _) & D3).
    apply face_stage_writes_head in H4; [|congruence|congruence].
    cbv [call] in H5. inversion H5; subst M'. cbn [this bgFrame].
    rewrite H4.
    assert (D : head_data (bgFrame (this M3)) = head_data (bgFrame (this M)))
      by congruence.
    unfold head_data in D. inversion D as [[D4 D5 D6]].
    rewrite D5, D6. reflexivity. }
  clear Hrest. rewrite Hacq in H.
  execute H.
  match goal with
  | E : rest _ = Ok (_, ?M1) |- _ =>
      apply Hhead in E; [|reflexivity|assumption]; destruct M1 as [[] ?]
  end.
  cbn in *. assumption.
Qed.

Lemma pass_publishes_head_data_one_face :
  head_data (midFrame (this (or_power_on
     (exec (CameraThread_iteration (one_face somewhere no_rotation)) tracking))))
  = (1, somewhere, no_rotation).
Proof.
  apply (pass_publishes_head_data (one_face somewhere no_rotation) tracking);
    vm_compute; reflexivity.
Defined.

(** ** Counting frames *)

#[local] Instance running_kept_order : Order running_kept.
Proof. split; unfold running_kept; intros; congruence. Qed.

Ltac running_finish := unfold running_kept; cbn; reflexivity.

Lemma pass_keeps_running (s : Sample) :
  respects running_kept (CameraThread_iteration s).
Proof.
  unfold CameraThread_iteration, process_frame, scan_stage.
  compose running_finish.
Qed.

Section FrameCount.
Context {tables : ResolutionTables}.

(** The counter counts the frames acquired.  Over any number of passes of a
    running loop, the counter advances by the number of passes whose
    [AcquireFrame] gave a frame, modulo 2^64; passes without a frame do not
    count. *)
Theorem counter_counts_acquired_frames (samples : list Sample) (m m' : Machine) :
  cameraThreadRunning (this m) = true ->
  0 <= currentFrame (this m) < 2 ^ 64 ->
  run (passes samples) m = Ok m' ->
  currentFrame (this m')
  = (currentFrame (this m) + frames_acquired samples) mod 2 ^ 64.
Proof.
  unfold frames_acquired.
  revert m. induction samples as [|s samples IH]; intros m Hrun Hc H.
  - cbn in H. inversion H; subst. cbn. rewrite Z.add_0_r.
    symmetry. apply Z.mod_small. exact Hc.
  - cbn [passes map run perform] in H.
    destruct (exec (CameraThread_iteration s) m) as [m1|] eqn:E; [|discriminate].
    assert (Hrun1 : cameraThreadRunning (this m1) = true).
    { pose proof (respects_exec _ _ _ (pass_keeps_running s) E) as K.
      unfold running_kept in K. congruence. }
    cbn [filter].
    destruct (acquired s =? PXC_STATUS_NO_ERROR) eqn:Hacq.
    + apply Z.eqb_eq in Hacq.
      destruct (pass_stamps s m m1 Hrun Hacq E) as (Hc1 & _).
      assert (Hb : 0 <= currentFrame (this m1) < 2 ^ 64)
        by (rewrite Hc1; apply Z.mod_pos_bound; lia).
      rewrite (IH m1 Hrun1 Hb H), Hc1.
      cbn [List.length]. rewrite Nat2Z.inj_succ.
      rewrite Z.add_mod_idemp_l by lia. f_equal. lia.
    + apply Z.eqb_neq in Hacq.
      pose proof (pass_idle s m m1 (or_intror Hacq) E) as K.
      unfold numbers in K. inversion K as [[K1 K2 K3 K4]].
      assert (Hb : 0 <= currentFrame (this m1) < 2 ^ 64) by (rewrite K4; exact Hc).
      rewrite (IH m1 Hrun1 Hb H), K4. reflexivity.
Qed.

End FrameCount.

Lemma counter_counts_two_of_four :
  currentFrame
    (this (or_power_on
             (run (tables := plain_tables)
                  (passes [nothing_new; no_frame_sample; no_frame_sample;
                           color_and_depth])
                  streaming_640x480)))
  = 2.
Proof.
  apply (counter_counts_acquired_frames (tables := plain_tables)
           [nothing_new; no_frame_sample; no_frame_sample; color_and_depth]
           streaming_640x480);
    try (vm_compute; reflexivity).
  vm_compute. split; [discriminate | reflexivity].
Defined.
